(** * Personalized Video Learning: messaging, behaviour monitor, settings

    A shallow embedding of the extension's request lifecycle layer:
    - [MessageClient]   (content side: port transport, transient transport),
    - [AIService]       (confusion heuristic, key check, tolerant JSON extraction),
    - [BehaviorTracker] (rewind / pause counters and the periodic check),
    - [StorageManager], [MessageRouter], [Background] (settings and dispatch).

    JavaScript values are modelled by [JS.value].  Strings are byte strings
    (the UTF-8 image of the JavaScript string); all characters the code tests
    for are ASCII, so byte-wise search agrees with code-unit-wise search. *)

From Stdlib Require Import ZArith QArith Qround Qpower String Ascii List Lia Lqa Bool.
From Stdlib Require DecimalString DecimalPos DecimalN DecimalZ.
From stdpp Require Import gmap strings list.
Import ListNotations.

#[local] Set Warnings "-register-all".

(* ================================================================== *)
(** ** JavaScript values as the code manipulates them *)
(* ================================================================== *)

Module JS.

(** A runtime value.  Numbers that only travel through the code (JSON
    payloads) are kept as their decimal literal; the arithmetic the code
    performs on counters is modelled on [Z] where it happens.
    [VBuiltin] stands for a function or host object reached through a
    prototype (for instance [Object] itself). *)
Inductive value : Type :=
| VUndefined
| VNull
| VBool (b : bool)
| VNum (lit : string)
| VStr (s : string)
| VArr (xs : list value)
| VObj (props : list (string * value))
| VBuiltin (name : string).

(** Thrown values: [new Error(msg)] and the engine's [TypeError]. *)
Inductive js_error : Type :=
| Error (message : string)
| TypeError (message : string).

Definition message (e : js_error) : string :=
  match e with Error m => m | TypeError m => m end.

(** Completion of a call: a returned value (a fulfilled promise for an
    async function) or a thrown error (a rejected promise). *)
Inductive outcome (A : Type) : Type :=
| Returns (a : A)
| Throws (e : js_error).
Arguments Returns {A} a.
Arguments Throws {A} e.

Definition is_digit (c : ascii) : bool :=
  let n := nat_of_ascii c in (48 <=? n)%nat && (n <=? 57)%nat.

(** A numeric literal denotes zero when every digit of its mantissa is 0. *)
Fixpoint is_zero_literal (lit : string) : bool :=
  match lit with
  | EmptyString => true
  | String c rest =>
      if (c =? "e")%char || (c =? "E")%char then true
      else if is_digit c then (c =? "0")%char && is_zero_literal rest
      else is_zero_literal rest
  end.

(** ToBoolean. *)
Definition truthy (v : value) : bool :=
  match v with
  | VUndefined | VNull => false
  | VBool b => b
  | VNum lit => negb (is_zero_literal lit)
  | VStr s => negb (String.eqb s "")
  | VArr _ | VObj _ | VBuiltin _ => true
  end.

(** A value that JSON can carry: no undefined and no function inside.
    Message payloads and stored settings are such values. *)
Fixpoint is_json (v : value) : bool :=
  match v with
  | VUndefined | VBuiltin _ => false
  | VNull | VBool _ | VNum _ | VStr _ => true
  | VArr xs => forallb is_json xs
  | VObj props => forallb (fun kv => is_json (snd kv)) props
  end.

(** [a || b] and [a ?? b]. *)
Definition or_else (a b : value) : value := if truthy a then a else b.

Definition nullish (a b : value) : value :=
  match a with VUndefined | VNull => b | _ => a end.

(** [v === s] for a string [s]. *)
Definition strict_eq_string (v : value) (s : string) : bool :=
  match v with VStr s' => String.eqb s' s | _ => false end.

(** Own properties of a plain object, in insertion order. *)
Fixpoint own_lookup (props : list (string * value)) (k : string) : option value :=
  match props with
  | [] => None
  | (k', v) :: rest => if String.eqb k' k then Some v else own_lookup rest k
  end.

Fixpoint own_replace (props : list (string * value)) (k : string) (v : value)
  : list (string * value) :=
  match props with
  | [] => []
  | (k', v') :: rest =>
      if String.eqb k' k then (k', v) :: rest else (k', v') :: own_replace rest k v
  end.

(** Every object literal and every deserialised object has [Object.prototype]
    as its prototype; these are the names a property read finds there. *)
Definition object_prototype_names : list string :=
  [ "constructor"; "__defineGetter__"; "__defineSetter__"; "hasOwnProperty";
    "__lookupGetter__"; "__lookupSetter__"; "isPrototypeOf";
    "propertyIsEnumerable"; "toString"; "valueOf"; "__proto__";
    "toLocaleString" ].

Definition is_inherited (k : string) : bool :=
  existsb (String.eqb k) object_prototype_names.

(** What a read of [k] yields when no own property answers. *)
Definition inherited (k : string) : value :=
  if String.eqb k "constructor" then VBuiltin "Object"
  else if String.eqb k "__proto__" then VBuiltin "Object.prototype"
  else if is_inherited k then VBuiltin ("Object.prototype." +:+ k)
  else VUndefined.

(** [o[k]] on a plain object: own property first, then the prototype. *)
Definition obj_get (props : list (string * value)) (k : string) : value :=
  match own_lookup props k with
  | Some v => v
  | None => inherited k
  end.

(** [v[k]] / [v.k] on a value that is not null or undefined.  For
    primitives and arrays only the members of [Object.prototype] are
    modelled (indices, [length] and the members of their own prototypes
    are not): every statement below reads such a receiver through fixed
    names only ([requestId], [success], [data], [error], ...), which none
    of those prototypes defines. *)
Definition js_get (v : value) (k : string) : value :=
  match v with
  | VObj props => obj_get props k
  | _ => inherited k
  end.

(** [v?.k]. *)
Definition opt_get (v : value) (k : string) : value :=
  match v with
  | VUndefined | VNull => VUndefined
  | _ => js_get v k
  end.

(** [v?.[0]].  On an array it is the first element; on a plain object it
    is the property named "0".  On a string it would be the first
    character: the code only goes on to read a named property of the
    result, which a character does not have, so undefined is answered at
    once. *)
Definition opt_first (v : value) : value :=
  match v with
  | VArr xs => nth 0 xs VUndefined
  | VObj props => obj_get props "0"
  | _ => VUndefined
  end.

(** [o[k] = v] on a plain object: an own property is overwritten; otherwise
    a new own property is appended, except that [__proto__] is an accessor
    of [Object.prototype] whose setter never creates an own property (it
    replaces the prototype when [v] is an object; the code never reads an
    object after that, so the prototype is not tracked). *)
Definition obj_set (props : list (string * value)) (k : string) (v : value)
  : list (string * value) :=
  match own_lookup props k with
  | Some _ => own_replace props k v
  | None => if String.eqb k "__proto__" then props else props ++ [(k, v)]
  end.

(** [{ [k]: v }] and JSON.parse define the property directly
    (CreateDataProperty): no setter is involved. *)
Definition obj_define (props : list (string * value)) (k : string) (v : value)
  : list (string * value) :=
  match own_lookup props k with
  | Some _ => own_replace props k v
  | None => props ++ [(k, v)]
  end.

(** [typeof v === 'boolean'] and [v === false]. *)
Definition is_boolean (v : value) : bool :=
  match v with VBool _ => true | _ => false end.

Definition strict_eq_false (v : value) : bool :=
  match v with VBool false => true | _ => false end.

(** Integers as numbers: the literal is the decimal notation JavaScript
    prints for them (exact below 2^53 in absolute value). *)
Definition num_of_N (n : N) : value :=
  VNum (DecimalString.NilZero.string_of_uint (N.to_uint n)).

Definition num_of_Z (z : Z) : value :=
  VNum (DecimalString.NilZero.string_of_int (Z.to_int z)).

(** The non-negative integer a number is, when its literal is that
    integer's decimal notation. *)
Definition as_N (v : value) : option N :=
  match v with
  | VNum lit =>
      match DecimalString.NilZero.uint_of_string lit with
      | Some u =>
          if String.eqb (DecimalString.NilZero.string_of_uint (N.to_uint (N.of_uint u))) lit
          then Some (N.of_uint u) else None
      | None => None
      end
  | _ => None
  end.

(** [v + 1] on such a number, where the sum is exact (below 2^53).  On any
    other value ([undefined + 1] is NaN, a string is concatenated, ...)
    the sum is not modelled. *)
Definition add_one (v : value) : option value :=
  match as_N v with
  | Some n => if (n <? 9007199254740992)%N then Some (num_of_N (n + 1)) else None
  | None => None
  end.

(** The own enumerable properties [{ ...v }] copies.  null, undefined, a
    boolean and a number contribute none, nor does an empty string or
    array.  A non-empty string or array contributes its indices and a
    function is no setting: these are not modelled ([None]). *)
Definition spread (v : value) : option (list (string * value)) :=
  match v with
  | VObj props => Some props
  | VUndefined | VNull | VBool _ | VNum _ => Some []
  | VStr s => if String.eqb s "" then Some [] else None
  | VArr [] => Some []
  | VArr (_ :: _) => None
  | VBuiltin _ => None
  end.

(** The properties of [source] defined one by one on [target]. *)
Definition define_all (target source : list (string * value)) : list (string * value) :=
  fold_left (fun acc kv => obj_define acc kv.1 kv.2) source target.

(** [{ ...a, ...b }]. *)
Definition object_spread (a b : value) : option value :=
  match spread a, spread b with
  | Some pa, Some pb => Some (VObj (define_all (define_all [] pa) pb))
  | _, _ => None
  end.

End JS.
Export JS.

(* ================================================================== *)
(** ** JSON.parse *)
(* ================================================================== *)

Module Json.

Definition dquote : ascii := ascii_of_nat 34.
Definition backslash : ascii := ascii_of_nat 92.

(** Test inputs are written with an apostrophe where the JSON text has a
    double quote; [dq] puts the double quotes back. *)
Fixpoint dq (s : string) : string :=
  match s with
  | EmptyString => EmptyString
  | String c rest => String (if (c =? "'")%char then dquote else c) (dq rest)
  end.

(** JSON whitespace: space, tab, line feed, carriage return. *)
Definition is_ws (c : ascii) : bool :=
  let n := nat_of_ascii c in
  (n =? 32)%nat || (n =? 9)%nat || (n =? 10)%nat || (n =? 13)%nat.

Fixpoint skip_ws (s : string) : string :=
  match s with
  | String c rest => if is_ws c then skip_ws rest else s
  | EmptyString => EmptyString
  end.

Fixpoint strip_prefix (p s : string) : option string :=
  match p, s with
  | EmptyString, _ => Some s
  | String a p', String b s' => if (a =? b)%char then strip_prefix p' s' else None
  | String _ _, EmptyString => None
  end.

(** *** Numbers: an optional minus sign, an integer part without a leading
    zero (or a single 0), an optional fraction, an optional exponent. *)

Fixpoint span_digits (s : string) : string * string :=
  match s with
  | String c rest =>
      if is_digit c then let (d, r) := span_digits rest in (String c d, r)
      else (EmptyString, s)
  | EmptyString => (EmptyString, EmptyString)
  end.

Definition lex_int (s : string) : option (string * string) :=
  match s with
  | String c rest =>
      if (c =? "0")%char then Some ("0", rest)
      else if is_digit c then let (d, r) := span_digits rest in Some (String c d, r)
      else None
  | EmptyString => None
  end.

Definition lex_digits1 (s : string) : option (string * string) :=
  match span_digits s with
  | (EmptyString, _) => None
  | (d, r) => Some (d, r)
  end.

Definition lex_frac (s : string) : option (string * string) :=
  match s with
  | String c rest =>
      if (c =? ".")%char then
        match lex_digits1 rest with
        | Some (d, r) => Some (String c d, r)
        | None => None
        end
      else Some (EmptyString, s)
  | EmptyString => Some (EmptyString, s)
  end.

Definition lex_exp (s : string) : option (string * string) :=
  match s with
  | String c rest =>
      if (c =? "e")%char || (c =? "E")%char then
        match rest with
        | String sg rest' =>
            if (sg =? "+")%char || (sg =? "-")%char then
              match lex_digits1 rest' with
              | Some (d, r) => Some (String c (String sg d), r)
              | None => None
              end
            else
              match lex_digits1 rest with
              | Some (d, r) => Some (String c d, r)
              | None => None
              end
        | EmptyString => None
        end
      else Some (EmptyString, s)
  | EmptyString => Some (EmptyString, s)
  end.

Definition lex_unsigned (s : string) : option (string * string) :=
  match lex_int s with
  | Some (i, r1) =>
      match lex_frac r1 with
      | Some (f, r2) =>
          match lex_exp r2 with
          | Some (e, r3) => Some (i +:+ f +:+ e, r3)
          | None => None
          end
      | None => None
      end
  | None => None
  end.

Definition lex_number (s : string) : option (string * string) :=
  match s with
  | String c rest =>
      if (c =? "-")%char then
        match lex_unsigned rest with
        | Some (l, r) => Some (String c l, r)
        | None => None
        end
      else lex_unsigned s
  | EmptyString => None
  end.

(** *** Strings *)

Definition hex_val (c : ascii) : option N :=
  let n := N_of_ascii c in
  if (48 <=? n)%N && (n <=? 57)%N then Some (n - 48)%N
  else if (65 <=? n)%N && (n <=? 70)%N then Some (n - 55)%N
  else if (97 <=? n)%N && (n <=? 102)%N then Some (n - 87)%N
  else None.

Definition hex4 (a b c d : ascii) : option N :=
  match hex_val a, hex_val b, hex_val c, hex_val d with
  | Some x, Some y, Some z, Some w => Some (((x * 16 + y) * 16 + z) * 16 + w)%N
  | _, _, _, _ => None
  end.

(** The UTF-8 image of a code point (a lone surrogate is written in the
    same three-byte form). *)
Definition utf8_encode (cp : N) : string :=
  let b (n : N) := ascii_of_N n in
  (if cp <? 128 then String (b cp) EmptyString
   else if cp <? 2048 then
     String (b (192 + cp / 64)) (String (b (128 + cp mod 64)) EmptyString)
   else if cp <? 65536 then
     String (b (224 + cp / 4096))
       (String (b (128 + (cp / 64) mod 64)) (String (b (128 + cp mod 64)) EmptyString))
   else
     String (b (240 + cp / 262144))
       (String (b (128 + (cp / 4096) mod 64))
          (String (b (128 + (cp / 64) mod 64))
             (String (b (128 + cp mod 64)) EmptyString))))%N.

Definition simple_escape (e : ascii) : option ascii :=
  if (e =? dquote)%char then Some dquote
  else if (e =? backslash)%char then Some backslash
  else if (e =? "/")%char then Some "/"%char
  else if (e =? "b")%char then Some (ascii_of_nat 8)
  else if (e =? "f")%char then Some (ascii_of_nat 12)
  else if (e =? "n")%char then Some (ascii_of_nat 10)
  else if (e =? "r")%char then Some (ascii_of_nat 13)
  else if (e =? "t")%char then Some (ascii_of_nat 9)
  else None.

(** The low half of a surrogate pair, when [s] starts with one. *)
Definition low_surrogate (s : string) : option N :=
  match s with
  | String c1 (String c2 (String h1 (String h2 (String h3 (String h4 _))))) =>
      if (c1 =? backslash)%char && (c2 =? "u")%char then
        match hex4 h1 h2 h3 h4 with
        | Some lo => if (56320 <=? lo)%N && (lo <? 57344)%N then Some lo else None
        | None => None
        end
      else None
  | _ => None
  end.

(** The characters after an opening double quote, up to the closing one. *)
Fixpoint parse_string_body (s : string) : option (string * string) :=
  match s with
  | EmptyString => None
  | String c rest =>
      if (c =? dquote)%char then Some (EmptyString, rest)
      else if (c =? backslash)%char then
        match rest with
        | EmptyString => None
        | String e rest' =>
            if (e =? "u")%char then
              match rest' with
              | String h1 (String h2 (String h3 (String h4 rest''))) =>
                  match hex4 h1 h2 h3 h4 with
                  | None => None
                  | Some cu =>
                      match (if (55296 <=? cu)%N && (cu <? 56320)%N
                             then low_surrogate rest'' else None), rest'' with
                      | Some lo, String _ (String _ (String _ (String _ (String _ (String _ rest3))))) =>
                          match parse_string_body rest3 with
                          | Some (t, r) =>
                              Some (utf8_encode (65536 + (cu - 55296) * 1024 + (lo - 56320))%N
                                      +:+ t, r)
                          | None => None
                          end
                      | _, _ =>
                          match parse_string_body rest'' with
                          | Some (t, r) => Some (utf8_encode cu +:+ t, r)
                          | None => None
                          end
                      end
                  end
              | _ => None
              end
            else
              match simple_escape e with
              | Some ch =>
                  match parse_string_body rest' with
                  | Some (t, r) => Some (String ch t, r)
                  | None => None
                  end
              | None => None
              end
        end
      else if (nat_of_ascii c <? 32)%nat then None
      else
        match parse_string_body rest with
        | Some (t, r) => Some (String c t, r)
        | None => None
        end
  end.

(** *** Values *)

(** A string, a literal name or a number at the head of [s]. *)
Definition parse_scalar (s : string) : option (value * string) :=
  match s with
  | EmptyString => None
  | String c rest =>
      if (c =? dquote)%char then
        match parse_string_body rest with
        | Some (str, r) => Some (VStr str, r)
        | None => None
        end
      else if (c =? "t")%char then
        match strip_prefix "true" s with
        | Some r => Some (VBool true, r)
        | None => None
        end
      else if (c =? "f")%char then
        match strip_prefix "false" s with
        | Some r => Some (VBool false, r)
        | None => None
        end
      else if (c =? "n")%char then
        match strip_prefix "null" s with
        | Some r => Some (VNull, r)
        | None => None
        end
      else
        match lex_number s with
        | Some (lit, r) => Some (VNum lit, r)
        | None => None
        end
  end.

(** A member's key and the colon after it. *)
Definition parse_key (s : string) : option (string * string) :=
  match skip_ws s with
  | String q rest =>
      if (q =? dquote)%char then
        match parse_string_body rest with
        | Some (key, r1) =>
            match skip_ws r1 with
            | String colon r2 => if (colon =? ":")%char then Some (key, r2) else None
            | EmptyString => None
            end
        | None => None
        end
      else None
  | EmptyString => None
  end.

(** The three functions consume one unit of [fuel] per call; [JSON_parse]
    supplies more than twice the length of the text, which is enough
    (see [JSON_parse_fuel] below). *)
Fixpoint parse_value (fuel : nat) (s : string) {struct fuel} : option (value * string) :=
  match fuel with
  | O => None
  | S fuel' =>
      match skip_ws s with
      | EmptyString => None
      | String c rest =>
          if (c =? "{")%char then
            match skip_ws rest with
            | String c' rest' =>
                if (c' =? "}")%char then Some (VObj [], rest')
                else parse_members fuel' (String c' rest') []
            | EmptyString => None
            end
          else if (c =? "[")%char then
            match skip_ws rest with
            | String c' rest' =>
                if (c' =? "]")%char then Some (VArr [], rest')
                else parse_elements fuel' (String c' rest') []
            | EmptyString => None
            end
          else parse_scalar (String c rest)
      end
  end
with parse_elements (fuel : nat) (s : string) (acc : list value) {struct fuel}
  : option (value * string) :=
  match fuel with
  | O => None
  | S fuel' =>
      match parse_value fuel' s with
      | None => None
      | Some (v, rest) =>
          match skip_ws rest with
          | String c rest' =>
              if (c =? ",")%char then parse_elements fuel' rest' (acc ++ [v])
              else if (c =? "]")%char then Some (VArr (acc ++ [v]), rest')
              else None
          | EmptyString => None
          end
      end
  end
with parse_members (fuel : nat) (s : string) (acc : list (string * value)) {struct fuel}
  : option (value * string) :=
  match fuel with
  | O => None
  | S fuel' =>
      match parse_key s with
      | None => None
      | Some (key, r2) =>
          match parse_value fuel' r2 with
          | None => None
          | Some (v, r3) =>
              match skip_ws r3 with
              | String c r4 =>
                  if (c =? ",")%char then parse_members fuel' r4 (obj_define acc key v)
                  else if (c =? "}")%char then Some (VObj (obj_define acc key v), r4)
                  else None
              | EmptyString => None
              end
          end
      end
  end.

(** [JSON.parse(text)]: [None] when it throws a SyntaxError. *)
Definition JSON_parse (text : string) : option value :=
  match parse_value (2 * String.length text + 2) text with
  | Some (v, rest) =>
      match skip_ws rest with
      | EmptyString => Some v
      | String _ _ => None
      end
  | None => None
  end.

End Json.
Export Json.

(* ================================================================== *)
(** ** chrome.storage.sync *)
(* ================================================================== *)

Module ChromeStorage.

(** The storage area: a finite map from keys to the stored values. *)

(** A property of [items] whose value does not serialise (undefined, a
    function) is skipped by [set], as by JSON.stringify.  The values the
    code hands to [set] are JSON inside ([is_json]), so what is stored is
    the value as given. *)
Definition storable (v : value) : bool :=
  match v with
  | VUndefined | VBuiltin _ => false
  | _ => true
  end.

(** [chrome.storage.sync.set(items)]. *)
Definition set (st : gmap string value) (items : list (string * value))
  : gmap string value :=
  fold_left (fun acc kv => if storable kv.2 then <[kv.1 := kv.2]> acc else acc) items st.

(** [chrome.storage.sync.get(key)] and [get([k1, ...])]: an object that
    holds the stored entries among the requested keys. *)
Definition get (st : gmap string value) (keys : list string) : list (string * value) :=
  fold_left (fun acc k => match st !! k with
                          | Some v => obj_define acc k v
                          | None => acc
                          end) keys [].

(** [chrome.storage.sync.get(null)]: every stored entry. *)
Definition get_all (st : gmap string value) : list (string * value) :=
  map_to_list st.

End ChromeStorage.

(* ================================================================== *)
(** ** aiService.js *)
(* ================================================================== *)

Module AIService.

(** *** detectConfusion *)

(** The fields [detectConfusion] destructures from [userBehavior]. *)
Record UserBehavior : Type := {
  rewindCount : Z;
  pauseCount : Z;
  currentTimestamp : Q;
  watchedSegments : gmap Z Z
}.

Record ConfusionAssessment : Type := {
  isConfused : bool;
  confusionScore : Z;
  recommendation : string;
  suggestedIntervention : option (list string)
}.

Definition detectConfusion (userBehavior : UserBehavior) : ConfusionAssessment :=
  let confusionScore := (rewindCount userBehavior * 2 + pauseCount userBehavior)%Z in
  {| isConfused := (3 <=? confusionScore)%Z;
     confusionScore := confusionScore;
     recommendation :=
       if (3 <=? confusionScore)%Z
       then "User may be struggling. Offer simplification or step breakdown."
       else "User appears to be following along well.";
     suggestedIntervention :=
       if (3 <=? confusionScore)%Z
       then Some ["vocabulary_simplification"; "step_breakdown"; "pause_assistance"]
       else None |}.

(** *** String helpers used by the extraction code *)

Fixpoint indexOf_from (c : ascii) (s : string) (i : Z) : Z :=
  match s with
  | EmptyString => (-1)%Z
  | String a rest => if (a =? c)%char then i else indexOf_from c rest (i + 1)%Z
  end.

(** [s.indexOf(c)]: -1 when [c] does not occur. *)
Definition indexOf (c : ascii) (s : string) : Z := indexOf_from c s 0.

Fixpoint lastIndexOf_from (c : ascii) (s : string) (i best : Z) : Z :=
  match s with
  | EmptyString => best
  | String a rest => lastIndexOf_from c rest (i + 1)%Z (if (a =? c)%char then i else best)
  end.

(** [s.lastIndexOf(c)]: -1 when [c] does not occur. *)
Definition lastIndexOf (c : ascii) (s : string) : Z := lastIndexOf_from c s 0 (-1).

(** [s.substring(start, stop)] for [0 <= start <= stop]. *)
Definition substring_js (start stop : Z) (s : string) : string :=
  String.substring (Z.to_nat start) (Z.to_nat (stop - start)) s.

(** [resultText.match(/\{[\s\S]*\}|\[[\s\S]*\]/)]: the leftmost position
    where an opening brace has some closing brace after it, or an opening
    bracket has some closing bracket after it; the star is greedy, so the
    match runs to the last such closer of the text. *)
Fixpoint regex_json_match (s : string) : option string :=
  match s with
  | EmptyString => None
  | String c rest =>
      let closer :=
        if (c =? "{")%char then Some "}"%char
        else if (c =? "[")%char then Some "]"%char
        else None in
      match closer with
      | Some cl =>
          let j := lastIndexOf cl rest in
          if (0 <=? j)%Z then Some (String c (substring_js 0 (j + 1) rest))
          else regex_json_match rest
      | None => regex_json_match rest
      end
  end.

(** Whether [c] occurs in [s]. *)
Fixpoint occurs (c : ascii) (s : string) : bool :=
  match s with
  | EmptyString => false
  | String a rest => (a =? c)%char || occurs c rest
  end.

(** [m] runs from an opener [o] to a closer [c], and [c] does not occur
    in what follows [m]: it is the last closer of the text. *)
Definition span_to_last (o c : ascii) (m post : string) : Prop :=
  exists body, m = String o (body +:+ String c EmptyString) /\ occurs c post = false.

(** No brace (bracket) inside [pre] has a closing brace (bracket) anywhere
    after it in [pre +:+ rest]. *)
Definition no_earlier_start (pre rest : string) : Prop :=
  forall a x b, pre = a +:+ String x b ->
    (x = "{"%char -> occurs "}" (b +:+ rest) = false)
    /\ (x = "["%char -> occurs "]" (b +:+ rest) = false).

(** The span the regular expression of callLLM matches in [text]. *)
Definition llm_span (text m : string) : Prop :=
  exists pre post,
    text = pre +:+ m +:+ post
    /\ (span_to_last "{" "}" m post \/ span_to_last "[" "]" m post)
    /\ no_earlier_start pre (m +:+ post).

(** The span callVLM cuts out of [text]: first brace to last brace. *)
Definition vlm_span (text m : string) : Prop :=
  exists pre post,
    text = pre +:+ m +:+ post
    /\ occurs "{" pre = false
    /\ span_to_last "{" "}" m post.

(** *** callLLM, lines 185-213: from the response text to the result *)

Definition llm_default (resultText : string) : value :=
  VObj [("simplified", VStr resultText); ("definitions", VArr [])].

Definition callLLM_parse (resultText : string) : value :=
  match JSON_parse resultText with
  | Some parsed => parsed
  | None =>
      match regex_json_match resultText with
      | Some jsonMatch =>
          match JSON_parse jsonMatch with
          | Some parsed => parsed
          | None => llm_default resultText
          end
      | None => llm_default resultText
      end
  end.

(** *** callVLM, lines 305-325 *)

Definition vlm_default : value := VObj [("objects", VArr [])].

(** The substring callVLM tries to parse when the whole text is not JSON. *)
Definition vlm_candidate (resultText : string) : option string :=
  let start := indexOf "{" resultText in
  let stop := lastIndexOf "}" resultText in
  if negb (start =? -1)%Z && negb (stop =? -1)%Z && (start <? stop)%Z
  then Some (substring_js start (stop + 1) resultText)
  else None.

Definition callVLM_parse (resultText : string) : value :=
  match JSON_parse resultText with
  | Some parsed => parsed
  | None =>
      let start := indexOf "{" resultText in
      let stop := lastIndexOf "}" resultText in
      if negb (start =? -1)%Z && negb (stop =? -1)%Z && (start <? stop)%Z then
        match JSON_parse (substring_js start (stop + 1) resultText) with
        | Some parsed => parsed
        | None => vlm_default
        end
      else vlm_default
  end.

(** *** The extraction algorithm as the specification words it

    "attempt to parse the full response text; on failure, scan for the
    first balanced JSON object or array substring and parse that; on
    failure, degrade to a minimal default variant". *)

Definition is_opener (c : ascii) : bool := (c =? "{")%char || (c =? "[")%char.
Definition is_closer (c : ascii) : bool := (c =? "}")%char || (c =? "]")%char.

(** The shortest prefix of [s] after which [depth] open brackets are all
    closed. *)
Fixpoint balanced_prefix (s : string) (depth : nat) : option string :=
  match s with
  | EmptyString => None
  | String c rest =>
      if is_opener c then option_map (String c) (balanced_prefix rest (S depth))
      else if is_closer c then
        match depth with
        | O => None
        | S O => Some (String c EmptyString)
        | S d => option_map (String c) (balanced_prefix rest d)
        end
      else option_map (String c) (balanced_prefix rest depth)
  end.

Fixpoint spec_first_balanced (s : string) : option string :=
  match s with
  | EmptyString => None
  | String c rest =>
      if is_opener c then
        match balanced_prefix s 0 with
        | Some b => Some b
        | None => spec_first_balanced rest
        end
      else spec_first_balanced rest
  end.

Definition spec_extract (default : value) (resultText : string) : value :=
  match JSON_parse resultText with
  | Some parsed => parsed
  | None =>
      match spec_first_balanced resultText with
      | Some b =>
          match JSON_parse b with
          | Some parsed => parsed
          | None => default
          end
      | None => default
      end
  end.

(** *** callLLM and callVLM with their effects *)

(** What a call does to the outside world, in order. *)
Inductive effect : Type :=
| StorageGet (keys : list string)
| Fetch (endpoint : string) (key : value) (body : value).

Definition is_fetch (e : effect) : bool :=
  match e with Fetch _ _ _ => true | StorageGet _ => false end.

(** The request URL is [gemini_endpoint] followed by
    [encodeURIComponent(geminiKey)]; the effect records both parts. *)
Definition gemini_endpoint : string :=
  "https://generativelanguage.googleapis.com/v1beta/models/gemini-2.5-flash:generateContent?key=".

Definition placeholder_key : string := "<YOUR_GEMINI_API_KEY_HERE>".

Definition key_not_configured : js_error :=
  Error "Gemini API key not configured. Please set it in the extension popup.".

(** [data?.candidates?.[0]?.content?.parts?.[0]?.text || null]. *)
Definition candidate_text (data : value) : value :=
  or_else
    (opt_get (opt_first (opt_get (opt_get (opt_first (opt_get data "candidates"))
                                    "content") "parts")) "text")
    VNull.

Definition llm_body (prompt : string) : value :=
  VObj [("contents", VArr [VObj [("parts", VArr [VObj [("text", VStr prompt)]])]])].

Definition vlm_body (prompt : string) (mimeType : value) (rawBase64Data : string) : value :=
  VObj [("contents",
         VArr [VObj [("parts",
                      VArr [VObj [("text", VStr prompt)];
                            VObj [("inlineData",
                                   VObj [("mimeType", or_else mimeType (VStr "image/jpeg"));
                                         ("data", VStr rawBase64Data)])]])]])].

Section Calls.

(** [JSON.stringify], used only inside an error message. *)
Variable JSON_stringify : value -> string.

(** Lines 236-260 of callVLM: the MIME type and the base64 payload of a
    data URI, or the error thrown for a malformed one.  A pure function of
    the URI built from a regular-expression match, decodeURIComponent and
    btoa; nothing below depends on what it computes. *)
Variable data_uri : string -> outcome (value * string).

(** The provider: what [fetch(url, ...)] followed by [resp.json()] yields
    for a key and a body. *)
Variable fetch : value -> value -> outcome value.

(** What the parsing step does with a text field that is truthy but not
    a string (JSON.parse and [match] applied to a number, an array, an
    object).  The provider answers with a string; this case is left to
    the environment. *)
Variable text_not_string : value -> outcome value.

(** After [resp.json()]: the text is extracted and parsed by [parse]. *)
Definition finish (label : string) (parse : string -> value) (data : value)
  : outcome value :=
  match candidate_text data with
  | VStr resultText => Returns (parse resultText)
  | VUndefined | VNull => Throws (Error (label +:+ JSON_stringify data))
  | resultText => text_not_string resultText
  end.

Definition callLLM (st : gmap string value) (prompt : string)
  : list effect * outcome value :=
  let config := ChromeStorage.get st ["geminiApiKey"] in
  let geminiKey := obj_get config "geminiApiKey" in
  if negb (truthy geminiKey) || strict_eq_string geminiKey placeholder_key then
    ([StorageGet ["geminiApiKey"]], Throws key_not_configured)
  else
    let body := llm_body prompt in
    ([StorageGet ["geminiApiKey"]; Fetch gemini_endpoint geminiKey body],
     match fetch geminiKey body with
     | Throws e => Throws e
     | Returns data => finish "Gemini LLM error: " callLLM_parse data
     end).

Definition callVLM (st : gmap string value) (frameDataUrl : value) (prompt : string)
  : list effect * outcome value :=
  let config := ChromeStorage.get st ["geminiApiKey"] in
  let geminiKey := obj_get config "geminiApiKey" in
  if negb (truthy geminiKey) || strict_eq_string geminiKey placeholder_key then
    ([StorageGet ["geminiApiKey"]], Throws key_not_configured)
  else
    match frameDataUrl with
    | VStr uri =>
        match data_uri uri with
        | Throws e => ([StorageGet ["geminiApiKey"]], Throws e)
        | Returns (mimeType, rawBase64Data) =>
            let body := vlm_body prompt mimeType rawBase64Data in
            ([StorageGet ["geminiApiKey"]; Fetch gemini_endpoint geminiKey body],
             match fetch geminiKey body with
             | Throws e => Throws e
             | Returns data =>
                 finish "Gemini VLM error: " callVLM_parse data
             end)
        end
    | VUndefined =>
        ([StorageGet ["geminiApiKey"]],
         Throws (TypeError "Cannot read properties of undefined (reading 'match')"))
    | VNull =>
        ([StorageGet ["geminiApiKey"]],
         Throws (TypeError "Cannot read properties of null (reading 'match')"))
    | _ =>
        ([StorageGet ["geminiApiKey"]],
         Throws (TypeError "frameDataUrl.match is not a function"))
    end.

(** [analyzeFrame(frameDataUrl, prompt)]; an undefined prompt takes the
    default parameter. *)
Definition analyzeFrame (st : gmap string value) (frameDataUrl : value)
    (prompt : option string) : list effect * outcome value :=
  if negb (truthy frameDataUrl) then ([], Throws (Error "No frame data provided"))
  else callVLM st frameDataUrl
         (default "Identify all tools and objects in this video frame." prompt).

End Calls.

(** *** simplifyVocabulary and generateChecklist *)

Definition bytes (ns : list nat) : string :=
  fold_right (fun n s => String (ascii_of_nat n) s) EmptyString ns.

(** The characters [trim] removes, in UTF-8: the white space and line
    terminators of the language (U+0009 to U+000D, U+0020, U+00A0, U+1680,
    U+2000 to U+200A, U+2028, U+2029, U+202F, U+205F, U+3000, U+FEFF). *)
Definition white_space : list string :=
  [ bytes [9]; bytes [10]; bytes [11]; bytes [12]; bytes [13]; bytes [32];
    bytes [194; 160]; bytes [225; 154; 128];
    bytes [226; 128; 128]; bytes [226; 128; 129]; bytes [226; 128; 130];
    bytes [226; 128; 131]; bytes [226; 128; 132]; bytes [226; 128; 133];
    bytes [226; 128; 134]; bytes [226; 128; 135]; bytes [226; 128; 136];
    bytes [226; 128; 137]; bytes [226; 128; 138];
    bytes [226; 128; 168]; bytes [226; 128; 169]; bytes [226; 128; 175];
    bytes [226; 129; 159]; bytes [227; 128; 128]; bytes [239; 187; 191] ].

(** [s] without its first character, when that character is white space. *)
Definition strip_white (s : string) : option string :=
  fold_right (fun p acc => match strip_prefix p s with
                           | Some rest => Some rest
                           | None => acc
                           end) None white_space.

Fixpoint blank (fuel : nat) (s : string) : bool :=
  match s with
  | EmptyString => true
  | String _ _ =>
      match fuel with
      | O => false
      | S fuel' =>
          match strip_white s with
          | Some rest => blank fuel' rest
          | None => false
          end
      end
  end.

(** [s.trim().length === 0]: every character of [s] is white space. *)
Definition trims_to_empty (s : string) : bool := blank (String.length s) s.

(** The number of bytes of the UTF-8 sequence that starts with [c]. *)
Definition lead_length (c : ascii) : nat :=
  let n := nat_of_ascii c in
  if (n <? 192)%nat then 1%nat
  else if (n <? 224)%nat then 2%nat
  else if (n <? 240)%nat then 3%nat
  else 4%nat.

Fixpoint drop (n : nat) (s : string) : string :=
  match n, s with
  | O, _ => s
  | S k, String _ rest => drop k rest
  | S _, EmptyString => EmptyString
  end.

(** The first code unit of the character that the four bytes encode (a
    character beyond U+FFFF is two code units in JavaScript). *)
Definition high_surrogate (b0 b1 b2 b3 : ascii) : string :=
  let n (c : ascii) := N_of_ascii c in
  let cp := ((n b0 mod 8) * 262144 + (n b1 mod 64) * 4096
             + (n b2 mod 64) * 64 + n b3 mod 64)%N in
  utf8_encode (55296 + (cp - 65536) / 1024)%N.

(** [s.substring(0, count)], [count] being a number of UTF-16 code units:
    a character of one to three bytes is one code unit, a character of
    four bytes is two; when only its first half fits, that half is kept. *)
Fixpoint code_unit_prefix (count : nat) (s : string) : string :=
  match count, s with
  | S count', String c rest =>
      match lead_length c with
      | 4%nat =>
          match s with
          | String b0 (String b1 (String b2 (String b3 rest4))) =>
              match count' with
              | S count'' =>
                  String b0 (String b1 (String b2 (String b3
                    (code_unit_prefix count'' rest4))))
              | O => high_surrogate b0 b1 b2 b3
              end
          | _ => s
          end
      | len => String.substring 0 len s +:+ code_unit_prefix count' (drop len s)
      end
  | _, _ => EmptyString
  end.

(** Every character of [s] is ASCII (one byte, one code unit). *)
Fixpoint is_ascii_text (s : string) : bool :=
  match s with
  | EmptyString => true
  | String c rest => (nat_of_ascii c <? 128)%nat && is_ascii_text rest
  end.

(** What a template literal prints for a value that is not a number or an
    object (those are not modelled). *)
Definition to_display (v : value) : option string :=
  match v with
  | VStr s => Some s
  | VUndefined => Some "undefined"
  | VNull => Some "null"
  | VBool true => Some "true"
  | VBool false => Some "false"
  | _ => None
  end.

(** The prompts, with an apostrophe written for each double quote. *)
Definition simplify_prompt (difficultyLevel text : string) : string :=
  dq "Simplify the following text for a " +:+ difficultyLevel
  +:+ dq " reading level. 
Provide ONLY a valid JSON object with this exact shape (no markdown, no extra text):
{
  'simplified': 'the simplified text here',
  'definitions': [
    {'term': 'complex_word', 'definition': 'simple explanation'}
  ]
}

Text to simplify: '" +:+ text +:+ dq "'".

Definition checklist_prompt (transcript : string) : string :=
  dq "Analyze this video transcript and create a step-by-step checklist.
Provide ONLY a valid JSON array with this exact shape (no markdown, no extra text):
[
  {
    'id': 1,
    'text': 'Clear and actionable step',
    'timestamp': 0,
    'completed': false
  }
]

Each step should be:
- Clear and actionable
- Using simple, concrete language
- Sequential and logical

Transcript: '" +:+ code_unit_prefix 2000 transcript +:+ dq "'".

Section Prompts.

Variable JSON_stringify : value -> string.
Variable fetch : value -> value -> outcome value.
Variable text_not_string : value -> outcome value.

(** [simplifyVocabulary(text, difficultyLevel = 'elementary')]. *)
Definition simplifyVocabulary (st : gmap string value) (text difficultyLevel : value)
  : option (list effect * outcome value) :=
  if negb (truthy text) then
    Some ([], Throws (Error "No text provided for simplification"))
  else
    match text with
    | VStr s =>
        if trims_to_empty s then
          Some ([], Throws (Error "No text provided for simplification"))
        else
          match to_display (match difficultyLevel with
                            | VUndefined => VStr "elementary"
                            | level => level
                            end) with
          | Some level =>
              Some (callLLM JSON_stringify fetch text_not_string st (simplify_prompt level s))
          | None => None
          end
    | _ => Some ([], Throws (TypeError "text.trim is not a function"))
    end.

(** [generateChecklist(transcript, keyFrames = [])]; [keyFrames] is only
    logged. *)
Definition generateChecklist (st : gmap string value) (transcript keyFrames : value)
  : list effect * outcome value :=
  if negb (truthy transcript) then
    ([], Throws (Error "No transcript provided for checklist generation"))
  else
    match transcript with
    | VStr s =>
        if trims_to_empty s then
          ([], Throws (Error "No transcript provided for checklist generation"))
        else callLLM JSON_stringify fetch text_not_string st (checklist_prompt s)
    | _ => ([], Throws (TypeError "transcript.trim is not a function"))
    end.

End Prompts.

(** The result object of [detectConfusion] as a value. *)
Definition assessment_value (a : ConfusionAssessment) : value :=
  VObj [ ("isConfused", VBool (isConfused a));
         ("confusionScore", num_of_Z (confusionScore a));
         ("recommendation", VStr (recommendation a));
         ("suggestedIntervention",
          match suggestedIntervention a with
          | Some names => VArr (map VStr names)
          | None => VNull
          end) ].

End AIService.

(* ================================================================== *)
(** ** Numbers: double-precision subtraction *)
(* ================================================================== *)

Module Double.

#[local] Open Scope Q_scope.

(** A position or a time is a JavaScript number, an IEEE 754 binary64
    value.  Every finite one is a rational [m * 2^e] and is held as that
    rational; an arithmetic operation yields the exact result rounded to
    the nearest such value, ties to the even mantissa.  [round] is that
    rounding: 53 significant bits, exponents from -1074 up, and a
    magnitude that reaches [2^1024] stands for Infinity. *)

(** The binade of a positive [a]: the [k] with [2^k <= a < 2^(k+1)]. *)
Definition ilog2 (a : Q) : Z :=
  let k := (Z.log2 (Qnum a) - Z.log2 (Zpos (Qden a)))%Z in
  if Qle_bool (2 ^ k) a then k else (k - 1)%Z.

(** The nearest integer, a tie going to the even one. *)
Definition round_half_even (y : Q) : Z :=
  let f := Qfloor y in
  match Qcompare (y - inject_Z f) (1 # 2) with
  | Lt => f
  | Gt => (f + 1)%Z
  | Eq => if Z.even f then f else (f + 1)%Z
  end.

Definition infinity : Q := 2 ^ 1024.

(** A positive magnitude rounded to 53 bits. *)
Definition round_positive (a : Q) : Q :=
  let e := Z.max (ilog2 a - 52) (-1074) in
  let r := inject_Z (round_half_even (a / 2 ^ e)) * 2 ^ e in
  if Qle_bool infinity r then infinity else r.

Definition round (x : Q) : Q :=
  match Qnum x with
  | Z0 => 0
  | Zpos _ => round_positive x
  | Zneg _ => - round_positive (- x)
  end.

(** [a - b] as the subtraction of two numbers computes it. *)
Definition sub (a b : Q) : Q := round (a - b).

End Double.

(* ================================================================== *)
(** ** behaviorTracker.js *)
(* ================================================================== *)

Module BehaviorTracker.

(** [this.data].  Positions are seconds: doubles, held as the rationals
    they are (every position the video element reports is finite). *)
Record Data : Type := {
  rewindCount : Z;
  pauseCount : Z;
  playbackSpeedChanges : Z;
  segmentWatchTimes : gmap Z Z;
  lastPosition : Q;
  rewindThreshold : Q
}.

(** The constructor's initial sample. *)
Definition initial : Data :=
  {| rewindCount := 0; pauseCount := 0; playbackSpeedChanges := 0;
     segmentWatchTimes := ∅; lastPosition := 0; rewindThreshold := 5 |}.

(** A call of [this.emit(event, data)], by event name.  [emit] runs the
    registered listeners in turn; the one listener content.js registers is
    an async function, which returns a promise and never throws into
    [emit], so a handler always runs to its end.  [watchedSegments] is the
    tracker's own map object; the event records its contents at the time
    of the call. *)
Inductive event : Type :=
| rewind (from to : Q) (count : Z)
| pause (time : Q) (count : Z)
| play (time : Q)
| rate_change (rate : Q) (count : Z)
| confusion_detected (rewinds pauses : Z) (currentTimestamp : Q)
                     (watchedSegments : gmap Z Z).

Definition Qltb (a b : Q) : bool := negb (Qle_bool b a).

(** [Math.floor(currentTime / 10) * 10].  For the positions of a video
    the rounded quotient has the same floor as the exact one and the
    product is exact, so the segment is this integer. *)
Definition segment_of (currentTime : Q) : Z := (Qfloor (currentTime / 10) * 10)%Z.

(** [if (!m[segment]) m[segment] = 0; m[segment]++]. *)
Definition visit (m : gmap Z Z) (segment : Z) : gmap Z Z :=
  let m1 :=
    match m !! segment with
    | Some n => if (n =? 0)%Z then <[segment := 0%Z]> m else m
    | None => <[segment := 0%Z]> m
    end in
  <[segment := (default 0%Z (m1 !! segment) + 1)%Z]> m1.

(** [handleTimeUpdate], with [currentTime = this.video.getCurrentTime()].
    [timeDiff] is the rounded difference of the two doubles; negating the
    threshold and comparing are exact. *)
Definition handleTimeUpdate (currentTime : Q) (d : Data) : Data * list event :=
  let timeDiff := Double.sub currentTime (lastPosition d) in
  let rewound := Qltb timeDiff (- rewindThreshold d)%Q in
  let count := if rewound then (rewindCount d + 1)%Z else rewindCount d in
  ({| rewindCount := count;
      pauseCount := pauseCount d;
      playbackSpeedChanges := playbackSpeedChanges d;
      segmentWatchTimes := visit (segmentWatchTimes d) (segment_of currentTime);
      lastPosition := currentTime;
      rewindThreshold := rewindThreshold d |},
   if rewound then [rewind (lastPosition d) currentTime count] else []).

Definition handlePause (currentTime : Q) (d : Data) : Data * list event :=
  let count := (pauseCount d + 1)%Z in
  ({| rewindCount := rewindCount d;
      pauseCount := count;
      playbackSpeedChanges := playbackSpeedChanges d;
      segmentWatchTimes := segmentWatchTimes d;
      lastPosition := lastPosition d;
      rewindThreshold := rewindThreshold d |},
   [pause currentTime count]).

Definition handlePlay (currentTime : Q) (d : Data) : Data * list event :=
  (d, [play currentTime]).

Definition handleRateChange (rate : Q) (d : Data) : Data * list event :=
  let count := (playbackSpeedChanges d + 1)%Z in
  ({| rewindCount := rewindCount d;
      pauseCount := pauseCount d;
      playbackSpeedChanges := count;
      segmentWatchTimes := segmentWatchTimes d;
      lastPosition := lastPosition d;
      rewindThreshold := rewindThreshold d |},
   [rate_change rate count]).

Definition resetCounters (d : Data) : Data :=
  {| rewindCount := 0;
     pauseCount := 0;
     playbackSpeedChanges := 0;
     segmentWatchTimes := segmentWatchTimes d;
     lastPosition := lastPosition d;
     rewindThreshold := rewindThreshold d |}.

(** [checkForConfusion], run by the 10-second interval. *)
Definition checkForConfusion (currentTime : Q) (d : Data) : Data * list event :=
  let recentRewinds := rewindCount d in
  let recentPauses := pauseCount d in
  if (3 <=? recentRewinds)%Z || (5 <=? recentPauses)%Z then
    (resetCounters d,
     [confusion_detected recentRewinds recentPauses currentTime (segmentWatchTimes d)])
  else (d, []).

(** What drives the tracker once [start] has registered its listeners:
    the video's timeupdate, pause, play and ratechange events (with the
    value the handler reads from the video) and the interval's tick. *)
Inductive input : Type :=
| Timeupdate (currentTime : Q)
| PauseEvent (currentTime : Q)
| PlayEvent (currentTime : Q)
| Ratechange (rate : Q)
| Tick (currentTime : Q).

Definition handle (i : input) (d : Data) : Data * list event :=
  match i with
  | Timeupdate t => handleTimeUpdate t d
  | PauseEvent t => handlePause t d
  | PlayEvent t => handlePlay t d
  | Ratechange r => handleRateChange r d
  | Tick t => checkForConfusion t d
  end.

(** The sample after a history of inputs. *)
Definition run (history : list input) (d : Data) : Data :=
  fold_left (fun d i => (handle i d).1) history d.

(** *** start, stop and the listeners on the video

    [start] adds four bound handlers to the video element (every [bind]
    makes a new function, so addEventListener never merges them) and
    arms the interval; [stop] clears the interval whose id it holds and
    removes no listener. *)
Record Tracker : Type := {
  data : Data;
  isTracking : bool;
  confusionCheckInterval : option nat;   (* the id setInterval returned *)
  videoListeners : nat;                  (* how many times the four handlers were added *)
  intervals : list nat                   (* the ids of the live intervals *)
}.

(** [new BehaviorTracker(videoController)]. *)
Definition new : Tracker :=
  {| data := initial; isTracking := false; confusionCheckInterval := None;
     videoListeners := 0; intervals := [] |}.

(** [start()]; [id] is what setInterval returns. *)
Definition start (id : nat) (t : Tracker) : Tracker :=
  if isTracking t then t
  else {| data := data t; isTracking := true; confusionCheckInterval := Some id;
          videoListeners := S (videoListeners t); intervals := id :: intervals t |}.

(** [stop()]; an id is truthy unless it is 0. *)
Definition stop (t : Tracker) : Tracker :=
  if negb (isTracking t) then t
  else {| data := data t; isTracking := false;
          confusionCheckInterval := confusionCheckInterval t;
          videoListeners := videoListeners t;
          intervals :=
            match confusionCheckInterval t with
            | Some id =>
                if (id =? 0)%nat then intervals t
                else List.filter (fun j => negb (j =? id)%nat) (intervals t)
            | None => intervals t
            end |}.

(** The same input handled by [n] listeners in turn. *)
Fixpoint handle_times (n : nat) (i : input) (d : Data) : Data * list event :=
  match n with
  | O => (d, [])
  | S k =>
      let (d1, e1) := handle i d in
      let (d2, e2) := handle_times k i d1 in
      (d2, e1 ++ e2)
  end.

(** A video event reaches every handler added for it; a tick is one live
    interval firing, and there is none to fire when no interval is live. *)
Definition dispatch (i : input) (t : Tracker) : Tracker * list event :=
  let n := match i with
           | Tick _ => if intervals t is [] then 0%nat else 1%nat
           | _ => videoListeners t
           end in
  let (d, es) := handle_times n i (data t) in
  ({| data := d; isTracking := isTracking t;
      confusionCheckInterval := confusionCheckInterval t;
      videoListeners := videoListeners t; intervals := intervals t |}, es).

(** The total of the visit counts. *)
Definition total_visits (m : gmap Z Z) : Z :=
  map_fold (fun _ n acc => (n + acc)%Z) 0%Z m.

Definition is_timeupdate (i : input) : bool :=
  match i with Timeupdate _ => true | _ => false end.

End BehaviorTracker.

(* ================================================================== *)
(** ** messageClient.js *)
(* ================================================================== *)

Module MessageClient.

(** How a promise settles.  A rejection carries the argument given to
    [new Error(...)], which the constructor turns into the message. *)
Inductive settlement : Type :=
| Resolve (data : value)
| Reject (reason : value).

(** [resolve] / [reject] on a promise: only the first call counts. *)
Definition settle (p : option settlement) (s : settlement) : option settlement :=
  match p with
  | None => Some s
  | Some _ => p
  end.

(** *** sendViaPort: one call, its port, its listener and its timer *)

Record PortCall : Type := {
  requestId : string;      (* generated from Date.now() and Math.random() *)
  listening : bool;        (* onMessage is registered on the port *)
  timer : bool;            (* the timeout is armed *)
  connected : bool;        (* the port has not been disconnected *)
  promise : option settlement
}.

(** The envelope [{ type, data, requestId }] posted on the port. *)
Definition envelope (type : string) (data : value) (requestId : string) : value :=
  VObj [("type", VStr type); ("data", data); ("requestId", VStr requestId)].

(** The state right after [sendViaPort] has run its executor, and the
    message it has posted.  (Were [chrome.runtime.connect] to throw, the
    promise would reject at once; here the port was opened.)  The
    fallback [connectTransport] of [sendViaMessage] correlates in the same
    way, with a 15-second timer. *)
Definition sendViaPort (type : string) (data : value) (requestId : string)
  : PortCall * value :=
  ({| requestId := requestId; listening := true; timer := true;
      connected := true; promise := None |},
   envelope type data requestId).

(** The listener [onMessage(msg)]. *)
Definition onMessage (c : PortCall) (msg : value) : PortCall :=
  if negb (truthy msg) || negb (strict_eq_string (js_get msg "requestId") (requestId c))
  then c
  else
    {| requestId := requestId c;
       listening := false;
       timer := false;
       connected := false;
       promise :=
         settle (promise c)
           (if truthy (js_get msg "success")
            then Resolve (js_get msg "data")
            else Reject (or_else (js_get msg "error") (VStr "Unknown error from port"))) |}.

(** A message arriving on the call's port reaches [onMessage] only while
    the listener is registered. *)
Definition deliver (c : PortCall) (msg : value) : PortCall :=
  if listening c && connected c then onMessage c msg else c.

(** The 45-second timer firing (it does not fire once cleared). *)
Definition fire_timeout (c : PortCall) : PortCall :=
  if timer c then
    {| requestId := requestId c;
       listening := false;
       timer := false;
       connected := false;
       promise := settle (promise c)
                    (Reject (VStr "Timeout waiting for port response (> 45s)")) |}
  else c.

(** What can happen to a call after it was sent. *)
Inductive port_event : Type :=
| Message (msg : value)
| TimerFired.

Definition step (c : PortCall) (e : port_event) : PortCall :=
  match e with
  | Message msg => deliver c msg
  | TimerFired => fire_timeout c
  end.

Definition run (c : PortCall) (es : list port_event) : PortCall := fold_left step es c.

(** Several calls in flight.  Every call opens a port of its own
    ([chrome.runtime.connect]); [port] names it.  A message posted on a
    port reaches the listeners of that port. *)
Record InFlight : Type := { port : nat; call : PortCall }.

Definition deliver_on (p : nat) (msg : value) (calls : list InFlight) : list InFlight :=
  map (fun c => if (port c =? p)%nat
                then {| port := port c; call := deliver (call c) msg |}
                else c) calls.

(** *** sendViaMessage *)

Definition maxRetries : Z := 3.
Definition baseDelay : Z := 150.

Definition to_lower (c : ascii) : ascii :=
  let n := nat_of_ascii c in
  if (65 <=? n)%nat && (n <=? 90)%nat then ascii_of_nat (n + 32) else c.

Fixpoint prefix_ci (p s : string) : bool :=
  match p, s with
  | EmptyString, _ => true
  | String a p', String b s' => (to_lower a =? to_lower b)%char && prefix_ci p' s'
  | String _ _, EmptyString => false
  end.

(** Whether [p] occurs in [s], ignoring the case of ASCII letters. *)
Fixpoint contains_ci (p s : string) : bool :=
  prefix_ci p s ||
  match s with
  | EmptyString => false
  | String _ rest => contains_ci p rest
  end.

(** [/Extension context invalidated|The message port closed before a
    response was received/i.test(msg)]. *)
Definition transient (msg : string) : bool :=
  contains_ci "Extension context invalidated" msg
  || contains_ci "The message port closed before a response was received" msg.

(** What the callback of one [chrome.runtime.sendMessage] observes. *)
Inductive send_result : Type :=
| LastError (message : option string)     (* chrome.runtime.lastError is set *)
| Response (response : value).

(** What [sendViaMessage] does, in order. *)
Inductive action : Type :=
| SendMessage                  (* chrome.runtime.sendMessage({ type, data }, ...) *)
| Delay (ms : Z)               (* setTimeout(..., ms) *)
| ConnectTransport.            (* the fallback over a port, 15 s timeout *)

Section SendViaMessage.

(** The environment: the result of the [i]-th sendMessage call, and how the
    fallback port call settles if it is made ([None]: it rejects, by an
    error response or by its timeout). *)
Variable results : nat -> send_result.
Variable fallback : option value.

(** [connectTransport(...).then(resolve).catch(() => reject(new Error(msg)))]. *)
Definition after_fallback (msg : string) : settlement :=
  match fallback with
  | Some data => Resolve data
  | None => Reject (VStr msg)
  end.

(** [attempt(triesLeft)]; [i] counts the sendMessage calls made so far. *)
Fixpoint attempt (i : nat) (triesLeft : nat) {struct triesLeft}
  : list action * settlement :=
  match results i with
  | LastError message =>
      let msg := default EmptyString message in
      let use_fallback := ([SendMessage; ConnectTransport], after_fallback msg) in
      match triesLeft with
      | S triesLeft' =>
          if transient msg then
            let (acts, r) := attempt (S i) triesLeft' in
            (SendMessage :: Delay (baseDelay * (maxRetries - Z.of_nat triesLeft + 1)) :: acts,
             r)
          else use_fallback
      | O => use_fallback
      end
  | Response response =>
      ([SendMessage],
       if truthy response && truthy (js_get response "success")
       then Resolve (js_get response "data")
       else Reject (or_else (opt_get response "error") (VStr "Unknown error")))
  end.

Definition sendViaMessage : list action * settlement :=
  attempt 0 (Z.to_nat maxRetries).

End SendViaMessage.

(** [n] rounds of "send, then wait": the waits are [baseDelay] times
    [first], [first + 1], ... *)
Fixpoint backoff (first : Z) (n : nat) : list action :=
  match n with
  | O => []
  | S k => SendMessage :: Delay (baseDelay * first) :: backoff (first + 1) k
  end.

Definition is_transient_error (r : send_result) : Prop :=
  match r with
  | LastError message => transient (default EmptyString message) = true
  | Response _ => False
  end.

Definition is_delay (a : action) : bool :=
  match a with Delay _ => true | _ => false end.

Definition is_connect (a : action) : bool :=
  match a with ConnectTransport => true | _ => false end.

(** [sendMessage(type, data)]: which transport a type goes through. *)
Definition uses_port (type : string) : bool :=
  String.eqb type "ANALYZE_FRAME" || String.eqb type "TEST_GEMINI"
  || String.eqb type "SIMPLIFY_TEXT" || String.eqb type "GENERATE_CHECKLIST"
  || String.eqb type "DETECT_CONFUSION".

(** A call is either pending with its listener, timer and port in place,
    or settled with all three released. *)
Definition port_invariant (c : PortCall) : Prop :=
  match promise c with
  | None => listening c = true /\ timer c = true /\ connected c = true
  | Some _ => listening c = false /\ timer c = false /\ connected c = false
  end.

Inductive transport : Type := ViaPort | ViaMessage.

(** [sendMessage(type, data)]. *)
Definition sendMessage (type : string) : transport :=
  if uses_port type then ViaPort else ViaMessage.

(** The time a run of [sendViaMessage] spends in its waits, in ms. *)
Definition waited (acts : list action) : Z :=
  fold_right (fun a acc => match a with Delay ms => (ms + acc)%Z | _ => acc end) 0%Z acts.

Definition is_send (a : action) : bool :=
  match a with SendMessage => true | _ => false end.

End MessageClient.

(* ================================================================== *)
(** ** storageManager.js *)
(* ================================================================== *)

Module StorageManager.

(** The state is the content of chrome.storage.sync. *)

Definition getAllSettings (st : gmap string value) : value :=
  VObj (ChromeStorage.get_all st).

(** [getSetting(key)]: [result[key]] on the object [get(key)] answers. *)
Definition getSetting (key : string) (st : gmap string value) : value :=
  obj_get (ChromeStorage.get st [key]) key.

(** [updateSetting(key, value)]: [set({ [key]: value })]. *)
Definition updateSetting (key : string) (v : value) (st : gmap string value)
  : gmap string value :=
  ChromeStorage.set st (obj_define [] key v).

(** [features?.[featureName] ?? true]. *)
Definition isFeatureEnabled (featureName : string) (st : gmap string value) : value :=
  nullish (opt_get (getSetting "features" st) featureName) (VBool true).

(** [toggleFeature(featureName)]: the new state and the store afterwards.
    The stored [features] value is a plain object, or absent (or falsy),
    in which case an empty object takes its place; any other stored value
    is outside the settings record and not modelled ([None]). *)
Definition toggleFeature (featureName : string) (st : gmap string value)
  : option (value * gmap string value) :=
  match or_else (getSetting "features" st) (VObj []) with
  | VObj features =>
      let features' :=
        obj_set features featureName
          (VBool (negb (truthy (obj_get features featureName)))) in
      Some (obj_get features' featureName,
            updateSetting "features" (VObj features') st)
  | _ => None
  end.

(** [this.defaults], as the constructor builds it. *)
Definition defaults : list (string * value) :=
  [ ("features",
     VObj [ ("objectHighlighting", VBool true);
            ("vocabularySimplification", VBool true);
            ("stepChecklist", VBool true);
            ("autoPause", VBool true);
            ("focusMode", VBool false) ]);
    ("extensionEnabled", VBool true);
    ("preferences",
     VObj [ ("simplificationLevel", VStr "elementary");
            ("highlightColor", VStr "#FFD700");
            ("highlightOpacity", VNum "0.3");
            ("pauseDuration", VNum "3");
            ("proactiveAssistance", VBool true);
            ("uiPosition", VStr "right");
            ("fontSize", VStr "medium") ]);
    ("ai",
     VObj [ ("provider", VStr "openai");
            ("apiKey", VNull);
            ("apiEndpoint", VNull);
            ("modelVLM", VStr "gpt-4-vision-preview");
            ("modelLLM", VStr "gpt-4-turbo-preview");
            ("useMockAI", VBool true) ]);
    ("userData",
     VObj [ ("totalVideosWatched", VNum "0");
            ("totalInterventions", VNum "0");
            ("preferredInterventions", VArr []);
            ("lastUsed", VNull) ]) ].

(** The methods below that read [this.defaults] take its current value
    [this_defaults]: [recordInteraction] can change the object in place. *)

(** [initializeDefaults()]: [set(this.defaults)]. *)
Definition initializeDefaults (this_defaults : list (string * value))
    (st : gmap string value) : gmap string value :=
  ChromeStorage.set st this_defaults.

(** [isExtensionEnabled()]. *)
Definition isExtensionEnabled (st : gmap string value) : bool :=
  match getSetting "extensionEnabled" st with
  | VBool val => val
  | _ => true
  end.

(** [setExtensionEnabled(enabled)]. *)
Definition setExtensionEnabled (enabled : value) (st : gmap string value)
  : gmap string value :=
  updateSetting "extensionEnabled" (VBool (truthy enabled)) st.

(** [toggleExtensionEnabled()]: the returned [next] and the store. *)
Definition toggleExtensionEnabled (st : gmap string value) : bool * gmap string value :=
  let current := getSetting "extensionEnabled" st in
  let next := negb (strict_eq_false current) in
  (next, setExtensionEnabled (VBool next) st).

(** [getPreferences()] and [getAIConfig()]. *)
Definition getPreferences (this_defaults : list (string * value))
    (st : gmap string value) : value :=
  or_else (getSetting "preferences" st) (obj_get this_defaults "preferences").

Definition getAIConfig (this_defaults : list (string * value))
    (st : gmap string value) : value :=
  or_else (getSetting "ai" st) (obj_get this_defaults "ai").

(** [updatePreferences(newPreferences)] and [updateAIConfig(config)]:
    [None] where the spread is not modelled. *)
Definition updatePreferences (this_defaults : list (string * value))
    (newPreferences : value) (st : gmap string value) : option (gmap string value) :=
  match object_spread (getPreferences this_defaults st) newPreferences with
  | Some updated => Some (updateSetting "preferences" updated st)
  | None => None
  end.

Definition updateAIConfig (this_defaults : list (string * value))
    (config : value) (st : gmap string value) : option (gmap string value) :=
  match object_spread (getAIConfig this_defaults st) config with
  | Some updated => Some (updateSetting "ai" updated st)
  | None => None
  end.

(** [recordInteraction(interactionType)].  [now1] and [now2] are the two
    readings of [Date.now()].  The result is [this.defaults] and the store
    afterwards.  When the store holds no (truthy) [userData], the object
    that is updated in place is [this.defaults.userData] itself, so the
    defaults change with it; a stored one is a copy of its own.  Not
    modelled ([None]): a [userData] that is not a plain object, a total
    that is not an exact non-negative integer, a [preferredInterventions]
    that is truthy and not an array, and an [interactionType] that does
    not serialise. *)
Definition recordInteraction (this_defaults : list (string * value))
    (now1 now2 : N) (interactionType : value) (st : gmap string value)
  : option (list (string * value) * gmap string value) :=
  let stored := getSetting "userData" st in
  match or_else stored (obj_get this_defaults "userData") with
  | VObj userData =>
      match add_one (obj_get userData "totalInterventions") with
      | Some total =>
          let userData1 := obj_set userData "totalInterventions" total in
          let userData2 := obj_set userData1 "lastUsed" (num_of_N now1) in
          let userData3 :=
            if truthy (obj_get userData2 "preferredInterventions") then userData2
            else obj_set userData2 "preferredInterventions" (VArr []) in
          match obj_get userData3 "preferredInterventions" with
          | VArr entries =>
              if is_json interactionType then
                let userData4 :=
                  obj_set userData3 "preferredInterventions"
                    (VArr (entries ++ [VObj [("type", interactionType);
                                             ("timestamp", num_of_N now2)]])) in
                Some (if truthy stored then this_defaults
                      else obj_set this_defaults "userData" (VObj userData4),
                      updateSetting "userData" (VObj userData4) st)
              else None
          | _ => None
          end
      | None => None
      end
  | _ => None
  end.

(** [clearAllData()]. *)
Definition clearAllData (st : gmap string value) : gmap string value := ∅.

End StorageManager.

(* ================================================================== *)
(** ** messageRouter.js *)
(* ================================================================== *)

Module MessageRouter.

Import StorageManager.

(** The request envelope without its requestId: [{ type, data }]. *)
Record Request : Type := { type : string; data : value }.

(** The bound methods stored in [this.handlers]. *)
Inductive handler : Type :=
| HandleAnalyzeFrame
| HandleTestGemini
| HandleSimplifyText
| HandleGenerateChecklist
| HandleDetectConfusion
| HandleExtensionReady
| HandleGetSettings
| HandleUpdateSettings
| HandleToggleFeature
| HandleRecordInteraction.

(** The object literal assigned to [this.handlers]: its own properties. *)
Definition handlers : list (string * handler) :=
  [ ("ANALYZE_FRAME", HandleAnalyzeFrame);
    ("TEST_GEMINI", HandleTestGemini);
    ("SIMPLIFY_TEXT", HandleSimplifyText);
    ("GENERATE_CHECKLIST", HandleGenerateChecklist);
    ("DETECT_CONFUSION", HandleDetectConfusion);
    ("EXTENSION_READY", HandleExtensionReady);
    ("GET_SETTINGS", HandleGetSettings);
    ("UPDATE_SETTINGS", HandleUpdateSettings);
    ("TOGGLE_FEATURE", HandleToggleFeature);
    ("RECORD_INTERACTION", HandleRecordInteraction) ].

Fixpoint registered (table : list (string * handler)) (type : string) : option handler :=
  match table with
  | [] => None
  | (k, h) :: rest => if String.eqb k type then Some h else registered rest type
  end.

(** What [this.handlers[type]] evaluates to.  [this.handlers] is an
    ordinary object, so a name it does not own is looked up on
    [Object.prototype]. *)
Inductive slot : Type :=
| Registered (h : handler)
| Inherited (name : string)
| Missing.

Definition handlers_get (type : string) : slot :=
  match registered handlers type with
  | Some h => Registered h
  | None => if is_inherited type then Inherited type else Missing
  end.

Definition as_string (v : value) : option string :=
  match v with VStr s => Some s | _ => None end.

Fixpoint as_strings (vs : list value) : option (list string) :=
  match vs with
  | [] => Some []
  | v :: rest =>
      match as_string v, as_strings rest with
      | Some s, Some ss => Some (s :: ss)
      | _, _ => None
      end
  end.

(** The three settings handlers are modelled on the payloads of the
    protocol table ([keys] absent or an array of strings, [key] and
    [featureName] strings); on any other payload they answer [None] and
    the router below asks the environment. *)

(** [handleGetSettings(data)]. *)
Definition handleGetSettings (data : value) (st : gmap string value)
  : option (outcome value) :=
  let keys := js_get (or_else data (VObj [])) "keys" in
  if truthy keys then
    match keys with
    | VArr ks =>
        match as_strings ks with
        | Some ks =>
            Some (Returns
                    (VObj (fold_left
                             (fun result key => obj_set result key (getSetting key st))
                             ks [])))
        | None => None
        end
    | _ => None
    end
  else Some (Returns (getAllSettings st)).

(** [handleUpdateSettings(data)]. *)
Definition handleUpdateSettings (data : value) (st : gmap string value)
  : option (outcome value * gmap string value) :=
  let data := or_else data (VObj []) in
  match as_string (js_get data "key") with
  | Some key =>
      Some (Returns (VObj [("success", VBool true)]),
            updateSetting key (js_get data "value") st)
  | None => None
  end.

(** [handleToggleFeature(data)]. *)
Definition handleToggleFeature (data : value) (st : gmap string value)
  : option (outcome value * gmap string value) :=
  let data := or_else data (VObj []) in
  match as_string (js_get data "featureName") with
  | Some featureName =>
      match toggleFeature featureName st with
      | Some (newState, st') =>
          Some (Returns (VObj [("featureName", VStr featureName); ("enabled", newState)]),
                st')
      | None => None
      end
  | None => None
  end.

Section Router.

(** The environment of the router: how a handler that reaches the AI
    service or the clock completes (ANALYZE_FRAME, TEST_GEMINI,
    SIMPLIFY_TEXT, GENERATE_CHECKLIST, DETECT_CONFUSION, EXTENSION_READY,
    RECORD_INTERACTION), and how a settings handler completes on a
    payload outside the protocol table. *)
Variable service : handler -> value -> gmap string value
                   -> outcome value * gmap string value.

(** How the engine completes a call, without receiver, of a member of
    [Object.prototype] other than [constructor], [toString] and
    [__proto__] (a TypeError whose text is the engine's, or false from
    [isPrototypeOf] on a primitive). *)
Variable unbound_member : string -> value -> outcome value.

(** [handler(data, sender)] when [handler] came from [Object.prototype];
    the call has no receiver ([this] is undefined in module code).
    [Object(data)] returns [data] (an empty object for null or undefined;
    a primitive is wrapped, and serialises as itself);
    [Object.prototype.toString] names the missing receiver; [__proto__]
    yields the prototype object, which is not callable. *)
Definition call_inherited (name : string) (data : value) : outcome value :=
  if String.eqb name "constructor" then
    Returns (match data with VUndefined | VNull => VObj [] | _ => data end)
  else if String.eqb name "toString" then Returns (VStr "[object Undefined]")
  else if String.eqb name "__proto__" then Throws (TypeError "handler is not a function")
  else unbound_member name data.

Definition run_handler (h : handler) (data : value) (st : gmap string value)
  : outcome value * gmap string value :=
  match h with
  | HandleGetSettings =>
      match handleGetSettings data st with
      | Some result => (result, st)
      | None => service h data st
      end
  | HandleUpdateSettings => default (service h data st) (handleUpdateSettings data st)
  | HandleToggleFeature => default (service h data st) (handleToggleFeature data st)
  | _ => service h data st
  end.

(** [handleMessage(message, sender)]: a rejected promise is [Throws]. *)
Definition handleMessage (message : Request) (st : gmap string value)
  : outcome value * gmap string value :=
  match handlers_get (type message) with
  | Missing => (Throws (Error ("Unknown message type: " +:+ type message)), st)
  | Registered h => run_handler h (data message) st
  | Inherited name => (call_inherited name (data message), st)
  end.

End Router.

(** *** The handlers that reach the AI service and the clock *)

Section Handlers.

Variable JSON_stringify : value -> string.
Variable data_uri : string -> outcome (value * string).
Variable fetch : value -> value -> outcome value.
Variable text_not_string : value -> outcome value.

(** [this.defaults] of the storage manager and the two clock readings of
    a [recordInteraction]. *)
Variable this_defaults : list (string * value).
Variable now1 now2 : N.

(** [handleAnalyzeFrame(data)]; the prompt is absent or a string. *)
Definition handleAnalyzeFrame (data : value) (st : gmap string value)
  : option (list AIService.effect * outcome value) :=
  let data := or_else data (VObj []) in
  match js_get data "prompt" with
  | VUndefined =>
      Some (AIService.analyzeFrame JSON_stringify data_uri fetch text_not_string st
              (js_get data "frameDataUrl") None)
  | VStr prompt =>
      Some (AIService.analyzeFrame JSON_stringify data_uri fetch text_not_string st
              (js_get data "frameDataUrl") (Some prompt))
  | _ => None
  end.

(** [handleSimplifyText(data)]: the preferences are read first. *)
Definition handleSimplifyText (data : value) (st : gmap string value)
  : option (list AIService.effect * outcome value) :=
  let data := or_else data (VObj []) in
  let text := js_get data "text" in
  let level := js_get data "level" in
  let preferences := getPreferences this_defaults st in
  let targetLevel := or_else level (js_get preferences "simplificationLevel") in
  match AIService.simplifyVocabulary JSON_stringify fetch text_not_string st
          text targetLevel with
  | Some (effects, res) => Some (AIService.StorageGet ["preferences"] :: effects, res)
  | None => None
  end.

(** [handleGenerateChecklist(data)]. *)
Definition handleGenerateChecklist (data : value) (st : gmap string value)
  : list AIService.effect * outcome value :=
  let data := or_else data (VObj []) in
  AIService.generateChecklist JSON_stringify fetch text_not_string st
    (js_get data "transcript") (js_get data "keyFrames").

(** [handleDetectConfusion(data)], on a [userBehavior] object whose two
    counts are exact non-negative integers; [currentTimestamp] and
    [watchedSegments] are destructured and never read, so the sample
    given to [detectConfusion] leaves them empty. *)
Definition handleDetectConfusion (data : value) : option (outcome value) :=
  match js_get (or_else data (VObj [])) "userBehavior" with
  | VObj userBehavior =>
      match as_N (obj_get userBehavior "rewindCount"),
            as_N (obj_get userBehavior "pauseCount") with
      | Some rewinds, Some pauses =>
          Some (Returns
                  (AIService.assessment_value
                     (AIService.detectConfusion
                        {| AIService.rewindCount := Z.of_N rewinds;
                           AIService.pauseCount := Z.of_N pauses;
                           AIService.currentTimestamp := 0;
                           AIService.watchedSegments := ∅ |})))
      | _, _ => None
      end
  | _ => None
  end.

(** [handleRecordInteraction(data)]: the answer, [this.defaults] and the
    store afterwards. *)
Definition handleRecordInteraction (data : value) (st : gmap string value)
  : option (outcome value * list (string * value) * gmap string value) :=
  let interactionType := js_get (or_else data (VObj [])) "interactionType" in
  match recordInteraction this_defaults now1 now2 interactionType st with
  | Some (defaults', st') =>
      Some (Returns (VObj [("success", VBool true)]), defaults', st')
  | None => None
  end.

(** [handleExtensionReady(data)]: an interaction is recorded when the
    payload carries a url; whatever the recording does, the answer is
    [{ received: true }]. *)
Definition handleExtensionReady (data : value) (st : gmap string value)
  : option (outcome value * list (string * value) * gmap string value) :=
  if truthy data && truthy (js_get data "url") then
    match recordInteraction this_defaults now1 now2 (VStr "extension_ready") st with
    | Some (defaults', st') =>
        Some (Returns (VObj [("received", VBool true)]), defaults', st')
    | None => None
    end
  else Some (Returns (VObj [("received", VBool true)]), this_defaults, st).

(** The router's environment built from these handlers; [other] answers
    where a handler is not modelled. *)
Variable other : handler -> value -> gmap string value
                 -> outcome value * gmap string value.

Definition service (h : handler) (data : value) (st : gmap string value)
  : outcome value * gmap string value :=
  match h with
  | HandleAnalyzeFrame =>
      match handleAnalyzeFrame data st with
      | Some (_, res) => (res, st)
      | None => other h data st
      end
  | HandleSimplifyText =>
      match handleSimplifyText data st with
      | Some (_, res) => (res, st)
      | None => other h data st
      end
  | HandleGenerateChecklist => ((handleGenerateChecklist data st).2, st)
  | HandleDetectConfusion =>
      match handleDetectConfusion data with
      | Some res => (res, st)
      | None => other h data st
      end
  | HandleRecordInteraction =>
      match handleRecordInteraction data st with
      | Some (res, _, st') => (res, st')
      | None => other h data st
      end
  | HandleExtensionReady =>
      match handleExtensionReady data st with
      | Some (res, _, st') => (res, st')
      | None => other h data st
      end
  | _ => other h data st
  end.

End Handlers.

End MessageRouter.

(* ================================================================== *)
(** ** background.js *)
(* ================================================================== *)

Module Background.

Import MessageRouter.

Definition is_vlm_type (type : string) : bool :=
  String.eqb type "ANALYZE_FRAME" || String.eqb type "TEST_GEMINI".

Section Listeners.

Variable service : handler -> value -> gmap string value
                   -> outcome value * gmap string value.
Variable unbound_member : string -> value -> outcome value.

(** [handleVLMRequest(message, sender)]: it catches its own errors and
    returns a result object [{ success, data }] or [{ success, error }]. *)
Variable handleVLMRequest : value -> gmap string value -> value.

(** The [chrome.runtime.onMessage] listener: the argument it gives to
    [sendResponse], and the store afterwards. *)
Definition onMessage (message : Request) (st : gmap string value)
  : value * gmap string value :=
  if is_vlm_type (type message) then
    let result := handleVLMRequest (data message) st in
    (if truthy result && truthy (js_get result "success")
     then VObj [("success", VBool true); ("data", js_get result "data")]
     else VObj [("success", VBool false);
                ("error", or_else (opt_get result "error") (VStr "VLM failed"))],
     st)
  else
    match handleMessage service unbound_member message st with
    | (Returns response, st') =>
        (VObj [("success", VBool true); ("data", response)], st')
    | (Throws error, st') =>
        (VObj [("success", VBool false); ("error", VStr (JS.message error))], st')
    end.

(** The port listener of [chrome.runtime.onConnect]: what it posts back
    for a payload [{ type, data, requestId }]. *)
Definition onPortMessage (type : string) (data requestId : value)
    (st : gmap string value) : value * gmap string value :=
  if is_vlm_type type then
    let result := handleVLMRequest data st in
    (VObj [("requestId", requestId);
           ("success", or_else (opt_get result "success") (VBool false));
           ("data", or_else (opt_get result "data") VNull);
           ("error", or_else (opt_get result "error") VNull)],
     st)
  else
    match handleMessage service unbound_member {| type := type; data := data |} st with
    | (Returns response, st') =>
        (VObj [("requestId", requestId); ("success", VBool true); ("data", response)], st')
    | (Throws err, st') =>
        (VObj [("requestId", requestId); ("success", VBool false);
               ("error", VStr (JS.message err))], st')
    end.

End Listeners.

(** *** handleVLMRequest *)

(** What [handleVLMRequest] does to the outside world, in order. *)
Inductive effect : Type :=
| Service (e : AIService.effect)
| TabsSendMessage (tabId : value) (message : value).

Definition is_request (e : effect) : bool :=
  match e with Service (AIService.Fetch _ _ _) => true | _ => false end.

Definition is_tab_message (e : effect) : bool :=
  match e with TabsSendMessage _ _ => true | _ => false end.

(** [if (sender?.tab?.id) chrome.tabs.sendMessage(sender.tab.id, {...})]. *)
Definition notify (sender : value) (payload : list (string * value)) : list effect :=
  let id := opt_get (opt_get sender "tab") "id" in
  if truthy id
  then [TabsSendMessage id (VObj (("type", VStr "ANALYSIS_RESULT") :: payload))]
  else [].

(** Lines 129-143: the text parsed whole or, when that throws, cut from
    its first brace to its last one; [None] stands for [parsed = null]. *)
Definition parse_or_cut (resultText : string) : option value :=
  match JSON_parse resultText with
  | Some parsed => Some parsed
  | None =>
      match AIService.vlm_candidate resultText with
      | Some cut => JSON_parse cut
      | None => None
      end
  end.

Section VLM.

Variable JSON_stringify : value -> string.

(** Lines 39-63: the MIME type and the base64 payload of a data URI, or
    the error thrown for one that matches neither pattern. *)
Variable data_uri : string -> outcome (value * string).

Variable fetch : value -> value -> outcome value.

(** The template literal of line 82 for the image width and height it is
    given. *)
Variable default_prompt : value -> value -> string.

(** The result and the payload sent to the tab for a provider text that
    is truthy and not a string. *)
Variable text_not_string : value -> list (string * value) * value.

(** [handleVLMRequest({ data }, sender)]: what it does and the result
    object it returns; it never throws. *)
Definition handleVLMRequest (data sender : value) (st : gmap string value)
  : list effect * value :=
  let failed (before : list effect) (msg : string) :=
    (before ++ notify sender [("error", VStr msg)],
     VObj [("success", VBool false); ("error", VStr msg)]) in
  let imageData := or_else (opt_get data "frameDataUrl") (opt_get data "imageData") in
  let providedPrompt := or_else (opt_get data "prompt") VNull in
  let frameWidth := or_else (opt_get data "frameWidth") VNull in
  let frameHeight := or_else (opt_get data "frameHeight") VNull in
  if negb (truthy imageData) then failed [] "No image data provided"
  else
    match imageData with
    | VStr uri =>
        match data_uri uri with
        | Throws err => failed [] (JS.message err)
        | Returns (mimeType, rawBase64Data) =>
            let stored := StorageManager.getSetting "geminiApiKey" st in
            let geminiKey :=
              if truthy stored then stored else VStr AIService.placeholder_key in
            let read := [Service (AIService.StorageGet ["geminiApiKey"])] in
            if negb (truthy geminiKey)
               || strict_eq_string geminiKey AIService.placeholder_key
            then failed read (JS.message AIService.key_not_configured)
            else
              let imgW := or_else frameWidth (VStr "UNKNOWN_WIDTH") in
              let imgH := or_else frameHeight (VStr "UNKNOWN_HEIGHT") in
              let prompt := or_else providedPrompt (VStr (default_prompt imgW imgH)) in
              let body :=
                VObj [("contents",
                       VArr [VObj [("parts",
                                    VArr [VObj [("text", prompt)];
                                          VObj [("inlineData",
                                                 VObj [("mimeType",
                                                        or_else mimeType (VStr "image/jpeg"));
                                                       ("data", VStr rawBase64Data)])]])]])] in
              let sent :=
                read ++ [Service (AIService.Fetch AIService.gemini_endpoint geminiKey body)] in
              match fetch geminiKey body with
              | Throws err => failed sent (JS.message err)
              | Returns response =>
                  match AIService.candidate_text response with
                  | VUndefined | VNull =>
                      let errMsg := "Gemini VLM error: " +:+ JSON_stringify response in
                      (sent ++ notify sender [("error", VStr errMsg)],
                       VObj [("success", VBool false); ("error", VStr errMsg)])
                  | VStr resultText =>
                      match parse_or_cut resultText with
                      | Some parsed =>
                          if truthy parsed then
                            (sent ++ notify sender [("data", parsed)],
                             VObj [("success", VBool true); ("data", parsed)])
                          else
                            (sent ++ notify sender
                                       [("data", VObj [("text", VStr resultText)])],
                             VObj [("success", VBool true); ("data", VStr resultText)])
                      | None =>
                          (sent ++ notify sender
                                     [("data", VObj [("text", VStr resultText)])],
                           VObj [("success", VBool true); ("data", VStr resultText)])
                      end
                  | resultText =>
                      let (payload, result) := text_not_string resultText in
                      (sent ++ notify sender payload, result)
                  end
              end
        end
    | _ => failed [] "imageData.match is not a function"
    end.

(** The sender the port listener gives: [{ tab: { id: null } }]. *)
Definition port_sender : value := VObj [("tab", VObj [("id", VNull)])].

End VLM.

End Background.

(* ================================================================== *)
(** ** content.js *)
(* ================================================================== *)

Module Content.

(** [messageClient.detectConfusion(behaviorData)] posts
    [{ userBehavior }]; the counts travel as numbers, the position and
    the segment map as whatever values they serialise to. *)
Definition detectConfusion_payload (rewinds pauses : Z)
    (currentTimestamp watchedSegments : value) : value :=
  VObj [("userBehavior",
         VObj [ ("rewindCount", num_of_Z rewinds);
                ("pauseCount", num_of_Z pauses);
                ("currentTimestamp", currentTimestamp);
                ("watchedSegments", watchedSegments) ])].

(** [sendToUI(type, data)]: the message given to [window.postMessage]. *)
Definition sendToUI (type : string) (data : value) : value :=
  VObj [("type", VStr ("PVL_RESPONSE_" +:+ type)); ("data", data)].

(** [handleConfusionDetected(behaviorData)], from the settlement of the
    request on: the messages posted to the page.  A rejected request, or
    a result that is null or undefined, ends the handler by a rejection
    and nothing is posted. *)
Definition handleConfusionDetected (result : MessageClient.settlement) : list value :=
  match result with
  | MessageClient.Resolve (VUndefined | VNull) => []
  | MessageClient.Resolve result =>
      if truthy (js_get result "isConfused") then
        [sendToUI "CONFUSION_DETECTED"
           (VObj [ ("score", js_get result "confusionScore");
                   ("suggestions", js_get result "suggestedIntervention") ])]
      else []
  | MessageClient.Reject _ => []
  end.

End Content.

(* ================================================================== *)
(** * Properties *)
(* ================================================================== *)

(** ** AI gateway: the confusion heuristic *)

(** C3.  For every behaviour sample, [detectConfusion] returns the score
    [rewindCount * 2 + pauseCount], reports confusion exactly when the
    score is at least 3, and suggests the fixed list of three
    interventions when confused and null otherwise.  Three rewinds and no
    pause give score 6 and confusion; no rewind and two pauses give score
    2 and no confusion. *)
Theorem detectConfusion_score_and_interventions :
  (forall b : AIService.UserBehavior,
      let r := AIService.detectConfusion b in
      AIService.confusionScore r
        = (AIService.rewindCount b * 2 + AIService.pauseCount b)%Z
      /\ AIService.isConfused r = (3 <=? AIService.confusionScore r)%Z
      /\ AIService.suggestedIntervention r
         = (if AIService.isConfused r
            then Some ["vocabulary_simplification"; "step_breakdown"; "pause_assistance"]
            else None))
  /\ (forall (t : Q) (w : gmap Z Z),
         let r := AIService.detectConfusion
                    {| AIService.rewindCount := 3; AIService.pauseCount := 0;
                       AIService.currentTimestamp := t;
                       AIService.watchedSegments := w |} in
         AIService.isConfused r = true /\ AIService.confusionScore r = 6%Z)
  /\ (forall (t : Q) (w : gmap Z Z),
         let r := AIService.detectConfusion
                    {| AIService.rewindCount := 0; AIService.pauseCount := 2;
                       AIService.currentTimestamp := t;
                       AIService.watchedSegments := w |} in
         AIService.isConfused r = false /\ AIService.confusionScore r = 2%Z).
Proof.
  split; [| split].
  - intros b r. subst r. unfold AIService.detectConfusion. cbn.
    repeat split.
  - intros t w. cbn. split; reflexivity.
  - intros t w. cbn. split; reflexivity.
Qed.

(** ** Double-precision subtraction around the rewind threshold *)

Section DoubleFacts.

Import Double.

#[local] Open Scope Q_scope.

Lemma two_nonzero : ~ 2 == 0.
Proof. discriminate. Qed.

Lemma pow2_pos (k : Z) : 0 < 2 ^ k.
Proof. apply Qpower_0_lt. reflexivity. Qed.

Lemma pow2_le (n m : Z) : (n <= m)%Z -> 2 ^ n <= 2 ^ m.
Proof. intros H. apply Qpower_le_compat_l; [exact H | discriminate]. Qed.

Lemma pow2_lt_inv (n m : Z) : 2 ^ n < 2 ^ m -> (n < m)%Z.
Proof. intros H. apply (Qpower_lt_compat_l_inv 2); [exact H | reflexivity]. Qed.

Lemma floor_bounds (y : Q) : inject_Z (Qfloor y) <= y /\ y < inject_Z (Qfloor y) + 1.
Proof.
  split; [apply Qfloor_le|].
  assert (H := Qlt_floor y). rewrite inject_Z_plus in H. exact H.
Qed.

Lemma rhe_cases (y : Q) :
  round_half_even y = Qfloor y \/ round_half_even y = (Qfloor y + 1)%Z.
Proof.
  unfold round_half_even. destruct (_ ?= _); [destruct (Z.even _)| |]; auto.
Qed.

Lemma rhe_lower (y : Q) (n : Z) : inject_Z n <= y -> (n <= round_half_even y)%Z.
Proof.
  intros H. assert (Hf : (n <= Qfloor y)%Z).
  { rewrite <- (Qfloor_Z n). apply Qfloor_resp_le. exact H. }
  destruct (rhe_cases y) as [-> | ->]; lia.
Qed.

Lemma rhe_upper (y : Q) (n : Z) : y <= inject_Z n -> (round_half_even y <= n)%Z.
Proof.
  intros H. assert (Hf : (Qfloor y <= n)%Z).
  { rewrite <- (Qfloor_Z n). apply Qfloor_resp_le. exact H. }
  destruct (Z.eq_dec (Qfloor y) n) as [E|E].
  - unfold round_half_even. rewrite E.
    destruct (Qcompare_spec (y - inject_Z n) (1 # 2)) as [Heq|Hlt|Hgt]; [lra | lia | lra].
  - destruct (rhe_cases y) as [-> | ->]; lia.
Qed.

(** Above an even integer, rounding goes up exactly beyond the half. *)
Lemma rhe_above_even (y : Q) (n : Z) :
  Z.even n = true -> ((n < round_half_even y)%Z <-> inject_Z n + (1 # 2) < y).
Proof.
  intros Heven. destruct (floor_bounds y) as [Hlo Hhi]. split.
  - intros H. apply Qnot_le_lt. intros Hle.
    assert (Hf : (Qfloor y <= n)%Z).
    { apply Z.lt_succ_r. rewrite Zlt_Qlt. unfold Z.succ. rewrite inject_Z_plus.
      change (inject_Z 1) with 1. apply Qle_lt_trans with y; [exact Hlo | lra]. }
    destruct (Z.eq_dec (Qfloor y) n) as [E|E].
    + unfold round_half_even in H. rewrite E in H.
      destruct (Qcompare_spec (y - inject_Z n) (1 # 2)) as [Heq|Hlt|Hgt].
      * rewrite Heven in H. lia.
      * lia.
      * lra.
    + destruct (rhe_cases y) as [R|R]; rewrite R in H; lia.
  - intros H.
    assert (Hf : (n <= Qfloor y)%Z).
    { rewrite <- (Qfloor_Z n). apply Qfloor_resp_le. lra. }
    destruct (Z.eq_dec (Qfloor y) n) as [E|E].
    + unfold round_half_even. rewrite E.
      destruct (Qcompare_spec (y - inject_Z n) (1 # 2)) as [Heq|Hlt|Hgt]; [lra | lra | lia].
    + destruct (rhe_cases y) as [-> | ->]; lia.
Qed.

(** [ilog2 a] is the binade of [a]. *)
Lemma ilog2_spec (a : Q) : 0 < a -> 2 ^ ilog2 a <= a /\ a < 2 ^ (ilog2 a + 1).
Proof.
  intros Ha. destruct a as [n d]. unfold ilog2. cbn [Qnum Qden].
  assert (Hn : (0 < n)%Z) by (unfold Qlt in Ha; cbn in Ha; lia).
  destruct (Z.log2_spec n Hn) as [Hn1 Hn2].
  destruct (Z.log2_spec (Z.pos d) ltac:(lia)) as [Hd1 Hd2].
  assert (Hln := Z.log2_nonneg n). assert (Hld := Z.log2_nonneg (Z.pos d)).
  set (p := Z.log2 n) in *. set (q := Z.log2 (Z.pos d)) in *.
  assert (Hq : n # d == inject_Z n / inject_Z (Z.pos d)) by apply Qmake_Qdiv.
  assert (Hdpos : 0 < inject_Z (Z.pos d)) by reflexivity.
  assert (Hn1q : 2 ^ p <= inject_Z n).
  { change 2 with (inject_Z 2). rewrite <- Zpower_Qpower by exact Hln.
    rewrite <- Zle_Qle. exact Hn1. }
  assert (Hn2q : inject_Z n < 2 ^ (p + 1)).
  { change 2 with (inject_Z 2). rewrite <- Zpower_Qpower by lia.
    rewrite <- Zlt_Qlt. exact Hn2. }
  assert (Hd1q : 2 ^ q <= inject_Z (Z.pos d)).
  { change 2 with (inject_Z 2). rewrite <- Zpower_Qpower by exact Hld.
    rewrite <- Zle_Qle. exact Hd1. }
  assert (Hd2q : inject_Z (Z.pos d) < 2 ^ (q + 1)).
  { change 2 with (inject_Z 2). rewrite <- Zpower_Qpower by lia.
    rewrite <- Zlt_Qlt. exact Hd2. }
  assert (Hupper : n # d < 2 ^ (p - q + 1)).
  { rewrite Hq. apply Qlt_shift_div_r; [exact Hdpos|].
    apply Qlt_le_trans with (2 ^ (p + 1)); [exact Hn2q|].
    replace (p + 1)%Z with ((p - q + 1) + q)%Z by lia.
    rewrite Qpower_plus by exact two_nonzero.
    apply Qmult_le_l; [apply pow2_pos | exact Hd1q]. }
  assert (Hlower : 2 ^ (p - q - 1) <= n # d).
  { rewrite Hq. apply Qle_shift_div_l; [exact Hdpos|].
    apply Qle_trans with (2 ^ p); [| exact Hn1q].
    replace p with ((p - q - 1) + (q + 1))%Z at 2 by lia.
    rewrite Qpower_plus by exact two_nonzero.
    apply Qmult_le_l; [apply pow2_pos | apply Qlt_le_weak; exact Hd2q]. }
  destruct (Qle_bool (2 ^ (p - q)) (n # d)) eqn:E.
  - apply Qle_bool_iff in E. split; [exact E | exact Hupper].
  - split; [exact Hlower|].
    replace (p - q - 1 + 1)%Z with (p - q)%Z by lia.
    apply Qnot_le_lt. intros H. apply Qle_bool_iff in H. congruence.
Qed.

(** The rounded magnitude before the overflow test. *)
Lemma round_positive_clamp (a : Q) :
  let e := Z.max (ilog2 a - 52) (-1074) in
  let r := inject_Z (round_half_even (a / 2 ^ e)) * 2 ^ e in
  (5 < round_positive a <-> 5 < r) /\ (r <= 4 -> round_positive a <= 4).
Proof.
  intros e r. unfold round_positive. fold e. fold r.
  assert (Hinf : 5 < infinity) by reflexivity.
  destruct (Qle_bool infinity r) eqn:E.
  - apply Qle_bool_iff in E. split.
    + split; intros _; [apply Qlt_le_trans with infinity; assumption | exact Hinf].
    + intros H. exfalso. apply (Qlt_irrefl 5).
      apply Qlt_le_trans with infinity; [exact Hinf|].
      apply Qle_trans with r; [exact E|]. apply Qle_trans with 4; [exact H | discriminate].
  - split; [reflexivity | auto].
Qed.

Lemma scaled_bounds (a : Q) (e lo hi : Z) :
  (0 <= lo)%Z -> (0 <= hi)%Z ->
  (2 ^ (lo + e) <= a -> 2 ^ (lo + e) <= inject_Z (round_half_even (a / 2 ^ e)) * 2 ^ e)
  /\ (a <= 2 ^ (hi + e) -> inject_Z (round_half_even (a / 2 ^ e)) * 2 ^ e <= 2 ^ (hi + e)).
Proof.
  intros Hlo Hhi. assert (He := pow2_pos e). split; intros H.
  - rewrite Qpower_plus by exact two_nonzero.
    apply Qmult_le_compat_r; [| apply Qlt_le_weak; exact He].
    change 2 with (inject_Z 2) at 1. rewrite <- Zpower_Qpower by exact Hlo.
    rewrite <- Zle_Qle. apply rhe_lower.
    rewrite Zpower_Qpower by exact Hlo. change (inject_Z 2) with 2.
    apply Qle_shift_div_l; [exact He|].
    rewrite <- Qpower_plus by exact two_nonzero. exact H.
  - rewrite Qpower_plus by exact two_nonzero.
    apply Qmult_le_compat_r; [| apply Qlt_le_weak; exact He].
    change 2 with (inject_Z 2) at 2. rewrite <- Zpower_Qpower by exact Hhi.
    rewrite <- Zle_Qle. apply rhe_upper.
    rewrite Zpower_Qpower by exact Hhi. change (inject_Z 2) with 2.
    apply Qle_shift_div_r; [exact He|].
    rewrite <- Qpower_plus by exact two_nonzero. exact H.
Qed.

(** Which positive magnitudes round to more than 5: those beyond
    5 + 2^-51, the midpoint between 5 and the next double. *)
Lemma round_positive_above_5 (a : Q) :
  0 < a -> (5 < round_positive a <-> 5 + (1 # 2251799813685248) < a).
Proof.
  intros Ha. destruct (ilog2_spec a Ha) as [Hlo Hhi].
  destruct (round_positive_clamp a) as [Hclamp Hsmall].
  set (k := ilog2 a) in *. set (e := Z.max (k - 52) (-1074)) in *.
  set (r := inject_Z (round_half_even (a / 2 ^ e)) * 2 ^ e) in *.
  destruct (Qlt_le_dec a 4) as [H4|H4].
  - (* below 4: the result is at most 4 *)
    assert (Hk : (k < 2)%Z).
    { apply pow2_lt_inv. apply Qle_lt_trans with a; [exact Hlo | exact H4]. }
    assert (He : (k - 52 <= e /\ (e = k - 52 \/ e = -1074))%Z) by (subst e; lia).
    destruct (scaled_bounds a e 0 (Z.max 0 (k + 1 - e))) as [_ Hup]; [lia | lia |].
    assert (Hbelow : a <= 2 ^ (Z.max 0 (k + 1 - e) + e)).
    { apply Qle_trans with (2 ^ (k + 1)); [apply Qlt_le_weak; exact Hhi|].
      apply pow2_le. lia. }
    specialize (Hup Hbelow). fold r in Hup.
    assert (Hr : r <= 4).
    { apply Qle_trans with (2 ^ (Z.max 0 (k + 1 - e) + e)); [exact Hup|].
      change 4 with (2 ^ 2). apply pow2_le. lia. }
    specialize (Hsmall Hr). split; intros H; exfalso.
    + apply (Qlt_irrefl 5). apply Qlt_le_trans with (round_positive a); [exact H|].
      apply Qle_trans with 4; [exact Hsmall | discriminate].
    + apply (Qlt_irrefl a). apply Qlt_trans with 4; [exact H4|].
      apply Qlt_trans with (5 + (1 # 2251799813685248)); [reflexivity | exact H].
  - destruct (Qlt_le_dec a 8) as [H8|H8].
    + (* between 4 and 8: the grid step is 2^-50 *)
      assert (Hk : k = 2%Z).
      { assert (H1 : (k < 3)%Z).
        { apply pow2_lt_inv. apply Qle_lt_trans with a; [exact Hlo | exact H8]. }
        assert (H2 : (2 < k + 1)%Z).
        { apply pow2_lt_inv. apply Qle_lt_trans with a; [exact H4 | exact Hhi]. }
        lia. }
      assert (He : e = (-50)%Z) by (subst e; rewrite Hk; reflexivity).
      rewrite Hclamp. subst r. rewrite He.
      change (2 ^ (-50)) with (1 # 1125899906842624).
      set (m := round_half_even (a / (1 # 1125899906842624))).
      assert (Hm : (5629499534213120 < m)%Z
                   <-> inject_Z 5629499534213120 + (1 # 2) < a / (1 # 1125899906842624)).
      { apply rhe_above_even. reflexivity. }
      assert (Hscale : a / (1 # 1125899906842624) == a * 1125899906842624) by (field).
      rewrite Hscale in Hm.
      assert (Hr : 5 < inject_Z m * (1 # 1125899906842624) <-> (5629499534213120 < m)%Z).
      { rewrite Zlt_Qlt. split; intros H.
        - apply Qmult_lt_r with (1 # 1125899906842624); [reflexivity|].
          apply Qle_lt_trans with 5; [| exact H]. apply Qle_lteq. right. reflexivity.
        - apply Qle_lt_trans with (inject_Z 5629499534213120 * (1 # 1125899906842624)).
          + apply Qle_lteq. right. reflexivity.
          + apply Qmult_lt_r; [reflexivity | exact H]. }
      rewrite Hr, Hm. split; intros H.
      * apply Qmult_lt_r with 1125899906842624; [reflexivity|].
        apply Qle_lt_trans with (inject_Z 5629499534213120 + (1 # 2)); [| exact H].
        apply Qle_lteq. right. reflexivity.
      * apply Qle_lt_trans with ((5 + (1 # 2251799813685248)) * 1125899906842624).
        -- apply Qle_lteq. right. reflexivity.
        -- apply Qmult_lt_r; [reflexivity | exact H].
    + (* from 8 on: the result is at least 8 *)
      assert (Hk : (3 < k + 1)%Z).
      { apply pow2_lt_inv. apply Qle_lt_trans with a; [exact H8 | exact Hhi]. }
      assert (He : e = (k - 52)%Z) by (subst e; lia).
      destruct (scaled_bounds a e 52 0) as [Hdown _]; [lia | lia |].
      replace (52 + e)%Z with k in Hdown by lia.
      specialize (Hdown Hlo). fold r in Hdown.
      assert (Hr : 5 < r).
      { apply Qlt_le_trans with (2 ^ 3); [reflexivity|].
        apply Qle_trans with (2 ^ k); [apply pow2_le; lia | exact Hdown]. }
      split; intros _.
      * apply Qlt_le_trans with 8; [reflexivity | exact H8].
      * apply Hclamp. exact Hr.
Qed.

(** The computed difference is below -5 exactly when the exact one is
    below -(5 + 2^-51). *)
Lemma round_below_minus_5 (x : Q) :
  round x < - (5) <-> x < - (5 + (1 # 2251799813685248)).
Proof.
  destruct x as [n d]. unfold round. cbn [Qnum]. destruct n as [|p|p].
  - split; intros H; discriminate H.
  - assert (Hpos : 0 < Z.pos p # d) by reflexivity.
    assert (Hr : 0 <= round_positive (Z.pos p # d)).
    { destruct (Qlt_le_dec 5 (round_positive (Z.pos p # d))) as [H|H].
      - apply Qlt_le_weak. apply Qlt_trans with 5; [reflexivity | exact H].
      - unfold round_positive.
        destruct (Qle_bool _ _); [discriminate|].
        apply Qmult_le_0_compat; [| apply Qlt_le_weak, pow2_pos].
        change 0 with (inject_Z 0). rewrite <- Zle_Qle. apply rhe_lower.
        apply Qle_shift_div_l; [apply pow2_pos|]. rewrite Qmult_0_l.
        apply Qlt_le_weak. exact Hpos. }
    split; intros H; exfalso.
    + apply (Qlt_irrefl 0). apply Qle_lt_trans with (round_positive (Z.pos p # d));
        [exact Hr|]. apply Qlt_trans with (- (5)); [exact H | reflexivity].
    + apply (Qlt_irrefl 0). apply Qlt_trans with (Z.pos p # d); [exact Hpos|].
      apply Qlt_trans with (- (5 + (1 # 2251799813685248))); [exact H | reflexivity].
  - assert (Hpos : 0 < - (Z.neg p # d)) by reflexivity.
    assert (H5 := round_positive_above_5 _ Hpos).
    set (x := Z.neg p # d) in *. clearbody x.
    set (R := round_positive (- x)) in *. clearbody R.
    split; intros H.
    + assert (H' : 5 < R) by lra. apply H5 in H'. lra.
    + assert (H' : 5 + (1 # 2251799813685248) < - x) by lra. apply H5 in H'. lra.
Qed.

End DoubleFacts.

(** ** Behaviour monitor *)

Section TrackerFacts.

Import BehaviorTracker.

Lemma visit_same (m : gmap Z Z) (k : Z) :
  visit m k !! k = Some (default 0%Z (m !! k) + 1)%Z.
Proof.
  unfold visit. rewrite lookup_insert_eq. f_equal. f_equal.
  destruct (m !! k) as [n|] eqn:E.
  - destruct (Z.eqb_spec n 0) as [->|Hn].
    + rewrite lookup_insert_eq. reflexivity.
    + rewrite E. reflexivity.
  - rewrite lookup_insert_eq. reflexivity.
Qed.

Lemma visit_other (m : gmap Z Z) (k j : Z) :
  k <> j -> visit m k !! j = m !! j.
Proof.
  intros Hne. unfold visit. rewrite lookup_insert_ne by exact Hne.
  destruct (m !! k) as [n|].
  - destruct (n =? 0)%Z; [rewrite lookup_insert_ne by exact Hne|]; reflexivity.
  - rewrite lookup_insert_ne by exact Hne. reflexivity.
Qed.

Lemma Qltb_lt (a b : Q) : Qltb a b = true <-> (a < b)%Q.
Proof.
  unfold Qltb. rewrite negb_true_iff. split.
  - intros H. apply Qnot_le_lt. intros Hle.
    apply Qle_bool_iff in Hle. congruence.
  - intros H. destruct (Qle_bool b a) eqn:E; [|reflexivity].
    apply Qle_bool_iff in E. exfalso. exact (Qlt_not_le _ _ H E).
Qed.

(** The segment is the multiple of 10 whose 10-second bucket holds the
    position. *)
Lemma segment_of_bucket (t : Q) :
  (segment_of t mod 10 = 0)%Z
  /\ (inject_Z (segment_of t) <= t)%Q
  /\ (t < inject_Z (segment_of t + 10))%Q.
Proof.
  unfold segment_of.
  assert (Hten : (t / 10 * 10 == t)%Q) by (field; discriminate).
  split; [apply Z.mod_mul; lia | split].
  - assert (H := Qfloor_le (t / 10)).
    rewrite inject_Z_mult.
    apply Qle_trans with (t / 10 * 10)%Q; [| rewrite Hten; apply Qle_refl].
    apply Qmult_le_compat_r; [exact H | discriminate].
  - assert (H := Qlt_floor (t / 10)).
    replace (Qfloor (t / 10) * 10 + 10)%Z with ((Qfloor (t / 10) + 1) * 10)%Z by lia.
    rewrite inject_Z_mult.
    apply Qle_lt_trans with (t / 10 * 10)%Q; [rewrite Hten; apply Qle_refl |].
    apply Qmult_lt_compat_r; [reflexivity | exact H].
Qed.

(** Every handler leaves the rewind threshold at the constructor's 5. *)
Lemma handle_threshold (i : input) (d : Data) :
  rewindThreshold (handle i d).1 = rewindThreshold d.
Proof.
  destruct i; cbn; try reflexivity.
  unfold checkForConfusion.
  destruct ((3 <=? rewindCount d)%Z || (5 <=? pauseCount d)%Z); reflexivity.
Qed.

Lemma run_threshold (history : list input) (d : Data) :
  rewindThreshold (run history d) = rewindThreshold d.
Proof.
  revert d. induction history as [|i history IH]; intros d; [reflexivity|].
  unfold run in *. cbn. rewrite IH. apply handle_threshold.
Qed.

End TrackerFacts.

(** C4.  On a periodic check: when [rewindCount >= 3] or
    [pauseCount >= 5], exactly one confusion-detected event is emitted,
    carrying the current counts, the current position and the whole
    segment-visit map; afterwards the three counters are 0 while
    [segmentWatchTimes] and [lastPosition] are as before.  Otherwise
    nothing is emitted and no field changes. *)
Theorem checkForConfusion_trip_and_reset (now : Q) (d : BehaviorTracker.Data) :
  ((3 <= BehaviorTracker.rewindCount d)%Z \/ (5 <= BehaviorTracker.pauseCount d)%Z ->
     (BehaviorTracker.checkForConfusion now d).2
       = [BehaviorTracker.confusion_detected
            (BehaviorTracker.rewindCount d) (BehaviorTracker.pauseCount d)
            now (BehaviorTracker.segmentWatchTimes d)]
     /\ BehaviorTracker.rewindCount (BehaviorTracker.checkForConfusion now d).1 = 0%Z
     /\ BehaviorTracker.pauseCount (BehaviorTracker.checkForConfusion now d).1 = 0%Z
     /\ BehaviorTracker.playbackSpeedChanges (BehaviorTracker.checkForConfusion now d).1 = 0%Z
     /\ BehaviorTracker.segmentWatchTimes (BehaviorTracker.checkForConfusion now d).1
        = BehaviorTracker.segmentWatchTimes d
     /\ BehaviorTracker.lastPosition (BehaviorTracker.checkForConfusion now d).1
        = BehaviorTracker.lastPosition d
     /\ BehaviorTracker.rewindThreshold (BehaviorTracker.checkForConfusion now d).1
        = BehaviorTracker.rewindThreshold d)
  /\ (~ ((3 <= BehaviorTracker.rewindCount d)%Z \/ (5 <= BehaviorTracker.pauseCount d)%Z) ->
      BehaviorTracker.checkForConfusion now d = (d, [])).
Proof.
  unfold BehaviorTracker.checkForConfusion.
  destruct (Z.leb_spec 3 (BehaviorTracker.rewindCount d)) as [Hr|Hr];
    destruct (Z.leb_spec 5 (BehaviorTracker.pauseCount d)) as [Hp|Hp]; cbn;
    split; intros H; try (repeat split; reflexivity);
    try (exfalso; apply H; auto; fail).
  exfalso. destruct H; lia.
Qed.

Lemma checkForConfusion_trip_and_reset_witness :
  let tripped :=
    {| BehaviorTracker.rewindCount := 3; BehaviorTracker.pauseCount := 1;
       BehaviorTracker.playbackSpeedChanges := 2;
       BehaviorTracker.segmentWatchTimes := {[ 10%Z := 4%Z ]};
       BehaviorTracker.lastPosition := 12; BehaviorTracker.rewindThreshold := 5 |} in
  ((3 <= 3)%Z \/ (5 <= 1)%Z)
  /\ (BehaviorTracker.checkForConfusion 17 tripped).2
     = [BehaviorTracker.confusion_detected 3 1 17 {[ 10%Z := 4%Z ]}]
  /\ BehaviorTracker.segmentWatchTimes (BehaviorTracker.checkForConfusion 17 tripped).1
     = {[ 10%Z := 4%Z ]}
  /\ ~ ((3 <= 0)%Z \/ (5 <= 0)%Z)
  /\ BehaviorTracker.checkForConfusion 17 BehaviorTracker.initial
     = (BehaviorTracker.initial, []).
Proof.
  intros tripped.
  assert (Hyes : (3 <= 3)%Z \/ (5 <= 1)%Z) by (left; lia).
  assert (Hno : ~ ((3 <= 0)%Z \/ (5 <= 0)%Z)) by (intros [H|H]; lia).
  destruct (checkForConfusion_trip_and_reset 17 tripped) as [Htrip _].
  destruct (checkForConfusion_trip_and_reset 17 BehaviorTracker.initial) as [_ Hidle].
  destruct (Htrip Hyes) as (Hev & _ & _ & _ & Hseg & _).
  split; [exact Hyes|]. split; [exact Hev|]. split; [exact Hseg|].
  split; [exact Hno|]. exact (Hidle Hno).
Defined.

(** C8, as the code has it.  On a playback-position update, in any state
    the tracker can reach: the difference between the new position and
    the last recorded one is computed in double precision, and it comes
    out below -5 exactly when the new position is more than 5 + 2^-51
    seconds behind; then [rewindCount] grows by one and one rewind event
    is emitted, otherwise the count stays and nothing is emitted.  In
    every case the visit count of the 10-second bucket holding the new
    position, [floor(position / 10) * 10], grows by one (an absent count
    is 0), the other buckets are untouched, and [lastPosition] becomes
    the new position. *)
Theorem handleTimeUpdate_rewind_and_bucket
    (history : list BehaviorTracker.input) (now : Q) :
  let d := BehaviorTracker.run history BehaviorTracker.initial in
  let d' := (BehaviorTracker.handleTimeUpdate now d).1 in
  let emitted := (BehaviorTracker.handleTimeUpdate now d).2 in
  let bucket := (Qfloor (now / 10) * 10)%Z in
  let behind := (5 + (1 # 2251799813685248) < BehaviorTracker.lastPosition d - now)%Q in
  ((Double.sub now (BehaviorTracker.lastPosition d) < - (5))%Q <-> behind)
  /\ (behind ->
      BehaviorTracker.rewindCount d' = (BehaviorTracker.rewindCount d + 1)%Z
      /\ emitted = [BehaviorTracker.rewind (BehaviorTracker.lastPosition d) now
                      (BehaviorTracker.rewindCount d + 1)%Z])
  /\ (~ behind ->
      BehaviorTracker.rewindCount d' = BehaviorTracker.rewindCount d /\ emitted = [])
  /\ BehaviorTracker.segmentWatchTimes d' !! bucket
     = Some (default 0%Z (BehaviorTracker.segmentWatchTimes d !! bucket) + 1)%Z
  /\ (forall k : Z, k <> bucket ->
        BehaviorTracker.segmentWatchTimes d' !! k
        = BehaviorTracker.segmentWatchTimes d !! k)
  /\ ((bucket mod 10 = 0)%Z /\ (inject_Z bucket <= now)%Q /\ (now < inject_Z (bucket + 10))%Q)
  /\ BehaviorTracker.lastPosition d' = now
  /\ BehaviorTracker.pauseCount d' = BehaviorTracker.pauseCount d
  /\ BehaviorTracker.playbackSpeedChanges d' = BehaviorTracker.playbackSpeedChanges d.
Proof.
  intros d d' emitted bucket behind.
  assert (Hth : BehaviorTracker.rewindThreshold d = 5%Q)
    by (subst d; rewrite run_threshold; reflexivity).
  assert (Hsub : (Double.sub now (BehaviorTracker.lastPosition d) < - (5))%Q <-> behind).
  { unfold Double.sub. rewrite round_below_minus_5. subst behind.
    split; intros H; lra. }
  assert (Hcmp : BehaviorTracker.Qltb (Double.sub now (BehaviorTracker.lastPosition d))
                   (- BehaviorTracker.rewindThreshold d)%Q = true
                 <-> behind).
  { rewrite Qltb_lt, Hth. exact Hsub. }
  split; [exact Hsub|].
  subst d' emitted. unfold BehaviorTracker.handleTimeUpdate. cbn.
  destruct (BehaviorTracker.Qltb (Double.sub now (BehaviorTracker.lastPosition d))
              (- BehaviorTracker.rewindThreshold d)%Q) eqn:E.
  - assert (Hlt : behind) by (apply Hcmp; reflexivity).
    split; [intros _; split; reflexivity|].
    split; [intros Hn; exfalso; exact (Hn Hlt)|].
    split; [apply visit_same|]. split; [intros k Hk; apply visit_other; intros Heq; apply Hk; symmetry; exact Heq|].
    split; [apply segment_of_bucket|]. repeat split.
  - assert (Hnlt : ~ behind)
      by (intros H; apply Hcmp in H; discriminate).
    split; [intros H; exfalso; exact (Hnlt H)|].
    split; [intros _; split; reflexivity|].
    split; [apply visit_same|]. split; [intros k Hk; apply visit_other; intros Heq; apply Hk; symmetry; exact Heq|].
    split; [apply segment_of_bucket|]. repeat split.
Qed.

Lemma handleTimeUpdate_rewind_and_bucket_witness :
  let history := [BehaviorTracker.Timeupdate 42; BehaviorTracker.PauseEvent 42] in
  let d := BehaviorTracker.run history BehaviorTracker.initial in
  (5 + (1 # 2251799813685248) < BehaviorTracker.lastPosition d - 30)%Q
  /\ BehaviorTracker.rewindCount (BehaviorTracker.handleTimeUpdate 30 d).1 = 1%Z
  /\ (BehaviorTracker.handleTimeUpdate 30 d).2 = [BehaviorTracker.rewind 42 30 1]
  /\ ~ (5 + (1 # 2251799813685248) < BehaviorTracker.lastPosition d - 40)%Q
  /\ (BehaviorTracker.handleTimeUpdate 40 d).2 = [].
Proof.
  intros history d.
  assert (Hback : (5 + (1 # 2251799813685248) < BehaviorTracker.lastPosition d - 30)%Q)
    by reflexivity.
  assert (Hnear : ~ (5 + (1 # 2251799813685248) < BehaviorTracker.lastPosition d - 40)%Q)
    by (intros H; vm_compute in H; discriminate).
  destruct (handleTimeUpdate_rewind_and_bucket history 30) as (_ & Hyes & _).
  destruct (handleTimeUpdate_rewind_and_bucket history 40) as (_ & _ & Hno & _).
  destruct (Hyes Hback) as [Hcount Hev].
  destruct (Hno Hnear) as [_ Hnone].
  split; [exact Hback|]. split; [exact Hcount|]. split; [exact Hev|].
  split; [exact Hnear|]. exact Hnone.
Defined.

(** C8 as stated fails where the exact difference exceeds 5 by no more
    than 2^-51.  With the last position at 6 s, a move to 1 - 2^-53 s is
    more than 5 s back, yet the subtraction yields exactly -5, which is
    not below -5: no rewind is counted and nothing is emitted.  The same
    happens between the ordinary positions 5.633763 and 0.633763 (the
    doubles nearest to them). *)
Lemma rewind_just_over_five_seconds_is_missed :
  let at_six := BehaviorTracker.run [BehaviorTracker.Timeupdate 6] BehaviorTracker.initial in
  let now := (9007199254740991 # 9007199254740992)%Q in
  let later :=
    BehaviorTracker.run
      [BehaviorTracker.Timeupdate (3171526618436711 # 562949953421312)]
      BehaviorTracker.initial in
  let back := (5708429621282415 # 9007199254740992)%Q in
  ((5 < BehaviorTracker.lastPosition at_six - now)%Q
   /\ (Double.sub now (BehaviorTracker.lastPosition at_six) == - (5))%Q
   /\ BehaviorTracker.rewindCount (BehaviorTracker.handleTimeUpdate now at_six).1
      = BehaviorTracker.rewindCount at_six
   /\ (BehaviorTracker.handleTimeUpdate now at_six).2 = [])
  /\ ((5 < BehaviorTracker.lastPosition later - back)%Q
      /\ BehaviorTracker.rewindCount (BehaviorTracker.handleTimeUpdate back later).1
         = BehaviorTracker.rewindCount later
      /\ (BehaviorTracker.handleTimeUpdate back later).2 = [])
  /\ ~ (forall (history : list BehaviorTracker.input) (position : Q),
          let d := BehaviorTracker.run history BehaviorTracker.initial in
          (5 < BehaviorTracker.lastPosition d - position)%Q ->
          BehaviorTracker.rewindCount (BehaviorTracker.handleTimeUpdate position d).1
          = (BehaviorTracker.rewindCount d + 1)%Z).
Proof.
  intros at_six now later back.
  assert (Hsix : (5 < BehaviorTracker.lastPosition at_six - now)%Q) by reflexivity.
  assert (Hcount : BehaviorTracker.rewindCount
                     (BehaviorTracker.handleTimeUpdate now at_six).1
                   = BehaviorTracker.rewindCount at_six) by (vm_compute; reflexivity).
  split; [| split].
  - split; [exact Hsix|]. split; [vm_compute; reflexivity|].
    split; [exact Hcount | vm_compute; reflexivity].
  - split; [reflexivity|]. split; vm_compute; reflexivity.
  - intros Hclaim.
    specialize (Hclaim [BehaviorTracker.Timeupdate 6] now Hsix).
    fold at_six in Hclaim. rewrite Hcount in Hclaim. vm_compute in Hclaim. discriminate Hclaim.
Qed.

(** ** Message transport: the persistent channel *)

Section PortFacts.

Import MessageClient.

Lemma strict_eq_string_true (v : value) (s : string) :
  strict_eq_string v s = true <-> v = VStr s.
Proof.
  destruct v; cbn; try (split; [discriminate | intros H; discriminate H]).
  rewrite String.eqb_eq. split; [intros ->; reflexivity | intros H; congruence].
Qed.

(** Only an object can answer a [requestId]. *)
Lemma requestId_truthy (msg : value) (rid : string) :
  js_get msg "requestId" = VStr rid -> truthy msg = true.
Proof. destruct msg; cbn; try discriminate; reflexivity. Qed.

Lemma onMessage_requestId (c : PortCall) (msg : value) :
  requestId (onMessage c msg) = requestId c.
Proof.
  unfold onMessage.
  destruct (negb (truthy msg)
            || negb (strict_eq_string (js_get msg "requestId") (requestId c)));
    reflexivity.
Qed.

Lemma step_requestId (c : PortCall) (e : port_event) :
  requestId (step c e) = requestId c.
Proof.
  destruct e; cbn.
  - unfold deliver. destruct (listening c && connected c);
      [apply onMessage_requestId | reflexivity].
  - unfold fire_timeout. destruct (timer c); reflexivity.
Qed.

(** A mismatched message changes nothing. *)
Lemma deliver_mismatch (c : PortCall) (msg : value) :
  js_get msg "requestId" <> VStr (requestId c) -> deliver c msg = c.
Proof.
  intros Hne. unfold deliver, onMessage.
  destruct (strict_eq_string (js_get msg "requestId") (requestId c)) eqn:E.
  - apply strict_eq_string_true in E. contradiction.
  - rewrite orb_true_r. destruct (listening c && connected c); reflexivity.
Qed.

(** A message that settles a pending promise bears the call's id and
    settles it by its own content. *)
Lemma deliver_settles (c : PortCall) (msg : value) :
  promise c = None -> promise (deliver c msg) <> None ->
  js_get msg "requestId" = VStr (requestId c)
  /\ promise (deliver c msg)
     = Some (if truthy (js_get msg "success")
             then Resolve (js_get msg "data")
             else Reject (or_else (js_get msg "error") (VStr "Unknown error from port"))).
Proof.
  intros Hpend Hset. unfold deliver, onMessage in *.
  destruct (listening c && connected c); [|congruence].
  destruct (truthy msg); cbn in *; [|congruence].
  destruct (strict_eq_string (js_get msg "requestId") (requestId c)) eqn:E;
    cbn in *; [|congruence].
  apply strict_eq_string_true in E. rewrite Hpend. cbn. split; [exact E | reflexivity].
Qed.

(** Once settled, a promise keeps its value. *)
Lemma step_settled (c : PortCall) (e : port_event) (s : settlement) :
  promise c = Some s -> promise (step c e) = Some s.
Proof.
  intros Hs. destruct e; cbn.
  - unfold deliver, onMessage. destruct (listening c && connected c); [|exact Hs].
    destruct (negb (truthy msg)
              || negb (strict_eq_string (js_get msg "requestId") (requestId c)));
      [exact Hs | cbn; rewrite Hs; reflexivity].
  - unfold fire_timeout. destruct (timer c); [cbn; rewrite Hs; reflexivity | exact Hs].
Qed.

Lemma run_settled (es : list port_event) (c : PortCall) (s : settlement) :
  promise c = Some s -> promise (run c es) = Some s.
Proof.
  revert c. induction es as [|e es IH]; intros c Hs; [exact Hs|].
  unfold run in *. cbn. apply IH. apply step_settled. exact Hs.
Qed.

(** Whatever arrives on the port, a call that ends up resolved was
    resolved by a message that bears its own id and carries that data. *)
Lemma run_resolved_by_own_id (es : list port_event) (c : PortCall) (x : value) :
  promise c = None -> promise (run c es) = Some (Resolve x) ->
  exists msg, In (Message msg) es
              /\ js_get msg "requestId" = VStr (requestId c)
              /\ truthy (js_get msg "success") = true
              /\ js_get msg "data" = x.
Proof.
  revert c. induction es as [|e es IH]; intros c Hpend Hres.
  - cbn in Hres. congruence.
  - unfold run in Hres. cbn in Hres. fold (run (step c e) es) in Hres.
    destruct (promise (step c e)) as [s|] eqn:Es.
    + rewrite (run_settled es (step c e) s Es) in Hres.
      injection Hres as ->.
      destruct e as [msg|].
      * cbn in Es.
        destruct (deliver_settles c msg Hpend) as [Hid Hval]; [congruence|].
        rewrite Hval in Es. exists msg. split; [left; reflexivity|].
        split; [exact Hid|].
        destruct (truthy (js_get msg "success")); [|discriminate].
        split; [reflexivity | congruence].
      * cbn in Es. unfold fire_timeout in Es.
        destruct (timer c); cbn in Es; [rewrite Hpend in Es; discriminate | congruence].
    + destruct (IH (step c e) Es Hres) as (msg & Hin & Hid & Hok & Hdata).
      exists msg. split; [right; exact Hin|].
      rewrite step_requestId in Hid. auto.
Qed.

End PortFacts.

(** C1.  Over the persistent channel: a message whose requestId differs
    from the one generated for the call leaves the call as it was (the
    caller keeps waiting); a pending promise is settled by a message only
    if the message bears the call's requestId, and then by that message's
    own content; whatever arrives, a call that ends up resolved was
    resolved by a message bearing its id; and of two calls in flight with
    the same type and distinct requestIds, answered in the opposite
    order, each resolves with the payload that bears its own requestId
    (whether the two share a port or not). *)
Theorem sendViaPort_correlates_by_requestId :
  (forall (c : MessageClient.PortCall) (msg : value),
      js_get msg "requestId" <> VStr (MessageClient.requestId c) ->
      MessageClient.deliver c msg = c)
  /\ (forall (c : MessageClient.PortCall) (msg : value),
         MessageClient.promise c = None ->
         MessageClient.promise (MessageClient.deliver c msg) <> None ->
         js_get msg "requestId" = VStr (MessageClient.requestId c)
         /\ MessageClient.promise (MessageClient.deliver c msg)
            = Some (if truthy (js_get msg "success")
                    then MessageClient.Resolve (js_get msg "data")
                    else MessageClient.Reject
                           (or_else (js_get msg "error")
                                    (VStr "Unknown error from port"))))
  /\ (forall (type : string) (data : value) (rid : string)
             (es : list MessageClient.port_event) (x : value),
         MessageClient.promise
           (MessageClient.run (MessageClient.sendViaPort type data rid).1 es)
         = Some (MessageClient.Resolve x) ->
         exists msg, In (MessageClient.Message msg) es
                     /\ js_get msg "requestId" = VStr rid
                     /\ js_get msg "data" = x)
  /\ (forall (type : string) (d1 d2 x1 x2 : value) (r1 r2 : string) (p1 p2 : nat),
         r1 <> r2 ->
         let reply (r : string) (x : value) :=
           VObj [("requestId", VStr r); ("success", VBool true); ("data", x)] in
         let calls :=
           [ {| MessageClient.port := p1;
                MessageClient.call := (MessageClient.sendViaPort type d1 r1).1 |};
             {| MessageClient.port := p2;
                MessageClient.call := (MessageClient.sendViaPort type d2 r2).1 |} ] in
         map (fun c => MessageClient.promise (MessageClient.call c))
             (MessageClient.deliver_on p1 (reply r1 x1)
                (MessageClient.deliver_on p2 (reply r2 x2) calls))
         = [Some (MessageClient.Resolve x1); Some (MessageClient.Resolve x2)]).
Proof.
  split; [exact deliver_mismatch|]. split; [exact deliver_settles|]. split.
  - intros type data rid es x Hres.
    destruct (run_resolved_by_own_id es (MessageClient.sendViaPort type data rid).1 x)
      as (msg & Hin & Hid & _ & Hdata); [reflexivity | exact Hres |].
    exists msg. auto.
  - intros type d1 d2 x1 x2 r1 r2 p1 p2 Hne reply calls.
    assert (H12 : String.eqb r1 r2 = false) by (apply String.eqb_neq; exact Hne).
    assert (H21 : String.eqb r2 r1 = false) by (apply String.eqb_neq; congruence).
    subst calls reply. cbn.
    unfold MessageClient.deliver, MessageClient.onMessage. cbn.
    rewrite !String.eqb_refl, ?H12, ?H21.
    destruct (p1 =? p2)%nat eqn:E12.
    + apply Nat.eqb_eq in E12. subst p2. rewrite Nat.eqb_refl. cbn.
      rewrite ?Nat.eqb_refl, ?String.eqb_refl, ?H12, ?H21. cbn.
      rewrite ?Nat.eqb_refl, ?String.eqb_refl, ?H12, ?H21. reflexivity.
    + assert (E21 : (p2 =? p1)%nat = false)
        by (rewrite Nat.eqb_sym; exact E12).
      rewrite ?Nat.eqb_refl, ?E12, ?E21. cbn.
      rewrite ?Nat.eqb_refl, ?E12, ?E21, ?String.eqb_refl, ?H12, ?H21. cbn.
      rewrite ?Nat.eqb_refl, ?E12, ?E21, ?String.eqb_refl, ?H12, ?H21. reflexivity.
Qed.

Lemma sendViaPort_correlates_by_requestId_witness :
  let c := (MessageClient.sendViaPort "SIMPLIFY_TEXT" (VObj []) "1700000000000-17").1 in
  let reply (r : string) (x : value) :=
    VObj [("requestId", VStr r); ("success", VBool true); ("data", x)] in
  js_get (reply "1700000000000-99" (VStr "theirs")) "requestId"
    <> VStr (MessageClient.requestId c)
  /\ MessageClient.deliver c (reply "1700000000000-99" (VStr "theirs")) = c
  /\ MessageClient.promise c = None
  /\ MessageClient.promise (MessageClient.deliver c (reply "1700000000000-17" (VStr "mine")))
     = Some (MessageClient.Resolve (VStr "mine"))
  /\ MessageClient.promise
       (MessageClient.run c
          [MessageClient.Message (reply "1700000000000-99" (VStr "theirs"));
           MessageClient.Message (reply "1700000000000-17" (VStr "mine"));
           MessageClient.TimerFired])
     = Some (MessageClient.Resolve (VStr "mine"))
  /\ (exists msg,
         In (MessageClient.Message msg)
            [MessageClient.Message (reply "1700000000000-99" (VStr "theirs"));
             MessageClient.Message (reply "1700000000000-17" (VStr "mine"));
             MessageClient.TimerFired]
         /\ js_get msg "requestId" = VStr "1700000000000-17"
         /\ js_get msg "data" = VStr "mine")
  /\ "1700000000000-17" <> "1700000000000-99"
  /\ map (fun c => MessageClient.promise (MessageClient.call c))
         (MessageClient.deliver_on 0 (reply "1700000000000-17" (VStr "mine"))
            (MessageClient.deliver_on 1 (reply "1700000000000-99" (VStr "theirs"))
               [ {| MessageClient.port := 0;
                    MessageClient.call :=
                      (MessageClient.sendViaPort "SIMPLIFY_TEXT" (VStr "a")
                         "1700000000000-17").1 |};
                 {| MessageClient.port := 1;
                    MessageClient.call :=
                      (MessageClient.sendViaPort "SIMPLIFY_TEXT" (VStr "b")
                         "1700000000000-99").1 |} ]))
     = [Some (MessageClient.Resolve (VStr "mine"));
        Some (MessageClient.Resolve (VStr "theirs"))].
Proof.
  intros c reply.
  destruct sendViaPort_correlates_by_requestId as (Hignore & Hsettle & Hrun & Hpair).
  assert (Hres : MessageClient.promise
                   (MessageClient.run c
                      [MessageClient.Message (reply "1700000000000-99" (VStr "theirs"));
                       MessageClient.Message (reply "1700000000000-17" (VStr "mine"));
                       MessageClient.TimerFired])
                 = Some (MessageClient.Resolve (VStr "mine"))) by reflexivity.
  assert (Hother : js_get (reply "1700000000000-99" (VStr "theirs")) "requestId"
                   <> VStr (MessageClient.requestId c)) by discriminate.
  assert (Hids : "1700000000000-17" <> "1700000000000-99") by discriminate.
  assert (Hpend : MessageClient.promise c = None) by reflexivity.
  assert (Hset : MessageClient.promise
                   (MessageClient.deliver c (reply "1700000000000-17" (VStr "mine")))
                 <> None) by discriminate.
  split; [exact Hother|]. split; [exact (Hignore c _ Hother)|].
  split; [exact Hpend|].
  split; [exact (proj2 (Hsettle c _ Hpend Hset))|].
  split; [exact Hres|].
  split; [exact (Hrun "SIMPLIFY_TEXT" (VObj []) "1700000000000-17" _ _ Hres)|].
  split; [exact Hids|].
  exact (Hpair "SIMPLIFY_TEXT" (VStr "a") (VStr "b") (VStr "mine") (VStr "theirs")
               _ _ 0%nat 1%nat Hids).
Defined.

(** ** Message transport: the transient strategy *)

Section TransientFacts.

Import MessageClient.

Variable results : nat -> send_result.
Variable fallback : option value.

(** Every run of [attempt] is some rounds of "send, wait", each after a
    transient error, then one last send; that send is answered, or it
    fails and the fallback is tried once, which happens only when no try
    is left or the error is not transient. *)
Lemma attempt_shape (triesLeft : nat) (i : nat) :
  exists n : nat,
    (n <= triesLeft)%nat
    /\ (forall k, (k < n)%nat -> is_transient_error (results (i + k)))
    /\ ((exists response,
            results (i + n) = Response response
            /\ (attempt results fallback i triesLeft).1
               = backoff (maxRetries - Z.of_nat triesLeft + 1) n ++ [SendMessage])
        \/ (exists message,
               results (i + n) = LastError message
               /\ (n = triesLeft \/ transient (default EmptyString message) = false)
               /\ attempt results fallback i triesLeft
                  = (backoff (maxRetries - Z.of_nat triesLeft + 1) n
                       ++ [SendMessage; ConnectTransport],
                     after_fallback fallback (default EmptyString message)))).
Proof.
  revert i. induction triesLeft as [|t IH]; intros i.
  - exists 0%nat. split; [lia|]. split; [intros k Hk; lia|].
    rewrite Nat.add_0_r. cbn. destruct (results i) as [message|response].
    + right. exists message. split; [reflexivity|]. split; [left; reflexivity|].
      reflexivity.
    + left. exists response. split; reflexivity.
  - cbn [attempt]. destruct (results i) as [message|response] eqn:Ei.
    + destruct (transient (default EmptyString message)) eqn:Et.
      * destruct (IH (S i)) as (n & Hn & Hpre & Hend).
        exists (S n). split; [lia|]. split.
        { intros k Hk. destruct k as [|k].
          - rewrite Nat.add_0_r, Ei. exact Et.
          - replace (i + S k)%nat with (S i + k)%nat by lia. apply Hpre. lia. }
        replace (i + S n)%nat with (S i + n)%nat by lia.
        replace (maxRetries - Z.of_nat t + 1)%Z
          with (maxRetries - Z.of_nat (S t) + 1 + 1)%Z in Hend by lia.
        destruct (attempt results fallback (S i) t) as [acts r].
        destruct Hend as [(response & Hr & Hacts) | (m & Hr & Hwhy & Hacts)].
        -- left. exists response. split; [exact Hr|]. cbn in *. rewrite Hacts. reflexivity.
        -- right. exists m. split; [exact Hr|]. split; [destruct Hwhy; [left; lia | right; assumption]|].
           injection Hacts as -> ->. reflexivity.
      * exists 0%nat. split; [lia|]. split; [intros k Hk; lia|].
        rewrite Nat.add_0_r, Ei. right. exists message.
        split; [reflexivity|]. split; [right; exact Et|]. reflexivity.
    + exists 0%nat. split; [lia|]. split; [intros k Hk; lia|].
      rewrite Nat.add_0_r, Ei. left. exists response. split; reflexivity.
Qed.

Lemma backoff_delays (first : Z) (n : nat) :
  List.length (List.filter is_delay (backoff first n)) = n
  /\ List.filter is_connect (backoff first n) = [].
Proof.
  revert first. induction n as [|n IH]; intros first; [split; reflexivity|].
  cbn. destruct (IH (first + 1)%Z) as [Hd Hc]. rewrite Hd, Hc. split; reflexivity.
Qed.

End TransientFacts.

(** C2.  [sendViaMessage], for every behaviour of the channel: a run is
    [n <= 3] retries, each after a transient error and each preceded by a
    wait of 150 ms times its number (150, 300, 450), then a last send;
    the fallback over a port is tried at most once, as the last action,
    and only after a send failed with no try left or with an error that
    is not transient; its failure surfaces the last error.  When the four
    sends all fail with a transient error the run is exactly
    send, 150, send, 300, send, 450, send, fallback.  When the first error
    is not transient there is no retry at all. *)
Theorem sendViaMessage_retries_then_falls_back
    (results : nat -> MessageClient.send_result) (fallback : option value) :
  let outcome := MessageClient.sendViaMessage results fallback in
  (exists n : nat,
      (n <= 3)%nat
      /\ (forall k, (k < n)%nat -> MessageClient.is_transient_error (results k))
      /\ ((exists response,
              results n = MessageClient.Response response
              /\ outcome.1 = MessageClient.backoff 1 n ++ [MessageClient.SendMessage])
          \/ (exists message,
                 results n = MessageClient.LastError message
                 /\ (n = 3%nat
                     \/ MessageClient.transient (default EmptyString message) = false)
                 /\ outcome
                    = (MessageClient.backoff 1 n
                         ++ [MessageClient.SendMessage; MessageClient.ConnectTransport],
                       MessageClient.after_fallback fallback
                         (default EmptyString message)))))
  /\ (List.length (List.filter MessageClient.is_delay outcome.1) <= 3)%nat
  /\ (List.length (List.filter MessageClient.is_connect outcome.1) <= 1)%nat
  /\ ((forall i, (i <= 3)%nat -> MessageClient.is_transient_error (results i)) ->
      exists message,
        results 3%nat = MessageClient.LastError message
        /\ outcome
           = ([MessageClient.SendMessage; MessageClient.Delay 150;
               MessageClient.SendMessage; MessageClient.Delay 300;
               MessageClient.SendMessage; MessageClient.Delay 450;
               MessageClient.SendMessage; MessageClient.ConnectTransport],
              MessageClient.after_fallback fallback (default EmptyString message)))
  /\ (forall message,
         results 0%nat = MessageClient.LastError message ->
         MessageClient.transient (default EmptyString message) = false ->
         outcome
         = ([MessageClient.SendMessage; MessageClient.ConnectTransport],
            MessageClient.after_fallback fallback (default EmptyString message))).
Proof.
  intros outcome.
  assert (Hshape := attempt_shape results fallback 3 0).
  change (MessageClient.attempt results fallback 0 3) with outcome in Hshape.
  change (MessageClient.maxRetries - Z.of_nat 3 + 1)%Z with 1%Z in Hshape.
  destruct Hshape as (n & Hn & Hpre & Hend). cbn [Nat.add] in Hpre, Hend.
  split; [exists n; auto|].
  assert (Hcount :
            (List.length (List.filter MessageClient.is_delay outcome.1) <= 3)%nat
            /\ (List.length (List.filter MessageClient.is_connect outcome.1) <= 1)%nat).
  { destruct (backoff_delays 1 n) as [Hd Hc].
    destruct Hend as [(response & _ & Hacts) | (message & _ & _ & Hout)].
    - rewrite Hacts, !List.filter_app, Hc, List.length_app, Hd. cbn. lia.
    - rewrite Hout. cbn [fst].
      rewrite !List.filter_app, Hc, List.length_app, Hd. cbn. lia. }
  split; [apply Hcount|]. split; [apply Hcount|]. split.
  - intros Hall.
    destruct Hend as [(response & Hr & _) | (message & Hr & Hwhy & Hout)].
    + specialize (Hall n Hn). rewrite Hr in Hall. contradiction.
    + destruct Hwhy as [-> | Hnt].
      * exists message. split; [exact Hr | exact Hout].
      * specialize (Hall n Hn). rewrite Hr in Hall. cbn in Hall. congruence.
  - intros message H0 Hnt. subst outcome.
    change (MessageClient.sendViaMessage results fallback)
      with (MessageClient.attempt results fallback 0 3).
    cbn [MessageClient.attempt]. rewrite H0, Hnt. reflexivity.
Qed.

Lemma sendViaMessage_retries_then_falls_back_witness :
  let closed (_ : nat) :=
    MessageClient.LastError
      (Some "The message port closed before a response was received.") in
  let refused (_ : nat) :=
    MessageClient.LastError
      (Some "Could not establish connection. Receiving end does not exist.") in
  (forall i, (i <= 3)%nat -> MessageClient.is_transient_error (closed i))
  /\ MessageClient.sendViaMessage closed None
     = ([MessageClient.SendMessage; MessageClient.Delay 150;
         MessageClient.SendMessage; MessageClient.Delay 300;
         MessageClient.SendMessage; MessageClient.Delay 450;
         MessageClient.SendMessage; MessageClient.ConnectTransport],
        MessageClient.Reject
          (VStr "The message port closed before a response was received."))
  /\ MessageClient.transient
       "Could not establish connection. Receiving end does not exist." = false
  /\ MessageClient.sendViaMessage refused (Some (VBool true))
     = ([MessageClient.SendMessage; MessageClient.ConnectTransport],
        MessageClient.Resolve (VBool true)).
Proof.
  intros closed refused.
  assert (Hall : forall i, (i <= 3)%nat -> MessageClient.is_transient_error (closed i))
    by (intros i _; reflexivity).
  assert (Hnt : MessageClient.transient
                  "Could not establish connection. Receiving end does not exist." = false)
    by reflexivity.
  destruct (sendViaMessage_retries_then_falls_back closed None) as (_ & _ & _ & Hfour & _).
  destruct (sendViaMessage_retries_then_falls_back refused (Some (VBool true)))
    as (_ & _ & _ & _ & Hfirst).
  destruct (Hfour Hall) as (message & Hm & Hout).
  injection Hm as <-.
  split; [exact Hall|]. split; [exact Hout|]. split; [exact Hnt|].
  exact (Hfirst _ eq_refl Hnt).
Defined.

(** ** AI gateway: the credential check *)

(** C7.  When the stored Gemini key is absent or is the placeholder,
    [callLLM] and [callVLM] only read the key from storage and fail with
    the error whose message names the missing key; no request is sent to
    the provider, whatever the prompt, the frame and the provider are. *)
Theorem missing_key_fails_before_any_fetch
    (JSON_stringify : value -> string)
    (data_uri : string -> outcome (value * string))
    (fetch : value -> value -> outcome value)
    (text_not_string : value -> outcome value)
    (st : gmap string value) (prompt : string) (frameDataUrl : value) :
  st !! "geminiApiKey" = None
  \/ st !! "geminiApiKey" = Some (VStr "<YOUR_GEMINI_API_KEY_HERE>") ->
  let llm := AIService.callLLM JSON_stringify fetch text_not_string st prompt in
  let vlm := AIService.callVLM JSON_stringify data_uri fetch text_not_string
               st frameDataUrl prompt in
  llm = ([AIService.StorageGet ["geminiApiKey"]],
         Throws (Error "Gemini API key not configured. Please set it in the extension popup."))
  /\ vlm = llm
  /\ existsb AIService.is_fetch llm.1 = false
  /\ existsb AIService.is_fetch vlm.1 = false.
Proof.
  intros Hkey llm vlm. subst llm vlm.
  unfold AIService.callLLM, AIService.callVLM, ChromeStorage.get. cbn [fold_left].
  destruct Hkey as [-> | ->]; cbn; repeat split.
Qed.

Lemma missing_key_fails_before_any_fetch_witness :
  let stringify (_ : value) := EmptyString in
  let data_uri (_ : string) : outcome (value * string) :=
    Returns (VStr "image/png", "iVBORw0KGgo=") in
  let fetch (_ _ : value) : outcome value := Returns VNull in
  let odd (v : value) : outcome value := Returns v in
  let fresh : gmap string value := ∅ in
  let installed : gmap string value :=
    {[ "geminiApiKey" := VStr "<YOUR_GEMINI_API_KEY_HERE>" ]} in
  fresh !! "geminiApiKey" = None
  /\ installed !! "geminiApiKey" = Some (VStr "<YOUR_GEMINI_API_KEY_HERE>")
  /\ existsb AIService.is_fetch
       (AIService.callLLM stringify fetch odd fresh "Simplify this").1 = false
  /\ AIService.callVLM stringify data_uri fetch odd installed
       (VStr "data:image/png;base64,iVBORw0KGgo=") "Identify"
     = ([AIService.StorageGet ["geminiApiKey"]],
        Throws (Error "Gemini API key not configured. Please set it in the extension popup.")).
Proof.
  intros stringify data_uri fetch odd fresh installed.
  assert (Hfresh : fresh !! "geminiApiKey" = None) by apply lookup_empty.
  assert (Hinst : installed !! "geminiApiKey" = Some (VStr "<YOUR_GEMINI_API_KEY_HERE>"))
    by apply lookup_singleton_eq.
  destruct (missing_key_fails_before_any_fetch stringify data_uri fetch odd fresh
              "Simplify this" VNull (or_introl Hfresh)) as (_ & _ & Hno & _).
  destruct (missing_key_fails_before_any_fetch stringify data_uri fetch odd installed
              "Identify" (VStr "data:image/png;base64,iVBORw0KGgo=") (or_intror Hinst))
    as (Hllm & Hvlm & _ & _).
  split; [exact Hfresh|]. split; [exact Hinst|]. split; [exact Hno|].
  exact (eq_trans Hvlm Hllm).
Defined.

(** ** JSON.parse: the fuel of the model is enough *)

Section JsonFacts.

Lemma skip_ws_length (s : string) : (String.length (skip_ws s) <= String.length s)%nat.
Proof. induction s as [|a s IH]; cbn; [lia|]. destruct (is_ws a); cbn; lia. Qed.

Lemma strip_prefix_length (p s r : string) :
  strip_prefix p s = Some r ->
  (String.length r + String.length p = String.length s)%nat.
Proof.
  revert s. induction p as [|a p IH]; intros s H; cbn in H.
  - injection H as ->. cbn. lia.
  - destruct s as [|b s]; [discriminate|].
    destruct (a =? b)%char; [|discriminate]. apply IH in H. cbn. lia.
Qed.

Lemma span_digits_length (s d r : string) :
  span_digits s = (d, r) ->
  (String.length d + String.length r = String.length s)%nat.
Proof.
  revert d r. induction s as [|a s IH]; intros d r H; cbn in H.
  - injection H as <- <-. reflexivity.
  - destruct (is_digit a).
    + destruct (span_digits s) as [d' r'] eqn:E. injection H as <- <-.
      specialize (IH _ _ eq_refl). cbn. lia.
    + injection H as <- <-. reflexivity.
Qed.

Lemma lex_digits1_length (s d r : string) :
  lex_digits1 s = Some (d, r) -> (String.length r < String.length s)%nat.
Proof.
  unfold lex_digits1. destruct (span_digits s) as [d' r'] eqn:E.
  apply span_digits_length in E. destruct d'; [discriminate|].
  intros H. injection H as <- <-. cbn in E. lia.
Qed.

Lemma lex_int_length (s i r : string) :
  lex_int s = Some (i, r) -> (String.length r < String.length s)%nat.
Proof.
  destruct s as [|c s]; cbn; [discriminate|].
  destruct (c =? "0")%char; [intros H; injection H as <- <-; cbn; lia|].
  destruct (is_digit c); [|discriminate].
  destruct (span_digits s) as [d r'] eqn:E. apply span_digits_length in E.
  intros H. injection H as <- <-. lia.
Qed.

Lemma lex_frac_length (s f r : string) :
  lex_frac s = Some (f, r) -> (String.length r <= String.length s)%nat.
Proof.
  destruct s as [|c s]; cbn; [intros H; injection H as <- <-; cbn; lia|].
  destruct (c =? ".")%char.
  - destruct (lex_digits1 s) as [[d r']|] eqn:E; [|discriminate].
    apply lex_digits1_length in E. intros H. injection H as <- <-. lia.
  - intros H. injection H as <- <-. cbn. lia.
Qed.

Lemma lex_exp_length (s e r : string) :
  lex_exp s = Some (e, r) -> (String.length r <= String.length s)%nat.
Proof.
  destruct s as [|c s]; cbn; [intros H; injection H as <- <-; cbn; lia|].
  destruct ((c =? "e")%char || (c =? "E")%char).
  - destruct s as [|sg s']; [discriminate|].
    destruct ((sg =? "+")%char || (sg =? "-")%char).
    + destruct (lex_digits1 s') as [[d r']|] eqn:E; [|discriminate].
      apply lex_digits1_length in E. intros H. injection H as <- <-. cbn. lia.
    + destruct (lex_digits1 (String sg s')) as [[d r']|] eqn:E; [|discriminate].
      apply lex_digits1_length in E. intros H. injection H as <- <-. cbn in *. lia.
  - intros H. injection H as <- <-. cbn. lia.
Qed.

Lemma lex_number_length (s l r : string) :
  lex_number s = Some (l, r) -> (String.length r < String.length s)%nat.
Proof.
  assert (Hu : forall s l r, lex_unsigned s = Some (l, r) ->
                             (String.length r < String.length s)%nat).
  { clear. intros s l r. unfold lex_unsigned.
    destruct (lex_int s) as [[i r1]|] eqn:E1; [|discriminate].
    destruct (lex_frac r1) as [[f r2]|] eqn:E2; [|discriminate].
    destruct (lex_exp r2) as [[e r3]|] eqn:E3; [|discriminate].
    apply lex_int_length in E1. apply lex_frac_length in E2. apply lex_exp_length in E3.
    intros H. injection H as <- <-. lia. }
  destruct s as [|c s]; cbn; [discriminate|].
  destruct (c =? "-")%char.
  - destruct (lex_unsigned s) as [[l' r']|] eqn:E; [|discriminate].
    apply Hu in E. intros H. injection H as <- <-. lia.
  - intros H. apply Hu in H. cbn in H. exact H.
Qed.

Lemma parse_string_body_length (s t r : string) :
  parse_string_body s = Some (t, r) -> (String.length r < String.length s)%nat.
Proof.
  assert (Hgen : forall n s t r, (String.length s <= n)%nat ->
                   parse_string_body s = Some (t, r) ->
                   (String.length r < String.length s)%nat).
  { clear. induction n as [|n IH]; intros s t r Hle H.
    - destruct s; [discriminate | cbn in Hle; lia].
    - assert (Hrec : forall x t' r', (String.length x <= n)%nat ->
                       parse_string_body x = Some (t', r') ->
                       (String.length r' < String.length x)%nat) by exact IH.
      clear IH.
      destruct s as [|c rest]; [discriminate|]. cbn in Hle. cbn in H.
      repeat match type of H with
             | context [if ?b then _ else _] =>
                 destruct b eqn:?; cbv iota beta in H; try discriminate H
             | context [match parse_string_body ?x with _ => _ end] =>
                 let E := fresh "E" in
                 destruct (parse_string_body x) as [[? ?]|] eqn:E;
                 cbv iota beta in H; try discriminate H;
                 apply Hrec in E; [|cbn in *; lia]
             | context [match ?x with _ => _ end] =>
                 destruct x eqn:?; cbv iota beta in H; try discriminate H
             end;
      inversion H; subst; cbn in *; lia. }
  apply (Hgen (String.length s)). lia.
Qed.


Lemma parse_scalar_length (s : string) (v : value) (r : string) :
  parse_scalar s = Some (v, r) -> (String.length r < String.length s)%nat.
Proof.
  unfold parse_scalar. destruct s as [|c rest]; [discriminate|].
  intros H.
  repeat match type of H with
         | context [if ?b then _ else _] =>
             destruct b eqn:?; cbv iota beta in H
         end;
    match type of H with
    | context [parse_string_body ?x] =>
        destruct (parse_string_body x) as [[? ?]|] eqn:E; [|discriminate H];
        apply parse_string_body_length in E
    | context [strip_prefix ?p ?x] =>
        destruct (strip_prefix p x) eqn:E; [|discriminate H];
        apply strip_prefix_length in E
    | context [lex_number ?x] =>
        destruct (lex_number x) as [[? ?]|] eqn:E; [|discriminate H];
        apply lex_number_length in E
    end;
    inversion H; subst; cbn in *; lia.
Qed.

Lemma parse_key_length (s key r : string) :
  parse_key s = Some (key, r) -> (String.length r + 3 <= String.length s)%nat.
Proof.
  unfold parse_key. intros H.
  assert (L0 := skip_ws_length s).
  destruct (skip_ws s) as [|q rest]; [discriminate|].
  destruct (q =? dquote)%char; [|discriminate].
  destruct (parse_string_body rest) as [[k r1]|] eqn:E; [|discriminate].
  apply parse_string_body_length in E.
  assert (L1 := skip_ws_length r1).
  destruct (skip_ws r1) as [|colon r2]; [discriminate|].
  destruct (colon =? ":")%char; [|discriminate].
  inversion H; subst. cbn in *. lia.
Qed.

Lemma parse_value_S (fuel : nat) (s : string) :
  parse_value (S fuel) s
  = match skip_ws s with
    | EmptyString => None
    | String c rest =>
        if (c =? "{")%char then
          match skip_ws rest with
          | String c' rest' =>
              if (c' =? "}")%char then Some (VObj [], rest')
              else parse_members fuel (String c' rest') []
          | EmptyString => None
          end
        else if (c =? "[")%char then
          match skip_ws rest with
          | String c' rest' =>
              if (c' =? "]")%char then Some (VArr [], rest')
              else parse_elements fuel (String c' rest') []
          | EmptyString => None
          end
        else parse_scalar (String c rest)
    end.
Proof. reflexivity. Qed.

Lemma parse_elements_S (fuel : nat) (s : string) (acc : list value) :
  parse_elements (S fuel) s acc
  = match parse_value fuel s with
    | None => None
    | Some (v, rest) =>
        match skip_ws rest with
        | String c rest' =>
            if (c =? ",")%char then parse_elements fuel rest' (acc ++ [v])
            else if (c =? "]")%char then Some (VArr (acc ++ [v]), rest')
            else None
        | EmptyString => None
        end
    end.
Proof. reflexivity. Qed.

Lemma parse_members_S (fuel : nat) (s : string) (acc : list (string * value)) :
  parse_members (S fuel) s acc
  = match parse_key s with
    | None => None
    | Some (key, r2) =>
        match parse_value fuel r2 with
        | None => None
        | Some (v, r3) =>
            match skip_ws r3 with
            | String c r4 =>
                if (c =? ",")%char then parse_members fuel r4 (obj_define acc key v)
                else if (c =? "}")%char then Some (VObj (obj_define acc key v), r4)
                else None
            | EmptyString => None
            end
        end
    end.
Proof. reflexivity. Qed.

(** Every successful parse consumes at least one character. *)
Lemma parse_consumes (fuel : nat) :
  (forall s v r, parse_value fuel s = Some (v, r) ->
                 (String.length r < String.length s)%nat)
  /\ (forall s acc v r, parse_elements fuel s acc = Some (v, r) ->
                        (String.length r < String.length s)%nat)
  /\ (forall s acc v r, parse_members fuel s acc = Some (v, r) ->
                        (String.length r < String.length s)%nat).
Proof.
  induction fuel as [|fuel (IHv & IHe & IHm)];
    [repeat split; intros; discriminate|].
  repeat split.
  - intros s v r. rewrite parse_value_S.
    assert (L0 := skip_ws_length s).
    destruct (skip_ws s) as [|c rest]; [discriminate|].
    destruct (c =? "{")%char; [|destruct (c =? "[")%char].
    + assert (L1 := skip_ws_length rest).
      destruct (skip_ws rest) as [|c' rest']; [discriminate|].
      destruct (c' =? "}")%char; intros H.
      * inversion H; subst. cbn in *. lia.
      * apply IHm in H. cbn in *. lia.
    + assert (L1 := skip_ws_length rest).
      destruct (skip_ws rest) as [|c' rest']; [discriminate|].
      destruct (c' =? "]")%char; intros H.
      * inversion H; subst. cbn in *. lia.
      * apply IHe in H. cbn in *. lia.
    + intros H. apply parse_scalar_length in H. cbn in *. lia.
  - intros s acc v r. rewrite parse_elements_S.
    destruct (parse_value fuel s) as [[v' rest]|] eqn:E; [|discriminate].
    apply IHv in E. assert (L1 := skip_ws_length rest).
    destruct (skip_ws rest) as [|c rest']; [discriminate|].
    destruct (c =? ",")%char; [|destruct (c =? "]")%char]; intros H.
    + apply IHe in H. cbn in *. lia.
    + inversion H; subst. cbn in *. lia.
    + discriminate.
  - intros s acc v r. rewrite parse_members_S.
    destruct (parse_key s) as [[key r2]|] eqn:Ek; [|discriminate].
    apply parse_key_length in Ek.
    destruct (parse_value fuel r2) as [[v' r3]|] eqn:E; [|discriminate].
    apply IHv in E. assert (L1 := skip_ws_length r3).
    destruct (skip_ws r3) as [|c r4]; [discriminate|].
    destruct (c =? ",")%char; [|destruct (c =? "}")%char]; intros H.
    + apply IHm in H. cbn in *. lia.
    + inversion H; subst. cbn in *. lia.
    + discriminate.
Qed.

(** With fuel beyond twice the length of the text, one more unit changes
    nothing. *)
Lemma parse_fuel_stable (fuel : nat) :
  (forall s, (2 * String.length s + 1 <= fuel)%nat ->
             parse_value (S fuel) s = parse_value fuel s)
  /\ (forall s acc, (2 * String.length s + 2 <= fuel)%nat ->
                    parse_elements (S fuel) s acc = parse_elements fuel s acc)
  /\ (forall s acc, (2 * String.length s + 1 <= fuel)%nat ->
                    parse_members (S fuel) s acc = parse_members fuel s acc).
Proof.
  induction fuel as [|fuel (IHv & IHe & IHm)]; [repeat split; intros; lia|].
  repeat split.
  - intros s Hs. rewrite (parse_value_S (S fuel)), (parse_value_S fuel).
    assert (L0 := skip_ws_length s).
    destruct (skip_ws s) as [|c rest]; [reflexivity|].
    destruct (c =? "{")%char; [|destruct (c =? "[")%char]; [| |reflexivity].
    + assert (L1 := skip_ws_length rest).
      destruct (skip_ws rest) as [|c' rest']; [reflexivity|].
      destruct (c' =? "}")%char; [reflexivity|].
      apply IHm. cbn in *. lia.
    + assert (L1 := skip_ws_length rest).
      destruct (skip_ws rest) as [|c' rest']; [reflexivity|].
      destruct (c' =? "]")%char; [reflexivity|].
      apply IHe. cbn in *. lia.
  - intros s acc Hs. rewrite (parse_elements_S (S fuel)), (parse_elements_S fuel).
    rewrite IHv by lia.
    destruct (parse_value fuel s) as [[v rest]|] eqn:E; [|reflexivity].
    apply (proj1 (parse_consumes fuel)) in E.
    assert (L1 := skip_ws_length rest).
    destruct (skip_ws rest) as [|c rest']; [reflexivity|].
    destruct (c =? ",")%char; [|reflexivity].
    apply IHe. cbn in *. lia.
  - intros s acc Hs. rewrite (parse_members_S (S fuel)), (parse_members_S fuel).
    destruct (parse_key s) as [[key r2]|] eqn:Ek; [|reflexivity].
    apply parse_key_length in Ek.
    rewrite IHv by lia.
    destruct (parse_value fuel r2) as [[v r3]|] eqn:E; [|reflexivity].
    apply (proj1 (parse_consumes fuel)) in E.
    assert (L1 := skip_ws_length r3).
    destruct (skip_ws r3) as [|c r4]; [reflexivity|].
    destruct (c =? ",")%char; [|reflexivity].
    apply IHm. cbn in *. lia.
Qed.

(** The fuel [JSON_parse] supplies is enough: any larger amount gives the
    same answer. *)
Lemma JSON_parse_fuel (text : string) (fuel : nat) :
  (2 * String.length text + 2 <= fuel)%nat ->
  parse_value fuel text = parse_value (2 * String.length text + 2) text.
Proof.
  intros H. induction H as [|fuel Hle IH]; [reflexivity|].
  rewrite <- IH. apply (proj1 (parse_fuel_stable fuel)). lia.
Qed.

End JsonFacts.

(** ** AI gateway: extracting the result from the provider's text *)

Section StringFacts.

Import AIService.

Lemma append_nil (b : string) : EmptyString +:+ b = b.
Proof. reflexivity. Qed.

Lemma append_cons (x : ascii) (a b : string) : String x a +:+ b = String x (a +:+ b).
Proof. reflexivity. Qed.

Ltac push_append := rewrite ?append_cons, ?append_nil in *.

Lemma append_assoc (a b c : string) : (a +:+ b) +:+ c = a +:+ (b +:+ c).
Proof.
  induction a as [|x a IH]; push_append; [reflexivity | rewrite IH; reflexivity].
Qed.

Lemma occurs_append (c : ascii) (a b : string) :
  occurs c (a +:+ b) = occurs c a || occurs c b.
Proof.
  induction a as [|x a IH]; push_append; cbn; [reflexivity|].
  rewrite IH, orb_assoc. reflexivity.
Qed.

Lemma lastIndexOf_from_absent (c : ascii) (s : string) (i best : Z) :
  occurs c s = false -> lastIndexOf_from c s i best = best.
Proof.
  revert i best. induction s as [|x s IH]; intros i best H; cbn in *; [reflexivity|].
  apply orb_false_iff in H as [Hx Hs]. rewrite Hx. apply IH. exact Hs.
Qed.

Lemma lastIndexOf_from_present (c : ascii) (s : string) (i best : Z) :
  occurs c s = true ->
  exists a b, s = a +:+ String c b /\ occurs c b = false
              /\ lastIndexOf_from c s i best = (i + Z.of_nat (String.length a))%Z.
Proof.
  revert i best. induction s as [|x s IH]; intros i best H; cbn in *; [discriminate|].
  destruct (occurs c s) eqn:Es.
  - destruct (IH (i + 1)%Z (if (x =? c)%char then i else best) eq_refl)
      as (a & b & -> & Hb & Hres).
    exists (String x a), b. split; [reflexivity|]. split; [exact Hb|].
    rewrite Hres. cbn [String.length]. lia.
  - rewrite orb_false_r in H. rewrite H.
    apply Ascii.eqb_eq in H. subst x.
    exists EmptyString, s. split; [reflexivity|]. split; [exact Es|].
    rewrite lastIndexOf_from_absent by exact Es. cbn. lia.
Qed.

Lemma indexOf_from_absent (c : ascii) (s : string) (i : Z) :
  occurs c s = false -> indexOf_from c s i = (-1)%Z.
Proof.
  revert i. induction s as [|x s IH]; intros i H; cbn in *; [reflexivity|].
  apply orb_false_iff in H as [Hx Hs]. rewrite Hx. apply IH. exact Hs.
Qed.

Lemma indexOf_from_present (c : ascii) (s : string) (i : Z) :
  occurs c s = true ->
  exists a b, s = a +:+ String c b /\ occurs c a = false
              /\ indexOf_from c s i = (i + Z.of_nat (String.length a))%Z.
Proof.
  revert i. induction s as [|x s IH]; intros i H; cbn in *; [discriminate|].
  destruct (x =? c)%char eqn:Ex.
  - apply Ascii.eqb_eq in Ex. subst x.
    exists EmptyString, s. split; [reflexivity|]. split; [reflexivity|]. cbn. lia.
  - cbn in H. destruct (IH (i + 1)%Z H) as (a & b & -> & Ha & Hres).
    exists (String x a), b. split; [reflexivity|]. split; [cbn; rewrite Ex; exact Ha|].
    rewrite Hres. cbn [String.length]. lia.
Qed.

Lemma substring_zero (s : string) : String.substring 0 0 s = EmptyString.
Proof. destruct s; reflexivity. Qed.

Lemma substring_prefix (a s : string) (n : nat) :
  String.substring 0 (String.length a + n) (a +:+ s) = a +:+ String.substring 0 n s.
Proof.
  induction a as [|x a IH]; push_append; cbn; [reflexivity | rewrite IH; reflexivity].
Qed.

Lemma substring_skip (a s : string) (n m : nat) :
  String.substring (String.length a + n) m (a +:+ s) = String.substring n m s.
Proof. induction a as [|x a IH]; push_append; cbn; [reflexivity | exact IH]. Qed.

Lemma length_append (a b : string) :
  String.length (a +:+ b) = (String.length a + String.length b)%nat.
Proof.
  induction a as [|x a IH]; push_append; cbn; [reflexivity | rewrite IH; reflexivity].
Qed.

(** The text up to and including the closer at position [length a]. *)
Lemma substring_through (a b : string) (c : ascii) :
  substring_js 0 (Z.of_nat (String.length a) + 1) (a +:+ String c b)
  = a +:+ String c EmptyString.
Proof.
  unfold substring_js.
  replace (Z.to_nat (Z.of_nat (String.length a) + 1 - 0))
    with (String.length a + 1)%nat by lia.
  change (Z.to_nat 0) with 0%nat. rewrite substring_prefix. cbn.
  rewrite substring_zero. reflexivity.
Qed.

(** The decomposition at the last occurrence is unique. *)
Lemma last_occurrence_unique (c : ascii) (a1 b1 a2 b2 : string) :
  a1 +:+ String c b1 = a2 +:+ String c b2 ->
  occurs c b1 = false -> occurs c b2 = false -> a1 = a2 /\ b1 = b2.
Proof.
  revert a2. induction a1 as [|x a1 IH]; intros a2 Heq H1 H2; destruct a2 as [|y a2];
    push_append.
  - injection Heq as <-. split; reflexivity.
  - injection Heq as <- ->. rewrite occurs_append in H1. cbn in H1.
    rewrite Ascii.eqb_refl, orb_true_r in H1. discriminate.
  - injection Heq as -> <-. rewrite occurs_append in H2. cbn in H2.
    rewrite Ascii.eqb_refl, orb_true_r in H2. discriminate.
  - injection Heq as -> Heq. destruct (IH a2 Heq H1 H2) as [-> ->]. split; reflexivity.
Qed.

(** So is the decomposition at the first occurrence. *)
Lemma first_occurrence_unique (c : ascii) (a1 b1 a2 b2 : string) :
  a1 +:+ String c b1 = a2 +:+ String c b2 ->
  occurs c a1 = false -> occurs c a2 = false -> a1 = a2 /\ b1 = b2.
Proof.
  revert a2. induction a1 as [|x a1 IH]; intros a2 Heq H1 H2; destruct a2 as [|y a2];
    push_append.
  - injection Heq as <-. split; reflexivity.
  - injection Heq as <- _. cbn in H2. rewrite Ascii.eqb_refl in H2. discriminate.
  - injection Heq as -> _. cbn in H1. rewrite Ascii.eqb_refl in H1. discriminate.
  - injection Heq as -> Heq. cbn in H1, H2.
    apply orb_false_iff in H1 as [_ H1]. apply orb_false_iff in H2 as [_ H2].
    destruct (IH a2 Heq H1 H2) as [-> ->]. split; reflexivity.
Qed.

(** Two marks in one text, the first strictly before the second. *)
Lemma marks_in_order (o c : ascii) (a b a2 b2 : string) :
  a +:+ String o b = a2 +:+ String c b2 ->
  (String.length a < String.length a2)%nat ->
  exists body, a2 = a +:+ String o body /\ b = body +:+ String c b2.
Proof.
  revert a2. induction a as [|x a IH]; intros a2 Heq Hlt; destruct a2 as [|y a2];
    push_append; cbn in Hlt; try lia.
  - injection Heq as <- ->. exists a2. split; reflexivity.
  - injection Heq as <- Heq. destruct (IH a2 Heq) as (body & -> & ->); [lia|].
    exists body. split; reflexivity.
Qed.

Lemma append_nil_r (a : string) : a +:+ EmptyString = a.
Proof. induction a as [|x a IH]; push_append; [reflexivity | rewrite IH; reflexivity]. Qed.

Lemma substring_middle (a m post : string) :
  String.substring (String.length a) (String.length m) (a +:+ m +:+ post) = m.
Proof.
  rewrite <- (Nat.add_0_r (String.length a)), substring_skip.
  rewrite <- (Nat.add_0_r (String.length m)), substring_prefix, substring_zero.
  apply append_nil_r.
Qed.

(** *** The regular expression of callLLM matches exactly [llm_span] *)

Lemma llm_span_later (x : ascii) (rest m : string) :
  llm_span rest m ->
  (x = "{"%char -> occurs "}" rest = false) ->
  (x = "["%char -> occurs "]" rest = false) ->
  llm_span (String x rest) m.
Proof.
  intros (pre & post & Htext & Hspan & Hno) Hbrace Hbracket.
  exists (String x pre), post. split; [rewrite Htext; reflexivity|].
  split; [exact Hspan|].
  intros a y b Hdec. destruct a as [|z a]; push_append.
  - injection Hdec as <- <-. rewrite <- Htext. split; assumption.
  - injection Hdec as _ Hdec. exact (Hno a y b Hdec).
Qed.

Lemma llm_span_here (o c : ascii) (a b : string) :
  (o = "{"%char /\ c = "}"%char) \/ (o = "["%char /\ c = "]"%char) ->
  occurs c b = false ->
  llm_span (String o (a +:+ String c b)) (String o (a +:+ String c EmptyString)).
Proof.
  intros Hkind Hb. exists EmptyString, b. push_append.
  split; [rewrite append_assoc; reflexivity|]. split.
  - destruct Hkind as [[-> ->] | [-> ->]]; [left | right]; exists a; auto.
  - intros p y q Hdec. destruct p; discriminate Hdec.
Qed.

Lemma regex_json_match_sound (text m : string) :
  regex_json_match text = Some m -> llm_span text m.
Proof.
  revert m. induction text as [|x rest IH]; intros m H; cbn in H; [discriminate|].
  destruct (x =? "{")%char eqn:Ebrace.
  - apply Ascii.eqb_eq in Ebrace. subst x. unfold lastIndexOf in H.
    destruct (occurs "}" rest) eqn:Eo.
    + destruct (lastIndexOf_from_present "}" rest 0 (-1) Eo) as (a & b & -> & Hb & Hj).
      rewrite Hj in H.
      replace (0 <=? 0 + Z.of_nat (String.length a))%Z with true in H
        by (symmetry; apply Z.leb_le; lia).
      replace (0 + Z.of_nat (String.length a) + 1)%Z
        with (Z.of_nat (String.length a) + 1)%Z in H by lia.
      rewrite substring_through in H. injection H as <-.
      apply llm_span_here; auto.
    + rewrite lastIndexOf_from_absent in H by exact Eo. cbn in H.
      apply llm_span_later; [apply IH; exact H | intros _; exact Eo | discriminate].
  - destruct (x =? "[")%char eqn:Ebracket.
    + apply Ascii.eqb_eq in Ebracket. subst x. unfold lastIndexOf in H.
      destruct (occurs "]" rest) eqn:Eo.
      * destruct (lastIndexOf_from_present "]" rest 0 (-1) Eo) as (a & b & -> & Hb & Hj).
        rewrite Hj in H.
        replace (0 <=? 0 + Z.of_nat (String.length a))%Z with true in H
          by (symmetry; apply Z.leb_le; lia).
        replace (0 + Z.of_nat (String.length a) + 1)%Z
          with (Z.of_nat (String.length a) + 1)%Z in H by lia.
        rewrite substring_through in H. injection H as <-.
        apply llm_span_here; auto.
      * rewrite lastIndexOf_from_absent in H by exact Eo. cbn in H.
        apply llm_span_later; [apply IH; exact H | discriminate | intros _; exact Eo].
    + apply llm_span_later; [apply IH; exact H | |]; intros ->; discriminate.
Qed.

Lemma regex_json_match_here (o c : ascii) (body post : string) :
  (o = "{"%char /\ c = "}"%char) \/ (o = "["%char /\ c = "]"%char) ->
  occurs c post = false ->
  regex_json_match (String o (body +:+ String c post))
  = Some (String o (body +:+ String c EmptyString)).
Proof.
  intros Hkind Hpost.
  assert (Hocc : occurs c (body +:+ String c post) = true).
  { rewrite occurs_append. cbn. rewrite Ascii.eqb_refl, orb_true_r. reflexivity. }
  destruct (lastIndexOf_from_present c _ 0 (-1) Hocc) as (a & b & Heq & Hb & Hj).
  destruct (last_occurrence_unique c _ _ _ _ Heq Hpost Hb) as [<- <-].
  assert (Hcut : (if (0 <=? lastIndexOf c (body +:+ String c post))%Z
                  then Some (String o (substring_js 0 (lastIndexOf c (body +:+ String c post) + 1)
                                         (body +:+ String c post)))
                  else regex_json_match (body +:+ String c post))
                 = Some (String o (body +:+ String c EmptyString))).
  { unfold lastIndexOf. rewrite Hj.
    replace (0 <=? 0 + Z.of_nat (String.length body))%Z with true
      by (symmetry; apply Z.leb_le; lia).
    replace (0 + Z.of_nat (String.length body) + 1)%Z
      with (Z.of_nat (String.length body) + 1)%Z by lia.
    rewrite substring_through. reflexivity. }
  destruct Hkind as [[-> ->] | [-> ->]]; cbn; exact Hcut.
Qed.

Lemma regex_json_match_complete (text m : string) :
  llm_span text m -> regex_json_match text = Some m.
Proof.
  intros (pre & post & -> & Hspan & Hno).
  induction pre as [|x pre IH]; push_append.
  - destruct Hspan as [(body & -> & Hpost) | (body & -> & Hpost)];
      push_append; rewrite append_assoc; push_append;
      apply regex_json_match_here; auto.
  - assert (Hrest : regex_json_match (pre +:+ m +:+ post) = Some m).
    { apply IH. intros a y b Hdec. apply (Hno (String x a) y b).
      rewrite Hdec. reflexivity. }
    destruct (Hno EmptyString x pre eq_refl) as [Hbrace Hbracket].
    cbn. destruct (x =? "{")%char eqn:Ebrace.
    + apply Ascii.eqb_eq in Ebrace.
      unfold lastIndexOf. rewrite lastIndexOf_from_absent by (apply Hbrace; exact Ebrace).
      cbn. exact Hrest.
    + destruct (x =? "[")%char eqn:Ebracket; [|exact Hrest].
      apply Ascii.eqb_eq in Ebracket.
      unfold lastIndexOf. rewrite lastIndexOf_from_absent by (apply Hbracket; exact Ebracket).
      cbn. exact Hrest.
Qed.

(** *** The cut of callVLM is exactly [vlm_span] *)

Lemma vlm_candidate_sound (text m : string) :
  vlm_candidate text = Some m -> vlm_span text m.
Proof.
  unfold vlm_candidate, indexOf, lastIndexOf. intros H.
  destruct (occurs "{" text) eqn:Eopen;
    [| rewrite indexOf_from_absent in H by exact Eopen; discriminate].
  destruct (occurs "}" text) eqn:Eclose;
    [| rewrite (lastIndexOf_from_absent "}" text) in H by exact Eclose;
       rewrite andb_false_r in H; discriminate].
  destruct (indexOf_from_present "{" text 0 Eopen) as (a & b & Ha & Hfirst & Hi).
  destruct (lastIndexOf_from_present "}" text 0 (-1) Eclose) as (a2 & b2 & Ha2 & Hlast & Hj).
  rewrite Hi, Hj in H.
  destruct (0 + Z.of_nat (String.length a) <? 0 + Z.of_nat (String.length a2))%Z eqn:Elt;
    [| rewrite andb_false_r in H; discriminate].
  apply Z.ltb_lt in Elt.
  destruct (marks_in_order "{" "}" a b a2 b2) as (body & -> & ->);
    [congruence | lia |].
  rewrite !andb_true_r in H.
  destruct (negb (0 + Z.of_nat (String.length a) =? -1)%Z
            && negb (0 + Z.of_nat (String.length (a +:+ String "{" body)) =? -1)%Z);
    [|discriminate].
  assert (Hcut : substring_js (0 + Z.of_nat (String.length a))
                   (0 + Z.of_nat (String.length (a +:+ String "{" body)) + 1) text
                 = String "{" (body +:+ String "}" EmptyString)).
  { unfold substring_js. rewrite Ha.
    replace (Z.to_nat (0 + Z.of_nat (String.length a))) with (String.length a) by lia.
    replace (Z.to_nat (0 + Z.of_nat (String.length (a +:+ String "{" body)) + 1
                       - (0 + Z.of_nat (String.length a))))
      with (String.length (String "{" (body +:+ String "}" EmptyString))).
    2:{ rewrite length_append. cbn [String.length]. rewrite length_append.
        cbn [String.length]. lia. }
    replace (a +:+ String "{" (body +:+ String "}" b2))
      with (a +:+ String "{" (body +:+ String "}" EmptyString) +:+ b2).
    2:{ f_equal. push_append. rewrite append_assoc. reflexivity. }
    apply substring_middle. }
  rewrite Hcut in H. injection H as <-.
  exists a, b2. split; [|split; [exact Hfirst|]].
  - rewrite Ha. f_equal. push_append. rewrite append_assoc. reflexivity.
  - exists body. split; [reflexivity | exact Hlast].
Qed.

Lemma vlm_candidate_complete (text m : string) :
  vlm_span text m -> vlm_candidate text = Some m.
Proof.
  intros (pre & post & -> & Hpre & body & -> & Hpost).
  assert (Hshape : pre +:+ String "{" (body +:+ String "}" EmptyString) +:+ post
                   = pre +:+ String "{" (body +:+ String "}" post)).
  { f_equal. push_append. rewrite append_assoc. reflexivity. }
  assert (Hshape2 : pre +:+ String "{" (body +:+ String "}" post)
                    = (pre +:+ String "{" body) +:+ String "}" post).
  { rewrite append_assoc. reflexivity. }
  assert (Eopen : occurs "{" (pre +:+ String "{" (body +:+ String "}" post)) = true).
  { rewrite occurs_append. cbn. apply orb_true_r. }
  assert (Eclose : occurs "}" ((pre +:+ String "{" body) +:+ String "}" post) = true).
  { rewrite occurs_append. cbn. apply orb_true_r. }
  destruct (indexOf_from_present "{" _ 0 Eopen) as (a & b & Ha & Hfirst & Hi).
  destruct (first_occurrence_unique "{" _ _ _ _ Ha Hpre Hfirst) as [<- _].
  destruct (lastIndexOf_from_present "}" _ 0 (-1) Eclose) as (a2 & b2 & Ha2 & Hlast & Hj).
  destruct (last_occurrence_unique "}" _ _ _ _ Ha2 Hpost Hlast) as [<- _].
  unfold vlm_candidate, indexOf, lastIndexOf.
  rewrite Hshape, Hi. rewrite Hshape2, Hj.
  rewrite length_append. cbn [String.length].
  replace (negb (0 + Z.of_nat (String.length pre) =? -1)%Z) with true
    by (symmetry; apply negb_true_iff, Z.eqb_neq; lia).
  replace (negb (0 + Z.of_nat (String.length pre + S (String.length body)) =? -1)%Z)
    with true by (symmetry; apply negb_true_iff, Z.eqb_neq; lia).
  replace (0 + Z.of_nat (String.length pre)
           <? 0 + Z.of_nat (String.length pre + S (String.length body)))%Z
    with true by (symmetry; apply Z.ltb_lt; lia).
  cbn [andb]. f_equal. unfold substring_js.
  replace (Z.to_nat (0 + Z.of_nat (String.length pre))) with (String.length pre) by lia.
  replace (Z.to_nat (0 + Z.of_nat (String.length pre + S (String.length body)) + 1
                     - (0 + Z.of_nat (String.length pre))))
    with (String.length (String "{" (body +:+ String "}" EmptyString))).
  2:{ cbn [String.length]. rewrite length_append. cbn [String.length]. lia. }
  rewrite <- Hshape2, <- Hshape. apply substring_middle.
Qed.

End StringFacts.

Lemma callVLM_parse_candidate (text : string) :
  AIService.callVLM_parse text
  = match JSON_parse text with
    | Some parsed => parsed
    | None =>
        match AIService.vlm_candidate text with
        | Some m => default AIService.vlm_default (JSON_parse m)
        | None => AIService.vlm_default
        end
    end.
Proof.
  unfold AIService.callVLM_parse, AIService.vlm_candidate.
  destruct (JSON_parse text); [reflexivity|].
  destruct (negb (AIService.indexOf "{" text =? -1)%Z
            && negb (AIService.lastIndexOf "}" text =? -1)%Z
            && (AIService.indexOf "{" text <? AIService.lastIndexOf "}" text)%Z);
    [|reflexivity].
  destruct (JSON_parse _); reflexivity.
Qed.

(** C6, as the code has it.  The whole text is parsed first and its value
    returned when that succeeds.  Otherwise callLLM takes the span from
    the leftmost brace that has a closing brace after it (or leftmost
    bracket with a closing bracket after it, whichever starts first)
    through the LAST such closer of the text, and callVLM takes the span
    from the first brace through the last closing brace (never an array);
    the span's value is returned when it parses.  When there is no such
    span, or it does not parse, the result is the default: the raw text
    as [simplified] with no definitions for callLLM, an empty [objects]
    list for callVLM.  The call never fails in this step.  The text
    "Sure! Here is the result: {...} Hope that helps!" yields the object
    [{simplified: "x", definitions: []}] on both paths. *)
Theorem extraction_first_opener_to_last_closer (text : string) :
  (forall v, JSON_parse text = Some v ->
             AIService.callLLM_parse text = v /\ AIService.callVLM_parse text = v)
  /\ (JSON_parse text = None ->
      (forall m, AIService.llm_span text m ->
                 AIService.callLLM_parse text
                 = default (AIService.llm_default text) (JSON_parse m))
      /\ ((forall m, ~ AIService.llm_span text m) ->
          AIService.callLLM_parse text = AIService.llm_default text)
      /\ (forall m, AIService.vlm_span text m ->
                    AIService.callVLM_parse text
                    = default AIService.vlm_default (JSON_parse m))
      /\ ((forall m, ~ AIService.vlm_span text m) ->
          AIService.callVLM_parse text = AIService.vlm_default))
  /\ AIService.callLLM_parse
       (dq "Sure! Here is the result: {'simplified':'x','definitions':[]} Hope that helps!")
     = VObj [("simplified", VStr "x"); ("definitions", VArr [])]
  /\ AIService.callVLM_parse
       (dq "Sure! Here is the result: {'simplified':'x','definitions':[]} Hope that helps!")
     = VObj [("simplified", VStr "x"); ("definitions", VArr [])].
Proof.
  split; [| split; [| split; vm_compute; reflexivity]].
  - intros v Hv. rewrite callVLM_parse_candidate. unfold AIService.callLLM_parse.
    rewrite Hv. split; reflexivity.
  - intros Hnone. rewrite callVLM_parse_candidate. unfold AIService.callLLM_parse.
    rewrite Hnone. repeat split.
    + intros m Hm. rewrite (regex_json_match_complete text m Hm).
      destruct (JSON_parse m); reflexivity.
    + intros Hno. destruct (AIService.regex_json_match text) as [m|] eqn:E; [|reflexivity].
      exfalso. exact (Hno m (regex_json_match_sound text m E)).
    + intros m Hm. rewrite (vlm_candidate_complete text m Hm). reflexivity.
    + intros Hno. destruct (AIService.vlm_candidate text) as [m|] eqn:E; [|reflexivity].
      exfalso. exact (Hno m (vlm_candidate_sound text m E)).
Qed.

Lemma extraction_first_opener_to_last_closer_witness :
  let json := dq "{'simplified':'x','definitions':[]}" in
  let text := dq "Sure! Here is the result: {'simplified':'x','definitions':[]} Hope that helps!" in
  let two := dq "{'a':'b'} and {'c':'d'}" in
  JSON_parse json = Some (VObj [("simplified", VStr "x"); ("definitions", VArr [])])
  /\ AIService.callLLM_parse json = VObj [("simplified", VStr "x"); ("definitions", VArr [])]
  /\ JSON_parse text = None
  /\ AIService.llm_span text json
  /\ AIService.vlm_span text json
  /\ AIService.callLLM_parse text
     = default (AIService.llm_default text) (JSON_parse json)
  /\ AIService.callVLM_parse text
     = default AIService.vlm_default (JSON_parse json)
  /\ JSON_parse two = None
  /\ AIService.llm_span two two
  /\ AIService.callLLM_parse two = default (AIService.llm_default two) (JSON_parse two)
  /\ JSON_parse "I could not simplify that." = None
  /\ (forall m, ~ AIService.llm_span "I could not simplify that." m)
  /\ (forall m, ~ AIService.vlm_span "I could not simplify that." m)
  /\ AIService.callLLM_parse "I could not simplify that."
     = AIService.llm_default "I could not simplify that."
  /\ AIService.callVLM_parse "I could not simplify that." = AIService.vlm_default.
Proof.
  intros json text two.
  assert (Hprose : JSON_parse "I could not simplify that." = None)
    by (vm_compute; reflexivity).
  assert (Hnol : forall m, ~ AIService.llm_span "I could not simplify that." m).
  { intros m Hm. apply regex_json_match_complete in Hm. vm_compute in Hm. discriminate Hm. }
  assert (Hnov : forall m, ~ AIService.vlm_span "I could not simplify that." m).
  { intros m Hm. apply vlm_candidate_complete in Hm. vm_compute in Hm. discriminate Hm. }
  destruct (extraction_first_opener_to_last_closer "I could not simplify that.")
    as (_ & Hpart3 & _).
  destruct (Hpart3 Hprose) as (_ & Hdl & _ & Hdv).
  assert (Hjson : JSON_parse json
                  = Some (VObj [("simplified", VStr "x"); ("definitions", VArr [])]))
    by (vm_compute; reflexivity).
  assert (Htext : JSON_parse text = None) by (vm_compute; reflexivity).
  assert (Htwo : JSON_parse two = None) by (vm_compute; reflexivity).
  assert (Hllm : AIService.llm_span text json)
    by (apply regex_json_match_sound; vm_compute; reflexivity).
  assert (Hvlm : AIService.vlm_span text json)
    by (apply vlm_candidate_sound; vm_compute; reflexivity).
  assert (Hspan2 : AIService.llm_span two two)
    by (apply regex_json_match_sound; vm_compute; reflexivity).
  destruct (extraction_first_opener_to_last_closer json) as (Hwhole & _).
  destruct (extraction_first_opener_to_last_closer text) as (_ & Hpart & _).
  destruct (extraction_first_opener_to_last_closer two) as (_ & Hpart2 & _).
  destruct (Hpart Htext) as (Hl & _ & Hv & _).
  destruct (Hpart2 Htwo) as (Hl2 & _).
  split; [exact Hjson|]. split; [exact (proj1 (Hwhole _ Hjson))|].
  split; [exact Htext|]. split; [exact Hllm|]. split; [exact Hvlm|].
  split; [exact (Hl json Hllm)|]. split; [exact (Hv json Hvlm)|].
  split; [exact Htwo|]. split; [exact Hspan2|]. split; [exact (Hl2 two Hspan2)|].
  split; [exact Hprose|]. split; [exact Hnol|]. split; [exact Hnov|].
  split; [exact (Hdl Hnol) | exact (Hdv Hnov)].
Defined.

(** C6 as the specification words it fails: the span the code parses is
    not the first balanced object or array.  With two objects in the text
    the first balanced one parses, yet callLLM returns the default; and an
    array in prose is never extracted by callVLM. *)
Lemma extraction_is_not_first_balanced :
  let two := dq "{'a':'b'} and {'c':'d'}" in
  let listed := dq "Steps: ['a']" in
  JSON_parse two = None
  /\ AIService.spec_first_balanced two = Some (dq "{'a':'b'}")
  /\ AIService.spec_extract (AIService.llm_default two) two = VObj [("a", VStr "b")]
  /\ AIService.callLLM_parse two = AIService.llm_default two
  /\ AIService.callLLM_parse two <> AIService.spec_extract (AIService.llm_default two) two
  /\ AIService.spec_extract AIService.vlm_default listed = VArr [VStr "a"]
  /\ AIService.callVLM_parse listed = AIService.vlm_default
  /\ AIService.callVLM_parse listed <> AIService.spec_extract AIService.vlm_default listed.
Proof.
  intros two listed.
  repeat split; try (vm_compute; reflexivity);
    intros H; vm_compute in H; discriminate H.
Qed.

(** ** Router and settings store *)

Section ObjectFacts.

Lemma inherited_undefined (k : string) :
  is_inherited k = false -> inherited k = VUndefined.
Proof.
  intros H. unfold inherited. rewrite H.
  unfold is_inherited in H. cbn in H.
  repeat (apply orb_false_iff in H as [? H]).
  repeat match goal with
         | E : String.eqb k _ = false |- context [String.eqb k ?s] => rewrite E
         end.
  reflexivity.
Qed.

Lemma is_inherited_proto (k : string) : is_inherited k = false -> k <> "__proto__".
Proof. intros H ->. discriminate H. Qed.

Lemma own_lookup_app_new (props : list (string * value)) (k : string) (v : value) :
  own_lookup props k = None -> own_lookup (props ++ [(k, v)]) k = Some v.
Proof.
  induction props as [|[k' v'] props IH]; cbn; intros H.
  - rewrite String.eqb_refl. reflexivity.
  - destruct (String.eqb k' k); [discriminate | apply IH; exact H].
Qed.

Lemma own_replace_app_new (props : list (string * value)) (k : string) (v w : value) :
  own_lookup props k = None ->
  own_replace (props ++ [(k, v)]) k w = props ++ [(k, w)].
Proof.
  induction props as [|[k' v'] props IH]; cbn; intros H.
  - rewrite String.eqb_refl. reflexivity.
  - destruct (String.eqb k' k); [discriminate | rewrite IH by exact H; reflexivity].
Qed.

Lemma getSetting_stored (st : gmap string value) (k : string) (v : value) :
  st !! k = Some v -> StorageManager.getSetting k st = v.
Proof.
  intros H. unfold StorageManager.getSetting, ChromeStorage.get. cbn.
  rewrite H. cbn. unfold obj_get. cbn. rewrite String.eqb_refl. reflexivity.
Qed.

Lemma getSetting_absent (st : gmap string value) (k : string) :
  st !! k = None -> StorageManager.getSetting k st = inherited k.
Proof.
  intros H. unfold StorageManager.getSetting, ChromeStorage.get. cbn.
  rewrite H. reflexivity.
Qed.

Lemma updateSetting_insert (st : gmap string value) (k : string) (v : value) :
  ChromeStorage.storable v = true -> StorageManager.updateSetting k v st = <[k := v]> st.
Proof.
  intros H. unfold StorageManager.updateSetting, ChromeStorage.set, obj_define. cbn.
  rewrite H. reflexivity.
Qed.

Lemma is_json_storable (v : value) :
  is_json v = true -> ChromeStorage.storable v = true.
Proof. destruct v; cbn; intros H; (reflexivity || discriminate H). Qed.

End ObjectFacts.

(** A type that [this.handlers] neither owns nor inherits is answered by a
    failure response that names it, on both listeners, and the store is
    left alone. *)
Lemma dispatch_of_missing_type_fails
    (service : MessageRouter.handler -> value -> gmap string value
               -> outcome value * gmap string value)
    (unbound_member : string -> value -> outcome value)
    (handleVLMRequest : value -> gmap string value -> value)
    (type : string) (data requestId : value) (st : gmap string value) :
  MessageRouter.handlers_get type = MessageRouter.Missing ->
  Background.onMessage service unbound_member handleVLMRequest
    {| MessageRouter.type := type; MessageRouter.data := data |} st
  = (VObj [("success", VBool false);
           ("error", VStr ("Unknown message type: " +:+ type))], st)
  /\ Background.onPortMessage service unbound_member handleVLMRequest type data requestId st
     = (VObj [("requestId", requestId); ("success", VBool false);
              ("error", VStr ("Unknown message type: " +:+ type))], st).
Proof.
  intros Hmiss.
  assert (Hvlm : Background.is_vlm_type type = false).
  { unfold Background.is_vlm_type.
    destruct (String.eqb_spec type "ANALYZE_FRAME") as [->|_]; [discriminate Hmiss|].
    destruct (String.eqb_spec type "TEST_GEMINI") as [->|_]; [discriminate Hmiss|].
    reflexivity. }
  unfold Background.onMessage, Background.onPortMessage, MessageRouter.handleMessage.
  cbn. rewrite Hvlm, Hmiss. split; reflexivity.
Qed.

Lemma dispatch_of_UNKNOWN_OP_fails
    (service : MessageRouter.handler -> value -> gmap string value
               -> outcome value * gmap string value)
    (unbound_member : string -> value -> outcome value)
    (handleVLMRequest : value -> gmap string value -> value)
    (data : value) (st : gmap string value) :
  Background.onMessage service unbound_member handleVLMRequest
    {| MessageRouter.type := "UNKNOWN_OP"; MessageRouter.data := data |} st
  = (VObj [("success", VBool false);
           ("error", VStr "Unknown message type: UNKNOWN_OP")], st).
Proof.
  apply (dispatch_of_missing_type_fails service unbound_member handleVLMRequest "UNKNOWN_OP" data VNull st).
  reflexivity.
Qed.

(** Whatever the request, the answer posted on the port carries the
    requestId of the payload it answers. *)
Lemma port_reply_echoes_requestId
    (service : MessageRouter.handler -> value -> gmap string value
               -> outcome value * gmap string value)
    (unbound_member : string -> value -> outcome value)
    (handleVLMRequest : value -> gmap string value -> value)
    (type : string) (data requestId : value) (st : gmap string value) :
  js_get (Background.onPortMessage service unbound_member handleVLMRequest
            type data requestId st).1 "requestId"
  = requestId.
Proof.
  unfold Background.onPortMessage.
  destruct (Background.is_vlm_type type); [reflexivity|].
  destruct (MessageRouter.handleMessage service unbound_member _ st) as [[response|err] st'];
    reflexivity.
Qed.

(** C5.  The type "constructor" has no registered handler, yet the lookup
    [this.handlers[type]] finds [Object] on the prototype, the guard
    [if (!handler)] lets it pass, and both listeners answer with a
    success response that echoes the payload. *)
Theorem dispatch_of_constructor_succeeds
    (service : MessageRouter.handler -> value -> gmap string value
               -> outcome value * gmap string value)
    (unbound_member : string -> value -> outcome value)
    (handleVLMRequest : value -> gmap string value -> value)
    (data requestId : value) (st : gmap string value) :
  MessageRouter.registered MessageRouter.handlers "constructor" = None
  /\ Background.onMessage service unbound_member handleVLMRequest
       {| MessageRouter.type := "constructor"; MessageRouter.data := data |} st
     = (VObj [("success", VBool true);
              ("data", match data with VUndefined | VNull => VObj [] | _ => data end)],
        st)
  /\ Background.onPortMessage service unbound_member handleVLMRequest "constructor" data requestId st
     = (VObj [("requestId", requestId); ("success", VBool true);
              ("data", match data with VUndefined | VNull => VObj [] | _ => data end)],
        st).
Proof. repeat split. Qed.

Ltac simp_store :=
  cbn -[StorageManager.updateSetting StorageManager.getSetting
        StorageManager.toggleFeature].

(** Read-after-write for settings, where the code keeps it.  For every
    key other than "__proto__" and
    every JSON value: an UPDATE_SETTINGS request answers [{success: true}] and
    leaves the store with exactly that value under the key, whatever was
    there before and with every other key untouched (a full replace, no
    merge); a GET_SETTINGS request for that key right after returns the
    object holding the key with exactly the written value. *)
Theorem update_then_get_returns_written_value
    (service : MessageRouter.handler -> value -> gmap string value
               -> outcome value * gmap string value)
    (unbound_member : string -> value -> outcome value)
    (key : string) (v : value) (st : gmap string value) :
  key <> "__proto__" ->
  is_json v = true ->
  let update :=
    MessageRouter.handleMessage service unbound_member
      {| MessageRouter.type := "UPDATE_SETTINGS";
         MessageRouter.data := VObj [("key", VStr key); ("value", v)] |} st in
  update = (Returns (VObj [("success", VBool true)]), <[key := v]> st)
  /\ update.2 !! key = Some v
  /\ (forall k, k <> key -> update.2 !! k = st !! k)
  /\ StorageManager.getSetting key update.2 = v
  /\ MessageRouter.handleMessage service unbound_member
       {| MessageRouter.type := "GET_SETTINGS";
          MessageRouter.data := VObj [("keys", VArr [VStr key])] |} update.2
     = (Returns (VObj [(key, v)]), update.2).
Proof.
  intros Hkey Hjson update.
  assert (Hv := is_json_storable v Hjson).
  assert (Hupd : update = (Returns (VObj [("success", VBool true)]), <[key := v]> st)).
  { subst update. unfold MessageRouter.handleMessage. simp_store.
    unfold MessageRouter.handleUpdateSettings. simp_store.
    rewrite updateSetting_insert by exact Hv. reflexivity. }
  rewrite Hupd. cbn [snd].
  assert (Hread : StorageManager.getSetting key (<[key := v]> st) = v)
    by (apply getSetting_stored, lookup_insert_eq).
  split; [reflexivity|]. split; [apply lookup_insert_eq|].
  split; [intros k Hk; apply lookup_insert_ne; congruence|].
  split; [exact Hread|].
  unfold MessageRouter.handleMessage. simp_store.
  unfold MessageRouter.handleGetSettings. simp_store.
  rewrite Hread. unfold obj_set. simp_store.
  apply String.eqb_neq in Hkey. rewrite Hkey. reflexivity.
Qed.

Lemma update_then_get_returns_written_value_witness :
  let service (_ : MessageRouter.handler) (_ : value) (st : gmap string value)
    : outcome value * gmap string value := (Returns VUndefined, st) in
  let unbound_member (_ : string) (_ : value) : outcome value :=
    Throws (TypeError "Cannot convert undefined or null to object") in
  let before : gmap string value :=
    {[ "features" := VObj [("focusMode", VBool false); ("autoPause", VBool true)] ]} in
  let written := VObj [("focusMode", VBool true)] in
  "features" <> "__proto__"
  /\ is_json written = true
  /\ (MessageRouter.handleMessage service unbound_member
        {| MessageRouter.type := "UPDATE_SETTINGS";
           MessageRouter.data := VObj [("key", VStr "features"); ("value", written)] |}
        before).2 !! "features" = Some written
  /\ MessageRouter.handleMessage service unbound_member
       {| MessageRouter.type := "GET_SETTINGS";
          MessageRouter.data := VObj [("keys", VArr [VStr "features"])] |}
       (MessageRouter.handleMessage service unbound_member
          {| MessageRouter.type := "UPDATE_SETTINGS";
             MessageRouter.data := VObj [("key", VStr "features"); ("value", written)] |}
          before).2
     = (Returns (VObj [("features", written)]),
        (MessageRouter.handleMessage service unbound_member
           {| MessageRouter.type := "UPDATE_SETTINGS";
              MessageRouter.data := VObj [("key", VStr "features"); ("value", written)] |}
           before).2).
Proof.
  intros service unbound_member before written.
  assert (Hkey : "features" <> "__proto__") by discriminate.
  assert (Hv : is_json written = true) by reflexivity.
  destruct (update_then_get_returns_written_value service unbound_member "features" written before Hkey Hv)
    as (_ & Hstored & _ & _ & Hget).
  split; [exact Hkey|]. split; [exact Hv|]. split; [exact Hstored | exact Hget].
Defined.

(** C9.  The code breaks the claim at the key "__proto__": the value is
    written, but on the fresh result object of GET_SETTINGS the
    assignment [result[key] = ...] goes to the prototype setter and
    creates no property, so the answer is an empty object and not the
    value just written. *)
Lemma get_after_update_loses_proto_key :
  let service (_ : MessageRouter.handler) (_ : value) (st : gmap string value)
    : outcome value * gmap string value := (Returns VUndefined, st) in
  let unbound_member (_ : string) (_ : value) : outcome value :=
    Throws (TypeError "Cannot convert undefined or null to object") in
  let after :=
    (MessageRouter.handleMessage service unbound_member
       {| MessageRouter.type := "UPDATE_SETTINGS";
          MessageRouter.data := VObj [("key", VStr "__proto__"); ("value", VBool true)] |}
       ∅).2 in
  (MessageRouter.handleMessage service unbound_member
     {| MessageRouter.type := "GET_SETTINGS";
        MessageRouter.data := VObj [("keys", VArr [VStr "__proto__"])] |} after).1
  = Returns (VObj [])
  /\ (MessageRouter.handleMessage service unbound_member
        {| MessageRouter.type := "GET_SETTINGS";
           MessageRouter.data := VObj [("keys", VArr [VStr "__proto__"])] |} after).1
     <> Returns (VObj [("__proto__", VBool true)]).
Proof.
  intros service unbound_member after.
  assert (Hget : (MessageRouter.handleMessage service unbound_member
                    {| MessageRouter.type := "GET_SETTINGS";
                       MessageRouter.data := VObj [("keys", VArr [VStr "__proto__"])] |}
                    after).1 = Returns (VObj [])).
  { unfold MessageRouter.handleMessage. simp_store.
    unfold MessageRouter.handleGetSettings. simp_store. reflexivity. }
  split; [exact Hget|]. rewrite Hget. discriminate.
Qed.

(** The first toggle of a never-stored feature, where the code keeps
    it.  For every feature name that the stored
    features map does not hold and that is not a member of
    [Object.prototype] (whether the map is stored or the key [features]
    is absent altogether): [isFeatureEnabled] answers true; the first
    TOGGLE_FEATURE stores true under the name, leaves the other features
    as they were, and returns [{featureName, enabled: true}]; the second
    one stores false and returns [{featureName, enabled: false}]. *)
Theorem first_toggle_of_unstored_feature_enables
    (service : MessageRouter.handler -> value -> gmap string value
               -> outcome value * gmap string value)
    (unbound_member : string -> value -> outcome value)
    (featureName : string) (features : list (string * value))
    (st : gmap string value) :
  (st !! "features" = None /\ features = [])
  \/ st !! "features" = Some (VObj features) ->
  own_lookup features featureName = None ->
  is_inherited featureName = false ->
  let toggle := MessageRouter.handleMessage service unbound_member
                  {| MessageRouter.type := "TOGGLE_FEATURE";
                     MessageRouter.data := VObj [("featureName", VStr featureName)] |} in
  StorageManager.isFeatureEnabled featureName st = VBool true
  /\ toggle st
     = (Returns (VObj [("featureName", VStr featureName); ("enabled", VBool true)]),
        <["features" := VObj (features ++ [(featureName, VBool true)])]> st)
  /\ toggle (toggle st).2
     = (Returns (VObj [("featureName", VStr featureName); ("enabled", VBool false)]),
        <["features" := VObj (features ++ [(featureName, VBool false)])]> (toggle st).2).
Proof.
  intros Hst Hown Hinh toggle.
  assert (Hundef := inherited_undefined featureName Hinh).
  assert (Hproto : String.eqb featureName "__proto__" = false)
    by (apply String.eqb_neq, is_inherited_proto; exact Hinh).
  assert (Hfeat : or_else (StorageManager.getSetting "features" st) (VObj [])
                  = VObj features).
  { destruct Hst as [[Hnone ->] | Hsome].
    - rewrite (getSetting_absent st "features" Hnone). reflexivity.
    - rewrite (getSetting_stored st "features" _ Hsome). reflexivity. }
  assert (Hfirst :
            toggle st
            = (Returns (VObj [("featureName", VStr featureName); ("enabled", VBool true)]),
               <["features" := VObj (features ++ [(featureName, VBool true)])]> st)).
  { subst toggle. unfold MessageRouter.handleMessage. simp_store.
    unfold MessageRouter.handleToggleFeature. simp_store.
    unfold StorageManager.toggleFeature. rewrite Hfeat.
    unfold obj_get, obj_set. rewrite Hown, Hundef, Hproto. simp_store.
    rewrite own_lookup_app_new by exact Hown.
    rewrite updateSetting_insert by reflexivity. reflexivity. }
  split; [| split; [exact Hfirst|]].
  - unfold StorageManager.isFeatureEnabled.
    destruct Hst as [[Hnone ->] | Hsome].
    + rewrite (getSetting_absent st "features" Hnone). reflexivity.
    + rewrite (getSetting_stored st "features" _ Hsome). simp_store.
      unfold obj_get. rewrite Hown, Hundef. reflexivity.
  - rewrite Hfirst. cbn [snd].
    subst toggle. unfold MessageRouter.handleMessage. simp_store.
    unfold MessageRouter.handleToggleFeature. simp_store.
    unfold StorageManager.toggleFeature.
    rewrite (getSetting_stored _ "features" _ (lookup_insert_eq _ _ _)).
    cbn [or_else truthy].
    unfold obj_get, obj_set. rewrite (own_lookup_app_new features _ _ Hown). simp_store.
    rewrite own_replace_app_new by exact Hown.
    rewrite own_lookup_app_new by exact Hown.
    rewrite updateSetting_insert by reflexivity. reflexivity.
Qed.

Lemma first_toggle_of_unstored_feature_enables_witness :
  let service (_ : MessageRouter.handler) (_ : value) (st : gmap string value)
    : outcome value * gmap string value := (Returns VUndefined, st) in
  let unbound_member (_ : string) (_ : value) : outcome value :=
    Throws (TypeError "Cannot convert undefined or null to object") in
  let stored := [("objectHighlighting", VBool true); ("focusMode", VBool false)] in
  let st : gmap string value := {[ "features" := VObj stored ]} in
  (st !! "features" = None /\ stored = [] \/ st !! "features" = Some (VObj stored))
  /\ own_lookup stored "captions" = None
  /\ is_inherited "captions" = false
  /\ StorageManager.isFeatureEnabled "captions" st = VBool true
  /\ (MessageRouter.handleMessage service unbound_member
        {| MessageRouter.type := "TOGGLE_FEATURE";
           MessageRouter.data := VObj [("featureName", VStr "captions")] |} st).1
     = Returns (VObj [("featureName", VStr "captions"); ("enabled", VBool true)]).
Proof.
  intros service unbound_member stored st.
  assert (Hst : st !! "features" = None /\ stored = []
                \/ st !! "features" = Some (VObj stored))
    by (right; apply lookup_singleton_eq).
  assert (Hown : own_lookup stored "captions" = None) by reflexivity.
  assert (Hinh : is_inherited "captions" = false) by reflexivity.
  destruct (first_toggle_of_unstored_feature_enables service unbound_member "captions" stored st
              Hst Hown Hinh) as (Hen & Hfirst & _).
  split; [exact Hst|]. split; [exact Hown|]. split; [exact Hinh|].
  split; [exact Hen|]. rewrite Hfirst. reflexivity.
Defined.

(** C10.  The code breaks the claim at a name found on
    [Object.prototype]: "constructor" is absent from the stored map, yet
    the read [features[featureName]] yields the function [Object], which
    is truthy, so the first toggle stores false and returns
    [{featureName, enabled: false}]. *)
Lemma first_toggle_of_constructor_disables :
  let service (_ : MessageRouter.handler) (_ : value) (st : gmap string value)
    : outcome value * gmap string value := (Returns VUndefined, st) in
  let unbound_member (_ : string) (_ : value) : outcome value :=
    Throws (TypeError "Cannot convert undefined or null to object") in
  let st : gmap string value := {[ "features" := VObj [("focusMode", VBool false)] ]} in
  own_lookup [("focusMode", VBool false)] "constructor" = None
  /\ (MessageRouter.handleMessage service unbound_member
        {| MessageRouter.type := "TOGGLE_FEATURE";
           MessageRouter.data := VObj [("featureName", VStr "constructor")] |} st).1
     = Returns (VObj [("featureName", VStr "constructor"); ("enabled", VBool false)])
  /\ (MessageRouter.handleMessage service unbound_member
        {| MessageRouter.type := "TOGGLE_FEATURE";
           MessageRouter.data := VObj [("featureName", VStr "constructor")] |} st).1
     <> Returns (VObj [("featureName", VStr "constructor"); ("enabled", VBool true)])
  /\ StorageManager.getSetting "features"
       (MessageRouter.handleMessage service unbound_member
          {| MessageRouter.type := "TOGGLE_FEATURE";
             MessageRouter.data := VObj [("featureName", VStr "constructor")] |} st).2
     = VObj [("focusMode", VBool false); ("constructor", VBool false)].
Proof.
  intros service unbound_member st.
  assert (Hrun :
            MessageRouter.handleMessage service unbound_member
              {| MessageRouter.type := "TOGGLE_FEATURE";
                 MessageRouter.data := VObj [("featureName", VStr "constructor")] |} st
            = (Returns (VObj [("featureName", VStr "constructor"); ("enabled", VBool false)]),
               <["features" := VObj [("focusMode", VBool false); ("constructor", VBool false)]]>
                 st)).
  { unfold MessageRouter.handleMessage. simp_store.
    unfold MessageRouter.handleToggleFeature. simp_store.
    unfold StorageManager.toggleFeature.
    rewrite (getSetting_stored st "features" _ (lookup_singleton_eq _ _)).
    simp_store. rewrite updateSetting_insert by reflexivity. reflexivity. }
  rewrite Hrun. cbn [fst snd].
  split; [reflexivity|]. split; [reflexivity|]. split; [discriminate|].
  apply getSetting_stored, lookup_insert_eq.
Qed.

(* ================================================================== *)
(** * Further properties of the code *)
(* ================================================================== *)

(** ** The persistent channel: settlement, release, timeout *)

Section PortLifeFacts.

Import MessageClient.

Lemma step_invariant (c : PortCall) (e : port_event) :
  port_invariant c -> port_invariant (step c e).
Proof.
  unfold port_invariant. intros H. destruct e as [msg|]; cbn.
  - unfold deliver, onMessage.
    destruct (listening c && connected c); [|exact H].
    destruct (negb (truthy msg)
              || negb (strict_eq_string (js_get msg "requestId") (requestId c)));
      [exact H|].
    cbn. destruct (promise c); cbn; repeat split.
  - unfold fire_timeout. destruct (timer c) eqn:Et; [|rewrite Et; exact H].
    cbn. destruct (promise c); cbn; repeat split.
Qed.

Lemma run_invariant (es : list port_event) (c : PortCall) :
  port_invariant c -> port_invariant (run c es).
Proof.
  revert c. induction es as [|e es IH]; intros c H; [exact H|].
  unfold run in *. cbn. apply IH, step_invariant, H.
Qed.

Lemma step_released (c : PortCall) (e : port_event) :
  listening c = false -> timer c = false -> step c e = c.
Proof.
  intros Hl Ht. destruct e; cbn.
  - unfold deliver. rewrite Hl. reflexivity.
  - unfold fire_timeout. rewrite Ht. reflexivity.
Qed.

Lemma run_released (es : list port_event) (c : PortCall) :
  listening c = false -> timer c = false -> run c es = c.
Proof.
  intros Hl Ht. induction es as [|e es IH]; [reflexivity|].
  unfold run in *. cbn. rewrite step_released by assumption. exact IH.
Qed.

Lemma run_app (c : PortCall) (es1 es2 : list port_event) :
  run c (es1 ++ es2) = run (run c es1) es2.
Proof. unfold run. apply fold_left_app. Qed.

End PortLifeFacts.

(** After any sequence of port messages and timer firings, a call made by
    [sendViaPort] is either still pending, with its listener registered,
    its timer armed and its port connected, or settled, with the listener
    removed, the timer cleared and the port disconnected; and once
    settled nothing that arrives later changes it. *)
Theorem port_call_is_pending_or_released
    (type : string) (data : value) (rid : string)
    (es : list MessageClient.port_event) :
  let c := MessageClient.run (MessageClient.sendViaPort type data rid).1 es in
  match MessageClient.promise c with
  | None =>
      MessageClient.listening c = true /\ MessageClient.timer c = true
      /\ MessageClient.connected c = true
  | Some _ =>
      MessageClient.listening c = false /\ MessageClient.timer c = false
      /\ MessageClient.connected c = false
      /\ forall later, MessageClient.run c later = c
  end.
Proof.
  intros c.
  assert (H : MessageClient.port_invariant c).
  { subst c. apply run_invariant. cbn. repeat split. }
  unfold MessageClient.port_invariant in H. destruct (MessageClient.promise c); [|exact H].
  destruct H as (Hl & Ht & Hc). repeat split; try assumption.
  intros later. apply run_released; assumption.
Qed.

(** A call to which no message bearing its requestId has come rejects
    with the timeout error when its timer fires, and releases the port;
    messages for other calls before, and anything after, do not matter. *)
Theorem unanswered_port_call_times_out
    (type : string) (data : value) (rid : string)
    (before after : list MessageClient.port_event) :
  Forall (fun e => match e with
                   | MessageClient.Message msg => js_get msg "requestId" <> VStr rid
                   | MessageClient.TimerFired => False
                   end) before ->
  let c := MessageClient.run (MessageClient.sendViaPort type data rid).1
             (before ++ MessageClient.TimerFired :: after) in
  MessageClient.promise c
  = Some (MessageClient.Reject (VStr "Timeout waiting for port response (> 45s)"))
  /\ MessageClient.listening c = false
  /\ MessageClient.connected c = false.
Proof.
  intros Hbefore c.
  set (c0 := (MessageClient.sendViaPort type data rid).1).
  assert (Hsame : MessageClient.run c0 before = c0).
  { clear c. induction Hbefore as [|e es He _ IH]; [reflexivity|].
    unfold MessageClient.run in *. cbn [fold_left].
    destruct e as [msg|]; [|contradiction].
    cbn [MessageClient.step]. rewrite (deliver_mismatch c0 msg He). exact IH. }
  subst c. fold c0. rewrite run_app, Hsame.
  change (MessageClient.run c0 (MessageClient.TimerFired :: after))
    with (MessageClient.run (MessageClient.fire_timeout c0) after).
  rewrite run_released by reflexivity. repeat split.
Qed.

Lemma unanswered_port_call_times_out_witness :
  let stray := VObj [("requestId", VStr "1700000000000-99"); ("success", VBool true);
                     ("data", VStr "theirs")] in
  let own := VObj [("requestId", VStr "1700000000000-17"); ("success", VBool true);
                   ("data", VStr "late")] in
  MessageClient.promise
    (MessageClient.run
       (MessageClient.sendViaPort "DETECT_CONFUSION" (VObj []) "1700000000000-17").1
       ([MessageClient.Message stray; MessageClient.Message VNull]
          ++ MessageClient.TimerFired :: [MessageClient.Message own]))
  = Some (MessageClient.Reject (VStr "Timeout waiting for port response (> 45s)")).
Proof.
  intros stray own.
  apply (unanswered_port_call_times_out "DETECT_CONFUSION" (VObj []) "1700000000000-17"
           [MessageClient.Message stray; MessageClient.Message VNull]
           [MessageClient.Message own]).
  repeat constructor; discriminate.
Defined.

(** ** The transient strategy: answers and bounds *)

Section AnswerFacts.

Import MessageClient.

Variable results : nat -> send_result.
Variable fallback : option value.

(** [n] transient errors followed by an answer, with enough tries left. *)
Lemma attempt_answered (n : nat) :
  forall (i triesLeft : nat) (response : value),
    (n <= triesLeft)%nat ->
    (forall k, (k < n)%nat -> is_transient_error (results (i + k))) ->
    results (i + n) = Response response ->
    attempt results fallback i triesLeft
    = (backoff (maxRetries - Z.of_nat triesLeft + 1) n ++ [SendMessage],
       if truthy response && truthy (js_get response "success")
       then Resolve (js_get response "data")
       else Reject (or_else (opt_get response "error") (VStr "Unknown error"))).
Proof.
  induction n as [|n IH]; intros i triesLeft response Hle Hpre Hres.
  - rewrite Nat.add_0_r in Hres.
    destruct triesLeft; cbn [attempt]; rewrite Hres; reflexivity.
  - destruct triesLeft as [|t]; [lia|].
    assert (H0 := Hpre 0%nat ltac:(lia)). rewrite Nat.add_0_r in H0.
    cbn [attempt]. destruct (results i) as [message|r] eqn:Ei; [|contradiction].
    cbn in H0. rewrite H0.
    rewrite (IH (S i) t response).
    + cbn [backoff app].
      replace (maxRetries - Z.of_nat (S t) + 1 + 1)%Z
        with (maxRetries - Z.of_nat t + 1)%Z by lia.
      reflexivity.
    + lia.
    + intros k Hk. replace (S i + k)%nat with (i + S k)%nat by lia. apply Hpre. lia.
    + replace (S i + n)%nat with (i + S n)%nat by lia. exact Hres.
Qed.

Lemma waited_app (a b : list action) : waited (a ++ b) = (waited a + waited b)%Z.
Proof.
  induction a as [|x a IH]; [reflexivity|].
  change (waited ((x :: a) ++ b))
    with (match x with Delay ms => (ms + waited (a ++ b))%Z | _ => waited (a ++ b) end).
  change (waited (x :: a))
    with (match x with Delay ms => (ms + waited a)%Z | _ => waited a end).
  rewrite IH. destruct x; lia.
Qed.

Lemma waited_backoff (first : Z) (n : nat) :
  (2 * waited (backoff first n)
   = baseDelay * Z.of_nat n * (2 * first + Z.of_nat n - 1))%Z.
Proof.
  revert first. induction n as [|n IH]; intros first; [cbn; lia|].
  cbn [backoff waited fold_right].
  change (fold_right _ 0%Z (backoff (first + 1) n)) with (waited (backoff (first + 1) n)).
  specialize (IH (first + 1)%Z). unfold baseDelay in *. nia.
Qed.

Lemma sends_backoff (first : Z) (n : nat) :
  List.length (List.filter is_send (backoff first n)) = n.
Proof.
  revert first. induction n as [|n IH]; intros first; [reflexivity|].
  cbn. rewrite IH. reflexivity.
Qed.

End AnswerFacts.

(** When, after [n <= 3] transient errors, a send is answered,
    [sendViaMessage] settles by that answer alone (its data when
    [success] is truthy, its error otherwise) having made [n + 1] sends
    and waited 150 * (1 + ... + n) ms; the fallback is not tried,
    whatever it would have answered. *)
Theorem sendViaMessage_settles_by_the_answer
    (results : nat -> MessageClient.send_result) (fallback : option value)
    (n : nat) (response : value) :
  (n <= 3)%nat ->
  (forall k, (k < n)%nat -> MessageClient.is_transient_error (results k)) ->
  results n = MessageClient.Response response ->
  let outcome := MessageClient.sendViaMessage results fallback in
  outcome.2
  = (if truthy response && truthy (js_get response "success")
     then MessageClient.Resolve (js_get response "data")
     else MessageClient.Reject (or_else (opt_get response "error") (VStr "Unknown error")))
  /\ outcome.1 = MessageClient.backoff 1 n ++ [MessageClient.SendMessage]
  /\ List.filter MessageClient.is_connect outcome.1 = []
  /\ MessageClient.waited outcome.1 = (75 * Z.of_nat n * (Z.of_nat n + 1))%Z.
Proof.
  intros Hn Hpre Hres outcome.
  assert (Hout := attempt_answered results fallback n 0 3 response Hn Hpre Hres).
  change (MessageClient.attempt results fallback 0 3) with outcome in Hout.
  change (MessageClient.maxRetries - Z.of_nat 3 + 1)%Z with 1%Z in Hout.
  rewrite Hout. cbn [fst snd].
  split; [reflexivity|]. split; [reflexivity|]. split.
  - rewrite List.filter_app. destruct (backoff_delays 1 n) as [_ ->]. reflexivity.
  - rewrite waited_app. assert (H := waited_backoff 1 n).
    unfold MessageClient.baseDelay in H. cbn [MessageClient.waited fold_right]. lia.
Qed.

Lemma sendViaMessage_settles_by_the_answer_witness :
  let results (i : nat) :=
    match i with
    | 0%nat | 1%nat => MessageClient.LastError (Some "Extension context invalidated.")
    | _ => MessageClient.Response
             (VObj [("success", VBool false); ("error", VStr "Unknown message type: X")])
    end in
  (2 <= 3)%nat
  /\ (MessageClient.sendViaMessage results (Some (VStr "from the port"))).2
     = MessageClient.Reject (VStr "Unknown message type: X")
  /\ MessageClient.waited
       (MessageClient.sendViaMessage results (Some (VStr "from the port"))).1 = 450%Z.
Proof.
  intros results.
  assert (Hn : (2 <= 3)%nat) by lia.
  assert (Hpre : forall k, (k < 2)%nat -> MessageClient.is_transient_error (results k)).
  { intros k Hk. destruct k as [|[|k]]; [reflexivity | reflexivity | lia]. }
  destruct (sendViaMessage_settles_by_the_answer results (Some (VStr "from the port"))
              2 _ Hn Hpre eq_refl) as (Hset & _ & _ & Hwait).
  split; [exact Hn|]. split; [exact Hset | exact Hwait].
Defined.

(** Whatever the channel does, one [sendViaMessage] makes at most four
    sends, waits at most 900 ms in all between them, and ends either
    with an answered send or with the single fallback attempt. *)
Theorem sendViaMessage_is_bounded
    (results : nat -> MessageClient.send_result) (fallback : option value) :
  let acts := (MessageClient.sendViaMessage results fallback).1 in
  (1 <= List.length (List.filter MessageClient.is_send acts) <= 4)%nat
  /\ (0 <= MessageClient.waited acts <= 900)%Z
  /\ (List.last acts MessageClient.SendMessage = MessageClient.SendMessage
      \/ List.last acts MessageClient.SendMessage = MessageClient.ConnectTransport).
Proof.
  intros acts.
  assert (Hshape := attempt_shape results fallback 3 0).
  change (MessageClient.attempt results fallback 0 3)
    with (MessageClient.sendViaMessage results fallback) in Hshape.
  change (MessageClient.maxRetries - Z.of_nat 3 + 1)%Z with 1%Z in Hshape.
  destruct Hshape as (n & Hn & _ & Hend).
  assert (Hw := waited_backoff 1 n). unfold MessageClient.baseDelay in Hw.
  assert (Hs := sends_backoff 1 n).
  assert (Hacts : acts = MessageClient.backoff 1 n ++ [MessageClient.SendMessage]
                  \/ acts = MessageClient.backoff 1 n
                              ++ [MessageClient.SendMessage; MessageClient.ConnectTransport]).
  { subst acts. destruct Hend as [(r & _ & ->) | (m & _ & _ & ->)]; [left | right]; reflexivity. }
  destruct Hacts as [-> | ->].
  - rewrite List.filter_app, List.length_app, Hs, waited_app.
    rewrite List.last_last. cbn. split; [lia|]. split; [nia | left; reflexivity].
  - rewrite List.filter_app, List.length_app, Hs, waited_app.
    change [MessageClient.SendMessage; MessageClient.ConnectTransport]
      with ([MessageClient.SendMessage] ++ [MessageClient.ConnectTransport]).
    rewrite List.app_assoc, List.last_last. cbn. split; [lia|]. split; [nia | right; reflexivity].
Qed.

(** ** Client and background together *)



(** ANALYZE_FRAME and TEST_GEMINI never reach the router: on both
    listeners the answer is made from [handleVLMRequest] alone, whatever
    the router's handlers are, and the store is left as it was.  The
    client sends both types over the port, so it is the port listener
    that answers them. *)
Theorem frame_requests_bypass_the_router
    (service1 service2 : MessageRouter.handler -> value -> gmap string value
                         -> outcome value * gmap string value)
    (unbound1 unbound2 : string -> value -> outcome value)
    (handleVLMRequest : value -> gmap string value -> value)
    (type : string) (data requestId : value) (st : gmap string value) :
  Background.is_vlm_type type = true ->
  MessageRouter.registered MessageRouter.handlers type <> None
  /\ MessageClient.sendMessage type = MessageClient.ViaPort
  /\ Background.onPortMessage service1 unbound1 handleVLMRequest type data requestId st
     = Background.onPortMessage service2 unbound2 handleVLMRequest type data requestId st
  /\ (Background.onPortMessage service1 unbound1 handleVLMRequest type data requestId st).2
     = st
  /\ Background.onMessage service1 unbound1 handleVLMRequest
       {| MessageRouter.type := type; MessageRouter.data := data |} st
     = Background.onMessage service2 unbound2 handleVLMRequest
         {| MessageRouter.type := type; MessageRouter.data := data |} st.
Proof.
  intros Hvlm.
  unfold Background.onPortMessage, Background.onMessage. cbn [MessageRouter.type].
  rewrite Hvlm. unfold Background.is_vlm_type in Hvlm.
  apply orb_true_iff in Hvlm as [H|H]; apply String.eqb_eq in H; subst type;
    repeat split; discriminate.
Qed.

Lemma frame_requests_bypass_the_router_witness :
  let router (_ : MessageRouter.handler) (_ : value) (st : gmap string value)
    : outcome value * gmap string value := (Returns (VStr "from the router"), st) in
  let silent (_ : MessageRouter.handler) (_ : value) (st : gmap string value)
    : outcome value * gmap string value := (Throws (Error "unreachable"), st) in
  let unbound_member (_ : string) (_ : value) : outcome value :=
    Throws (TypeError "Cannot convert undefined or null to object") in
  let vlm (_ : value) (_ : gmap string value) : value :=
    VObj [("success", VBool true); ("data", VStr "from the model")] in
  Background.is_vlm_type "ANALYZE_FRAME" = true
  /\ Background.onPortMessage router unbound_member vlm "ANALYZE_FRAME" (VObj [])
       (VStr "r1") ∅
     = Background.onPortMessage silent unbound_member vlm "ANALYZE_FRAME" (VObj [])
         (VStr "r1") ∅.
Proof.
  intros router silent unbound_member vlm.
  assert (Hvlm : Background.is_vlm_type "ANALYZE_FRAME" = true) by reflexivity.
  destruct (frame_requests_bypass_the_router router silent unbound_member unbound_member
              vlm "ANALYZE_FRAME" (VObj []) (VStr "r1") ∅ Hvlm) as (_ & _ & Hsame & _).
  split; [exact Hvlm | exact Hsame].
Defined.

(** ** background.js: handleVLMRequest *)

Section VLMFacts.

Import Background.

Lemma notify_tab_messages (sender : value) (payload : list (string * value)) :
  List.filter is_tab_message (notify sender payload) = notify sender payload
  /\ List.filter is_request (notify sender payload) = []
  /\ List.length (notify sender payload)
     = (if truthy (opt_get (opt_get sender "tab") "id") then 1%nat else 0%nat).
Proof.
  unfold notify. destruct (truthy (opt_get (opt_get sender "tab") "id"));
    repeat split.
Qed.

Lemma not_in_notify (e : AIService.effect) (sender : value)
    (payload : list (string * value)) :
  ~ In (Service e) (notify sender payload).
Proof.
  unfold notify. destruct (truthy (opt_get (opt_get sender "tab") "id")); cbn.
  - intros [H|[]]. discriminate H.
  - intros [].
Qed.

Lemma in_before_notify (e : AIService.effect) (before : list effect) (sender : value)
    (payload : list (string * value)) :
  In (Service e) (before ++ notify sender payload) -> In (Service e) before.
Proof.
  intros H. apply in_app_or in H as [H|H]; [exact H|].
  exfalso. exact (not_in_notify _ _ _ H).
Qed.

End VLMFacts.

(** [handleVLMRequest] sends a request to the provider only when the
    payload carries an image that is a well-formed data URI and the store
    holds a key that is truthy and is not the placeholder; the request
    then goes to the Gemini endpoint with exactly that stored key. *)
Theorem handleVLMRequest_requests_only_with_image_and_key
    (JSON_stringify : value -> string)
    (data_uri : string -> outcome (value * string))
    (fetch : value -> value -> outcome value)
    (default_prompt : value -> value -> string)
    (text_not_string : value -> list (string * value) * value)
    (data sender : value) (st : gmap string value)
    (endpoint : string) (key body : value) :
  In (Background.Service (AIService.Fetch endpoint key body))
     (Background.handleVLMRequest JSON_stringify data_uri fetch default_prompt
        text_not_string data sender st).1 ->
  endpoint = AIService.gemini_endpoint
  /\ st !! "geminiApiKey" = Some key
  /\ truthy key = true
  /\ key <> VStr AIService.placeholder_key
  /\ exists uri mimeType rawBase64Data,
       or_else (opt_get data "frameDataUrl") (opt_get data "imageData") = VStr uri
       /\ data_uri uri = Returns (mimeType, rawBase64Data).
Proof.
  unfold Background.handleVLMRequest.
  set (imageData := or_else (opt_get data "frameDataUrl") (opt_get data "imageData")).
  intros Hin.
  destruct (truthy imageData) eqn:Eimg; cbn [negb] in Hin;
    [| cbn [fst] in Hin; apply in_before_notify in Hin; destruct Hin].
  destruct imageData as [| |b|lit|uri|xs|props|name] eqn:Ei;
    try (cbn [fst] in Hin; apply in_before_notify in Hin; destruct Hin; fail).
  destruct (data_uri uri) as [[mimeType rawBase64Data]|err] eqn:Eu;
    [| cbn [fst] in Hin; apply in_before_notify in Hin; destruct Hin].
  assert (Hstored : exists stored,
             StorageManager.getSetting "geminiApiKey" st = stored
             /\ (truthy stored = true -> st !! "geminiApiKey" = Some stored)).
  { destruct (st !! "geminiApiKey") as [v|] eqn:Ek.
    - exists v. split; [apply getSetting_stored; exact Ek | reflexivity].
    - exists VUndefined. split; [rewrite getSetting_absent by exact Ek; reflexivity|].
      discriminate. }
  destruct Hstored as (stored & Hget & Hsome). rewrite Hget in Hin.
  destruct (truthy stored) eqn:Et.
  - destruct (strict_eq_string stored AIService.placeholder_key) eqn:Ep.
    + rewrite Et in Hin. cbn [negb orb fst] in Hin.
      apply in_before_notify in Hin. destruct Hin as [H|[]]. discriminate H.
    + rewrite Et in Hin. cbn [negb orb] in Hin.
      assert (Hfetch : In (Background.Service (AIService.Fetch endpoint key body))
                          [Background.Service (AIService.StorageGet ["geminiApiKey"]);
                           Background.Service
                             (AIService.Fetch AIService.gemini_endpoint stored
                                (VObj [("contents",
                                        VArr [VObj [("parts",
                                          VArr [VObj [("text",
                                                  or_else (or_else (opt_get data "prompt") VNull)
                                                    (VStr (default_prompt
                                                       (or_else (or_else (opt_get data "frameWidth") VNull)
                                                                (VStr "UNKNOWN_WIDTH"))
                                                       (or_else (or_else (opt_get data "frameHeight") VNull)
                                                                (VStr "UNKNOWN_HEIGHT")))))];
                                                VObj [("inlineData",
                                                  VObj [("mimeType",
                                                         or_else mimeType (VStr "image/jpeg"));
                                                        ("data", VStr rawBase64Data)])]])]])]))]).
      { destruct (fetch stored _) as [response|err] in Hin;
          [| cbn [fst] in Hin; apply in_before_notify in Hin; exact Hin].
        destruct (AIService.candidate_text response) as [| |b|lit|text|xs|props|name];
          try (cbn [fst] in Hin; apply in_before_notify in Hin; exact Hin);
          try (destruct (text_not_string _) as [payload result];
               cbn [fst] in Hin; apply in_before_notify in Hin; exact Hin).
        destruct (Background.parse_or_cut text) as [parsed|];
          [destruct (truthy parsed)|];
          cbn [fst] in Hin; apply in_before_notify in Hin; exact Hin. }
      destruct Hfetch as [H|[H|[]]]; [discriminate H|].
      injection H as <- <- _.
      split; [reflexivity|]. split; [apply Hsome; reflexivity|].
      split; [exact Et|]. split.
      * intros ->. cbn in Ep. discriminate Ep.
      * exists uri, mimeType, rawBase64Data. split; [reflexivity | exact Eu].
  - cbn [truthy negb orb strict_eq_string] in Hin.
    change (String.eqb AIService.placeholder_key AIService.placeholder_key) with true in Hin.
    cbn [negb orb fst] in Hin.
    apply in_before_notify in Hin. destruct Hin as [H|[]]. discriminate H.
Qed.

Lemma handleVLMRequest_requests_only_with_image_and_key_witness :
  let stringify (_ : value) := EmptyString in
  let data_uri (_ : string) : outcome (value * string) :=
    Returns (VStr "image/png", "iVBORw0KGgo=") in
  let fetch (_ _ : value) : outcome value := Returns VNull in
  let prompt (_ _ : value) := "Describe the image" in
  let odd (v : value) : list (string * value) * value := ([], v) in
  let st : gmap string value := {[ "geminiApiKey" := VStr "AIza-test" ]} in
  let effects :=
    (Background.handleVLMRequest stringify data_uri fetch prompt odd
       (VObj [("frameDataUrl", VStr "data:image/png;base64,iVBORw0KGgo=")])
       Background.port_sender st).1 in
  let request :=
    Background.Service
      (AIService.Fetch AIService.gemini_endpoint (VStr "AIza-test")
         (AIService.vlm_body "Describe the image" (VStr "image/png") "iVBORw0KGgo=")) in
  In request effects
  /\ st !! "geminiApiKey" = Some (VStr "AIza-test")
  /\ truthy (VStr "AIza-test") = true.
Proof.
  intros stringify data_uri fetch prompt odd st effects request.
  assert (Hin : In request effects).
  { subst effects request. unfold Background.handleVLMRequest.
    rewrite (getSetting_stored st "geminiApiKey" _ (lookup_singleton_eq _ _)).
    right. left. reflexivity. }
  destruct (handleVLMRequest_requests_only_with_image_and_key stringify data_uri fetch
              prompt odd _ _ st _ _ _ Hin) as (_ & Hkey & Htruthy & _).
  split; [exact Hin|]. split; [exact Hkey | exact Htruthy].
Defined.

(** Every run of [handleVLMRequest] sends at most one request to the
    provider and tells the tab its outcome exactly once when the sender
    has a tab id, never otherwise; the port listener's sender has none,
    so a request that came over the port tells no tab. *)
Theorem handleVLMRequest_notifies_the_tab_once
    (JSON_stringify : value -> string)
    (data_uri : string -> outcome (value * string))
    (fetch : value -> value -> outcome value)
    (default_prompt : value -> value -> string)
    (text_not_string : value -> list (string * value) * value)
    (data sender : value) (st : gmap string value) :
  let effects :=
    (Background.handleVLMRequest JSON_stringify data_uri fetch default_prompt
       text_not_string data sender st).1 in
  List.length (List.filter Background.is_tab_message effects)
  = (if truthy (opt_get (opt_get sender "tab") "id") then 1%nat else 0%nat)
  /\ (List.length (List.filter Background.is_request effects) <= 1)%nat
  /\ List.filter Background.is_tab_message
       (Background.handleVLMRequest JSON_stringify data_uri fetch default_prompt
          text_not_string data Background.port_sender st).1 = [].
Proof.
  assert (Hgen : forall sender',
             let effects :=
               (Background.handleVLMRequest JSON_stringify data_uri fetch default_prompt
                  text_not_string data sender' st).1 in
             List.length (List.filter Background.is_tab_message effects)
             = (if truthy (opt_get (opt_get sender' "tab") "id") then 1%nat else 0%nat)
             /\ (List.length (List.filter Background.is_request effects) <= 1)%nat).
  { intros sender'. cbn zeta. unfold Background.handleVLMRequest.
    assert (Hend : forall before payload,
               List.filter Background.is_tab_message before = [] ->
               (List.length (List.filter Background.is_request before) <= 1)%nat ->
               List.length (List.filter Background.is_tab_message
                              (before ++ Background.notify sender' payload))
               = (if truthy (opt_get (opt_get sender' "tab") "id") then 1%nat else 0%nat)
               /\ (List.length (List.filter Background.is_request
                                  (before ++ Background.notify sender' payload)) <= 1)%nat).
    { intros before payload Hb Hr.
      destruct (notify_tab_messages sender' payload) as (Ht & Hq & Hl).
      rewrite !List.filter_app, Hb, Ht, Hq, List.app_nil_r. cbn [app].
      split; [exact Hl | exact Hr]. }
    destruct (truthy (or_else (opt_get data "frameDataUrl") (opt_get data "imageData")));
      cbn [negb]; [| apply Hend; [reflexivity | cbn; lia]].
    destruct (or_else (opt_get data "frameDataUrl") (opt_get data "imageData"))
      as [| |b|lit|uri|xs|props|name];
      try (apply Hend; [reflexivity | cbn; lia]).
    destruct (data_uri uri) as [[mimeType rawBase64Data]|err];
      [| apply Hend; [reflexivity | cbn; lia]].
    destruct (negb _ || _); [apply Hend; [reflexivity | cbn; lia]|].
    destruct (fetch _ _) as [response|err]; [| apply Hend; [reflexivity | cbn; lia]].
    destruct (AIService.candidate_text response) as [| |b|lit|text|xs|props|name];
      try (apply Hend; [reflexivity | cbn; lia]);
      try (destruct (text_not_string _) as [payload result];
           apply Hend; [reflexivity | cbn; lia]).
    destruct (Background.parse_or_cut text) as [parsed|];
      [destruct (truthy parsed)|]; apply Hend; try reflexivity; cbn; lia. }
  intros effects. split; [apply Hgen|]. split; [apply Hgen|].
  destruct (Hgen Background.port_sender) as [Hnone _]. cbn in Hnone.
  destruct (List.filter _ _); [reflexivity | discriminate Hnone].
Qed.

(** When the provider's text yields no truthy JSON value (neither as a
    whole nor cut from its first to its last brace), [handleVLMRequest]
    answers success with the raw text as data, whereas [callVLM] of the
    AI service, given the same frame, key and provider, returns the
    parsed falsy value or the empty objects list: the two frame-analysis
    paths differ on such a text. *)
Theorem frame_answer_without_json_is_returned_raw
    (JSON_stringify : value -> string)
    (data_uri : string -> outcome (value * string))
    (fetch : value -> value -> outcome value)
    (default_prompt : value -> value -> string)
    (text_not_string : value -> list (string * value) * value)
    (service_text_not_string : value -> outcome value)
    (data sender key mimeType response : value) (uri rawBase64Data text prompt : string)
    (st : gmap string value) :
  or_else (opt_get data "frameDataUrl") (opt_get data "imageData") = VStr uri ->
  uri <> "" ->
  data_uri uri = Returns (mimeType, rawBase64Data) ->
  st !! "geminiApiKey" = Some key ->
  truthy key = true ->
  strict_eq_string key AIService.placeholder_key = false ->
  (forall body, fetch key body = Returns response) ->
  AIService.candidate_text response = VStr text ->
  match Background.parse_or_cut text with
  | Some parsed => truthy parsed = false
  | None => True
  end ->
  (Background.handleVLMRequest JSON_stringify data_uri fetch default_prompt
     text_not_string data sender st).2
  = VObj [("success", VBool true); ("data", VStr text)]
  /\ (AIService.callVLM JSON_stringify data_uri fetch service_text_not_string
        st (VStr uri) prompt).2
     = Returns (default AIService.vlm_default (Background.parse_or_cut text))
  /\ default AIService.vlm_default (Background.parse_or_cut text) <> VStr text.
Proof.
  intros Himg Huri Hdata Hkey Htruthy Hplace Hfetch Htext Hparse.
  assert (Hnonempty : truthy (VStr text) = true).
  { unfold AIService.candidate_text, or_else in Htext.
    destruct (truthy (opt_get _ "text")) eqn:E; [|discriminate Htext].
    rewrite Htext in E. exact E. }
  assert (Hstored := getSetting_stored st "geminiApiKey" key Hkey).
  split; [| split].
  - unfold Background.handleVLMRequest. rewrite Himg.
    cbn [truthy]. apply String.eqb_neq in Huri. rewrite Huri. cbn [negb].
    rewrite Hdata, Hstored, Htruthy. cbv iota. rewrite Htruthy, Hplace. cbn [negb orb].
    rewrite Hfetch, Htext.
    destruct (Background.parse_or_cut text) as [parsed|]; [rewrite Hparse|]; reflexivity.
  - unfold AIService.callVLM, ChromeStorage.get. cbn [fold_left].
    rewrite Hkey. cbn [obj_define own_lookup app obj_get String.eqb Ascii.eqb Bool.eqb].
    rewrite Htruthy, Hplace. cbn [negb orb].
    rewrite Hdata. cbn [snd]. rewrite Hfetch.
    unfold AIService.finish. rewrite Htext. f_equal.
    rewrite callVLM_parse_candidate. unfold Background.parse_or_cut.
    destruct (JSON_parse text); [reflexivity|].
    destruct (AIService.vlm_candidate text); reflexivity.
  - destruct (Background.parse_or_cut text) as [parsed|].
    + intros Heq. cbn in Heq. subst parsed. rewrite Hnonempty in Hparse.
      discriminate Hparse.
    + discriminate.
Qed.

Lemma frame_answer_without_json_is_returned_raw_witness :
  let stringify (_ : value) := EmptyString in
  let data_uri (_ : string) : outcome (value * string) :=
    Returns (VStr "image/png", "iVBORw0KGgo=") in
  let reply :=
    VObj [("candidates",
           VArr [VObj [("content",
                        VObj [("parts", VArr [VObj [("text", VStr "I see a hammer.")]])])]])] in
  let fetch (_ _ : value) : outcome value := Returns reply in
  let pr (_ _ : value) := "Describe the image" in
  let odd (v : value) : list (string * value) * value := ([], v) in
  let odd' (v : value) : outcome value := Returns v in
  let st : gmap string value := {[ "geminiApiKey" := VStr "AIza-test" ]} in
  let frame := VStr "data:image/png;base64,iVBORw0KGgo=" in
  Background.parse_or_cut "I see a hammer." = None
  /\ (Background.handleVLMRequest stringify data_uri fetch pr odd
        (VObj [("frameDataUrl", frame)]) Background.port_sender st).2
     = VObj [("success", VBool true); ("data", VStr "I see a hammer.")]
  /\ (AIService.callVLM stringify data_uri fetch odd' st frame "Describe the image").2
     = Returns (VObj [("objects", VArr [])]).
Proof.
  intros stringify data_uri reply fetch pr odd odd' st frame.
  assert (Hnone : Background.parse_or_cut "I see a hammer." = None) by reflexivity.
  assert (Huri : "data:image/png;base64,iVBORw0KGgo=" <> "") by discriminate.
  assert (Hkey : st !! "geminiApiKey" = Some (VStr "AIza-test"))
    by apply lookup_singleton_eq.
  assert (Hparse : match Background.parse_or_cut "I see a hammer." with
                   | Some parsed => truthy parsed = false
                   | None => True
                   end) by (rewrite Hnone; exact I).
  destruct (frame_answer_without_json_is_returned_raw stringify data_uri fetch pr odd odd'
              (VObj [("frameDataUrl", frame)]) Background.port_sender (VStr "AIza-test")
              (VStr "image/png") reply "data:image/png;base64,iVBORw0KGgo=" "iVBORw0KGgo="
              "I see a hammer." "Describe the image" st
              eq_refl Huri eq_refl Hkey eq_refl eq_refl (fun _ => eq_refl) eq_refl Hparse)
    as (Hraw & Hsvc & _).
  split; [exact Hnone|]. split; [exact Hraw|].
  subst frame. rewrite Hsvc, Hnone. reflexivity.
Defined.

(** ** aiService.js: validation, prompts and the request *)

Section PromptFacts.

Import AIService.

Lemma strip_white_here (w rest : string) :
  In w white_space -> strip_white (w +:+ rest) = Some rest.
Proof.
  intros H. unfold white_space in H. cbn [In] in H.
  repeat (destruct H as [<- | H]; [vm_compute; reflexivity|]).
  destruct H.
Qed.

Lemma white_space_nonempty (w : string) :
  In w white_space -> (1 <= String.length w)%nat.
Proof.
  intros H. unfold white_space in H. cbn [In] in H.
  repeat (destruct H as [<- | H]; [vm_compute; lia|]).
  destruct H.
Qed.

Lemma blank_unfold (fuel : nat) (s : string) :
  blank (S fuel) s
  = match s with
    | EmptyString => true
    | String _ _ =>
        match strip_white s with
        | Some rest => blank fuel rest
        | None => false
        end
    end.
Proof. destruct s; reflexivity. Qed.

Lemma blank_mono (fuel : nat) :
  forall (more : nat) (s : string),
    (fuel <= more)%nat -> blank fuel s = true -> blank more s = true.
Proof.
  induction fuel as [|fuel IH]; intros more s Hle H.
  - destruct s; [destruct more; reflexivity | discriminate H].
  - destruct more as [|more]; [lia|].
    rewrite blank_unfold in *. destruct s; [reflexivity|].
    destruct (strip_white _); [|discriminate H].
    apply IH; [lia | exact H].
Qed.

Lemma blank_white_space (ws : list string) :
  Forall (fun w => In w white_space) ws ->
  trims_to_empty (fold_right String.append EmptyString ws) = true.
Proof.
  unfold trims_to_empty. induction 1 as [|w ws Hw _ IH]; [reflexivity|].
  cbn [fold_right]. set (rest := fold_right String.append EmptyString ws) in *.
  rewrite length_append.
  assert (Hlen := white_space_nonempty w Hw).
  destruct (String.length w) as [|k]; [lia|]. cbn [Nat.add].
  rewrite blank_unfold.
  destruct (w +:+ rest) eqn:E; [reflexivity|]. rewrite <- E.
  rewrite (strip_white_here w rest Hw).
  apply (blank_mono (String.length rest)); [lia | exact IH].
Qed.

Lemma blank_not_empty (s : string) : trims_to_empty s = false -> truthy (VStr s) = true.
Proof. destruct s; [discriminate | reflexivity]. Qed.

(** The text of a provider reply of the documented shape. *)
Lemma candidate_text_of_reply (reply candidate content part : list (string * value))
    (candidates parts : list value) (text : string) :
  own_lookup reply "candidates" = Some (VArr (VObj candidate :: candidates)) ->
  own_lookup candidate "content" = Some (VObj content) ->
  own_lookup content "parts" = Some (VArr (VObj part :: parts)) ->
  own_lookup part "text" = Some (VStr text) ->
  text <> "" ->
  candidate_text (VObj reply) = VStr text.
Proof.
  intros H1 H2 H3 H4 Hne. unfold candidate_text. cbn [opt_get js_get].
  unfold obj_get. rewrite H1. cbn [opt_first nth opt_get js_get].
  unfold obj_get. rewrite H2. cbn [opt_get js_get].
  unfold obj_get. rewrite H3. cbn [opt_first nth opt_get js_get].
  unfold obj_get. rewrite H4. unfold or_else. cbn [truthy].
  apply String.eqb_neq in Hne. rewrite Hne. reflexivity.
Qed.

Lemma substring_drop (len : nat) (s : string) :
  String.substring 0 len s +:+ drop len s = s.
Proof.
  revert s. induction len as [|len IH]; intros s.
  - destruct s; reflexivity.
  - destruct s as [|c s]; [reflexivity|].
    cbn [String.substring drop]. rewrite append_cons, IH. reflexivity.
Qed.

Lemma length_drop (len : nat) (s : string) :
  String.length (drop len s) = (String.length s - len)%nat.
Proof.
  revert s. induction len as [|len IH]; intros s.
  - cbn. lia.
  - destruct s as [|c s]; [reflexivity|]. cbn [drop String.length]. rewrite IH. lia.
Qed.

Lemma length_substring_le (len : nat) (s : string) :
  (String.length (String.substring 0 len s) <= len)%nat.
Proof.
  revert s. induction len as [|len IH]; intros s.
  - destruct s; cbn; lia.
  - destruct s as [|c s]; [cbn; lia|]. cbn [String.substring String.length].
    specialize (IH s). lia.
Qed.

Lemma lead_length_cases (c : ascii) :
  lead_length c = 1%nat \/ lead_length c = 2%nat
  \/ lead_length c = 3%nat \/ lead_length c = 4%nat.
Proof.
  unfold lead_length.
  destruct (nat_of_ascii c <? 192)%nat; [auto|].
  destruct (nat_of_ascii c <? 224)%nat; [auto|].
  destruct (nat_of_ascii c <? 240)%nat; auto.
Qed.

Lemma code_unit_prefix_step (count : nat) (c : ascii) (rest : string) :
  lead_length c <> 4%nat ->
  code_unit_prefix (S count) (String c rest)
  = String.substring 0 (lead_length c) (String c rest)
    +:+ code_unit_prefix count (drop (lead_length c) (String c rest)).
Proof.
  intros H. cbn [code_unit_prefix].
  destruct (lead_length c) as [|[|[|[|[|k]]]]]; try reflexivity. contradiction.
Qed.

Lemma length_high_surrogate (b0 b1 b2 b3 : ascii) :
  String.length (high_surrogate b0 b1 b2 b3) = 3%nat.
Proof.
  unfold high_surrogate.
  set (cp := (_ + _ + _ + _)%N).
  assert (Hcp : (cp < 2097152)%N).
  { subst cp.
    assert (H0 := N.mod_upper_bound (N_of_ascii b0) 8 ltac:(lia)).
    assert (H1 := N.mod_upper_bound (N_of_ascii b1) 64 ltac:(lia)).
    assert (H2 := N.mod_upper_bound (N_of_ascii b2) 64 ltac:(lia)).
    assert (H3 := N.mod_upper_bound (N_of_ascii b3) 64 ltac:(lia)).
    lia. }
  clearbody cp.
  assert (Hq : ((cp - 65536) / 1024 < 2048)%N).
  { apply N.Div0.div_lt_upper_bound. lia. }
  set (q := ((cp - 65536) / 1024)%N) in *. clearbody q.
  unfold utf8_encode.
  destruct (N.ltb_spec (55296 + q) 128); [lia|].
  destruct (N.ltb_spec (55296 + q) 2048); [lia|].
  destruct (N.ltb_spec (55296 + q) 65536); [reflexivity | lia].
Qed.

End PromptFacts.

(** A text made only of white space (spaces, tabs, line breaks, no-break
    spaces, ...) is refused by [simplifyVocabulary] and by
    [generateChecklist] with their "No ... provided" error before the
    store is read or any request is sent, whatever the store, the level
    and the provider are. *)
Theorem blank_text_is_refused_before_any_effect
    (JSON_stringify : value -> string)
    (fetch : value -> value -> outcome value)
    (text_not_string : value -> outcome value)
    (st : gmap string value) (ws : list string) (level keyFrames : value) :
  Forall (fun w => In w AIService.white_space) ws ->
  let text := fold_right String.append EmptyString ws in
  AIService.simplifyVocabulary JSON_stringify fetch text_not_string st (VStr text) level
  = Some ([], Throws (Error "No text provided for simplification"))
  /\ AIService.generateChecklist JSON_stringify fetch text_not_string st (VStr text) keyFrames
     = ([], Throws (Error "No transcript provided for checklist generation")).
Proof.
  intros Hws text. assert (Hblank := blank_white_space ws Hws). fold text in Hblank.
  unfold AIService.simplifyVocabulary, AIService.generateChecklist.
  rewrite Hblank. destruct (negb (truthy (VStr text))); split; reflexivity.
Qed.

Lemma blank_text_is_refused_before_any_effect_witness :
  let stringify (_ : value) := EmptyString in
  let fetch (_ _ : value) : outcome value := Returns VNull in
  let odd (v : value) : outcome value := Returns v in
  let st : gmap string value := {[ "geminiApiKey" := VStr "AIza-test" ]} in
  let ws := [" "; AIService.bytes [10]; AIService.bytes [194; 160]; AIService.bytes [9]] in
  Forall (fun w => In w AIService.white_space) ws
  /\ AIService.simplifyVocabulary stringify fetch odd st
       (VStr (fold_right String.append EmptyString ws)) (VStr "elementary")
     = Some ([], Throws (Error "No text provided for simplification")).
Proof.
  intros stringify fetch odd st ws.
  assert (Hws : Forall (fun w => In w AIService.white_space) ws).
  { subst ws.
    repeat (apply List.Forall_cons;
            [cbv [AIService.white_space In]; repeat (first [left; reflexivity | right])|]).
    apply List.Forall_nil. }
  destruct (blank_text_is_refused_before_any_effect stringify fetch odd st ws
              (VStr "elementary") VUndefined Hws) as [Hsimplify _].
  split; [exact Hws | exact Hsimplify].
Defined.

(** With a key in the store that is truthy and not the placeholder,
    [callLLM] reads the key and sends exactly one request, to the Gemini
    endpoint, with that key and the prompt; a network error is passed on
    unchanged; a reply of the documented shape with a non-empty text
    never fails the call, which returns what the extraction makes of the
    text; a reply without text fails with the serialised reply.  So does
    [simplifyVocabulary] for a text that is not blank, its prompt being
    built from the level and the text. *)
Theorem callLLM_sends_one_request_and_parses_the_answer
    (JSON_stringify : value -> string)
    (fetch : value -> value -> outcome value)
    (text_not_string : value -> outcome value)
    (st : gmap string value) (key : value) (prompt : string) :
  st !! "geminiApiKey" = Some key ->
  truthy key = true ->
  strict_eq_string key AIService.placeholder_key = false ->
  let run := AIService.callLLM JSON_stringify fetch text_not_string st prompt in
  let body := AIService.llm_body prompt in
  run.1 = [AIService.StorageGet ["geminiApiKey"];
           AIService.Fetch AIService.gemini_endpoint key body]
  /\ (forall err, fetch key body = Throws err -> run.2 = Throws err)
  /\ (forall reply candidate content part candidates parts text,
         fetch key body = Returns (VObj reply) ->
         own_lookup reply "candidates" = Some (VArr (VObj candidate :: candidates)) ->
         own_lookup candidate "content" = Some (VObj content) ->
         own_lookup content "parts" = Some (VArr (VObj part :: parts)) ->
         own_lookup part "text" = Some (VStr text) ->
         text <> "" ->
         run.2 = Returns (AIService.callLLM_parse text))
  /\ (forall reply,
         fetch key body = Returns reply ->
         AIService.candidate_text reply = VNull ->
         run.2 = Throws (Error ("Gemini LLM error: " +:+ JSON_stringify reply)))
  /\ (forall text level,
         AIService.trims_to_empty text = false ->
         AIService.simplifyVocabulary JSON_stringify fetch text_not_string st
           (VStr text) (VStr level)
         = Some (AIService.callLLM JSON_stringify fetch text_not_string st
                   (AIService.simplify_prompt level text))).
Proof.
  intros Hkey Htruthy Hplace run body.
  assert (Hrun : run = ([AIService.StorageGet ["geminiApiKey"];
                         AIService.Fetch AIService.gemini_endpoint key body],
                        match fetch key body with
                        | Throws e => Throws e
                        | Returns data =>
                            AIService.finish JSON_stringify text_not_string
                              "Gemini LLM error: " AIService.callLLM_parse data
                        end)).
  { subst run body. unfold AIService.callLLM, ChromeStorage.get. cbn [fold_left].
    rewrite Hkey. cbn [obj_define own_lookup app obj_get String.eqb Ascii.eqb Bool.eqb].
    rewrite Htruthy, Hplace. reflexivity. }
  rewrite Hrun. cbn [fst snd]. split; [reflexivity|]. split; [| split; [| split]].
  - intros err ->. reflexivity.
  - intros reply candidate content part candidates parts text -> H1 H2 H3 H4 Hne.
    unfold AIService.finish.
    rewrite (candidate_text_of_reply reply candidate content part candidates parts text
               H1 H2 H3 H4 Hne).
    reflexivity.
  - intros reply -> Hnone. unfold AIService.finish. rewrite Hnone. reflexivity.
  - intros text level Hblank. unfold AIService.simplifyVocabulary.
    rewrite (blank_not_empty text Hblank), Hblank. reflexivity.
Qed.

Lemma callLLM_sends_one_request_and_parses_the_answer_witness :
  let stringify (_ : value) := EmptyString in
  let reply :=
    [("candidates",
      VArr [VObj [("content",
                   VObj [("parts", VArr [VObj [("text", VStr "Sure: [1, 2] done")]]);
                         ("role", VStr "model")])]]);
     ("usageMetadata", VObj [])] in
  let fetch (_ _ : value) : outcome value := Returns (VObj reply) in
  let odd (v : value) : outcome value := Returns v in
  let st : gmap string value := {[ "geminiApiKey" := VStr "AIza-test" ]} in
  st !! "geminiApiKey" = Some (VStr "AIza-test")
  /\ AIService.callLLM stringify fetch odd st "List two numbers"
     = ([AIService.StorageGet ["geminiApiKey"];
         AIService.Fetch AIService.gemini_endpoint (VStr "AIza-test")
           (AIService.llm_body "List two numbers")],
        Returns (VArr [VNum "1"; VNum "2"])).
Proof.
  intros stringify reply fetch odd st.
  assert (Hkey : st !! "geminiApiKey" = Some (VStr "AIza-test"))
    by apply lookup_singleton_eq.
  destruct (callLLM_sends_one_request_and_parses_the_answer stringify fetch odd st
              (VStr "AIza-test") "List two numbers" Hkey eq_refl eq_refl)
    as (Heffects & _ & Hparsed & _).
  assert (Hne : "Sure: [1, 2] done" <> "") by discriminate.
  specialize (Hparsed reply _ _ _ _ _ "Sure: [1, 2] done" eq_refl eq_refl eq_refl eq_refl
                eq_refl Hne).
  split; [exact Hkey|].
  destruct (AIService.callLLM stringify fetch odd st "List two numbers") as [effects res].
  cbn [fst snd] in *. rewrite Heffects, Hparsed. reflexivity.
Defined.

(** [transcript.substring(0, 2000)] as [generateChecklist] puts it in its
    prompt: a transcript whose UTF-8 form has at most [count] bytes is
    kept whole; of an ASCII transcript exactly the first [count]
    characters are kept; and what is kept never exceeds three bytes per
    code unit, so the transcript part of the prompt is at most 6000 bytes
    whatever the transcript. *)
Theorem checklist_prompt_keeps_a_bounded_prefix (count : nat) (transcript : string) :
  ((String.length transcript <= count)%nat ->
     AIService.code_unit_prefix count transcript = transcript)
  /\ (AIService.is_ascii_text transcript = true ->
      AIService.code_unit_prefix count transcript = String.substring 0 count transcript)
  /\ (String.length (AIService.code_unit_prefix count transcript) <= 3 * count)%nat.
Proof.
  split; [| split].
  - revert transcript.
    induction count as [count IH] using (well_founded_induction lt_wf).
    intros s Hlen. destruct count as [|count].
    + destruct s; [reflexivity | cbn in Hlen; lia].
    + destruct s as [|c rest]; [reflexivity|].
      destruct (Nat.eq_dec (AIService.lead_length c) 4) as [H4|H4].
      * cbn [AIService.code_unit_prefix]. rewrite H4.
        destruct rest as [|b1 [|b2 [|b3 rest4]]]; try reflexivity.
        cbn [String.length] in Hlen.
        destruct count as [|count]; [lia|].
        rewrite (IH count); [reflexivity | lia | lia].
      * rewrite code_unit_prefix_step by exact H4.
        rewrite (IH count); [apply substring_drop | lia |].
        rewrite length_drop.
        destruct (lead_length_cases c) as [E|[E|[E|E]]]; rewrite E; try contradiction;
          cbn [String.length] in *; lia.
  - revert transcript. induction count as [|count IH]; intros s Hascii.
    + destruct s; reflexivity.
    + destruct s as [|c rest]; [reflexivity|].
      cbn [AIService.is_ascii_text] in Hascii.
      apply andb_true_iff in Hascii as [Hc Hrest].
      assert (Hlead : AIService.lead_length c = 1%nat).
      { unfold AIService.lead_length. apply Nat.ltb_lt in Hc.
        destruct (Nat.ltb_spec (nat_of_ascii c) 192); [reflexivity | lia]. }
      rewrite code_unit_prefix_step by (rewrite Hlead; discriminate).
      rewrite Hlead. cbn [String.substring AIService.drop].
      replace (String.substring 0 0 rest) with EmptyString by (destruct rest; reflexivity).
      rewrite append_cons, append_nil, (IH rest Hrest). reflexivity.
  - revert transcript.
    induction count as [count IH] using (well_founded_induction lt_wf).
    intros s. destruct count as [|count]; [destruct s; cbn; lia|].
    destruct s as [|c rest]; [cbn; lia|].
    destruct (Nat.eq_dec (AIService.lead_length c) 4) as [H4|H4].
    + cbn [AIService.code_unit_prefix]. rewrite H4.
      destruct rest as [|b1 [|b2 [|b3 rest4]]]; try (cbn; lia).
      destruct count as [|count].
      * rewrite length_high_surrogate. lia.
      * cbn [String.length]. specialize (IH count ltac:(lia) rest4). lia.
    + rewrite code_unit_prefix_step by exact H4.
      rewrite length_append.
      assert (Hsub := length_substring_le (AIService.lead_length c) (String c rest)).
      specialize (IH count ltac:(lia) (AIService.drop (AIService.lead_length c) (String c rest))).
      destruct (lead_length_cases c) as [E|[E|[E|E]]]; rewrite E in *; try contradiction; lia.
Qed.

Lemma checklist_prompt_keeps_a_bounded_prefix_witness :
  (String.length "Cut the board." <= 2000)%nat
  /\ AIService.code_unit_prefix 2000 "Cut the board." = "Cut the board."
  /\ AIService.is_ascii_text "Cut the board, then sand it." = true
  /\ AIService.code_unit_prefix 13 "Cut the board, then sand it." = "Cut the board".
Proof.
  assert (Hlen : (String.length "Cut the board." <= 2000)%nat) by (cbn; lia).
  assert (Hascii : AIService.is_ascii_text "Cut the board, then sand it." = true)
    by reflexivity.
  destruct (checklist_prompt_keeps_a_bounded_prefix 2000 "Cut the board.") as (Hwhole & _).
  destruct (checklist_prompt_keeps_a_bounded_prefix 13 "Cut the board, then sand it.")
    as (_ & Hfirst & _).
  split; [exact Hlen|]. split; [exact (Hwhole Hlen)|]. split; [exact Hascii|].
  exact (Hfirst Hascii).
Defined.

(** ** behaviorTracker.js: counters, history and lifecycle *)

Section TrackerLifeFacts.

Import BehaviorTracker.

Lemma handle_counts_nonneg (i : input) (d : Data) :
  (0 <= rewindCount d)%Z -> (0 <= pauseCount d)%Z ->
  (0 <= rewindCount (handle i d).1)%Z /\ (0 <= pauseCount (handle i d).1)%Z.
Proof.
  intros Hr Hp. destruct i; cbn.
  - destruct (Qltb _ _); cbn; lia.
  - lia.
  - lia.
  - lia.
  - unfold checkForConfusion.
    destruct ((3 <=? rewindCount d)%Z || (5 <=? pauseCount d)%Z); cbn; lia.
Qed.

Lemma run_counts_nonneg (history : list input) (d : Data) :
  (0 <= rewindCount d)%Z -> (0 <= pauseCount d)%Z ->
  (0 <= rewindCount (run history d))%Z /\ (0 <= pauseCount (run history d))%Z.
Proof.
  revert d. induction history as [|i history IH]; intros d Hr Hp; [auto|].
  unfold run in *. cbn [fold_left].
  destruct (handle_counts_nonneg i d Hr Hp). apply IH; assumption.
Qed.

Lemma total_visits_insert_new (m : gmap Z Z) (k n : Z) :
  m !! k = None -> total_visits (<[k := n]> m) = (n + total_visits m)%Z.
Proof.
  intros H. unfold total_visits.
  rewrite (map_fold_insert_L (fun _ n acc => (n + acc)%Z) 0%Z k n m); [reflexivity | | exact H].
  intros j1 j2 z1 z2 y _ _ _. apply Z.add_shuffle3.
Qed.

Lemma total_visits_insert (m : gmap Z Z) (k n : Z) :
  total_visits (<[k := n]> m) = (n - default 0%Z (m !! k) + total_visits m)%Z.
Proof.
  destruct (m !! k) as [old|] eqn:E; cbn [default].
  - rewrite <- (insert_delete_eq m k n).
    rewrite total_visits_insert_new by apply lookup_delete_eq.
    rewrite <- (insert_delete_id m k old E) at 2.
    rewrite total_visits_insert_new by apply lookup_delete_eq. unfold id. lia.
  - rewrite total_visits_insert_new by exact E. lia.
Qed.

Lemma total_visits_visit (m : gmap Z Z) (k : Z) :
  total_visits (visit m k) = (total_visits m + 1)%Z.
Proof.
  unfold visit. destruct (m !! k) as [n|] eqn:E.
  - destruct (Z.eqb_spec n 0) as [->|Hn].
    + rewrite insert_insert_eq, lookup_insert_eq. cbn [default].
      rewrite total_visits_insert, E. cbn [default]. unfold id. lia.
    + rewrite E. cbn [default]. rewrite total_visits_insert, E. cbn [default].
      unfold id. lia.
  - rewrite insert_insert_eq, lookup_insert_eq. cbn [default].
    rewrite total_visits_insert, E. cbn [default]. unfold id. lia.
Qed.

Lemma handle_times_pause (n : nat) (x : Q) (d : Data) :
  pauseCount (handle_times n (PauseEvent x) d).1 = (pauseCount d + Z.of_nat n)%Z
  /\ rewindCount (handle_times n (PauseEvent x) d).1 = rewindCount d
  /\ List.length (handle_times n (PauseEvent x) d).2 = n.
Proof.
  revert d. induction n as [|n IH]; intros d; [cbn; repeat split; lia|].
  cbn [handle_times handle handlePause].
  specialize (IH {| rewindCount := rewindCount d;
                    pauseCount := pauseCount d + 1;
                    playbackSpeedChanges := playbackSpeedChanges d;
                    segmentWatchTimes := segmentWatchTimes d;
                    lastPosition := lastPosition d;
                    rewindThreshold := rewindThreshold d |}).
  destruct (handle_times n (PauseEvent x) _) as [d2 e2].
  cbn [fst snd pauseCount rewindCount] in *.
  destruct IH as (Hp & Hr & Hl). rewrite Hp, Hr. cbn [List.length app]. rewrite Hl.
  repeat split; lia.
Qed.

End TrackerLifeFacts.

Section NumberFacts.

Lemma to_uint_not_nil (n : N) : N.to_uint n <> Decimal.Nil.
Proof.
  destruct n as [|p]; [discriminate | apply DecimalPos.Unsigned.to_uint_nonnil].
Qed.

Lemma as_N_num_of_N (n : N) : as_N (num_of_N n) = Some n.
Proof.
  unfold as_N, num_of_N.
  rewrite (DecimalString.NilZero.usu _ (to_uint_not_nil n)).
  rewrite DecimalN.Unsigned.of_to, String.eqb_refl. reflexivity.
Qed.

Lemma num_of_Z_of_N (n : N) : num_of_Z (Z.of_N n) = num_of_N n.
Proof. destruct n; reflexivity. Qed.

Lemma as_N_num_of_Z (z : Z) : (0 <= z)%Z -> as_N (num_of_Z z) = Some (Z.to_N z).
Proof.
  intros H. rewrite <- (Z2N.id z H) at 1. rewrite num_of_Z_of_N. apply as_N_num_of_N.
Qed.

End NumberFacts.

(** Two periodic checks in a row: whatever the sample, the second one
    emits nothing and changes nothing, since the first one either reset
    the counters or found them below both thresholds. *)
Theorem second_check_in_a_row_is_silent (t1 t2 : Q) (d : BehaviorTracker.Data) :
  BehaviorTracker.checkForConfusion t2 (BehaviorTracker.checkForConfusion t1 d).1
  = ((BehaviorTracker.checkForConfusion t1 d).1, []).
Proof.
  unfold BehaviorTracker.checkForConfusion.
  destruct ((3 <=? BehaviorTracker.rewindCount d)%Z
            || (5 <=? BehaviorTracker.pauseCount d)%Z) eqn:E; cbn [fst].
  - reflexivity.
  - rewrite E. reflexivity.
Qed.

(** The segment history counts every position update: after any history
    of inputs from the initial sample, the visit counts add up to the
    number of timeupdate events handled; pauses, plays, rate changes and
    checks, resets included, never lower them. *)
Theorem segment_history_counts_every_update (history : list BehaviorTracker.input) :
  BehaviorTracker.total_visits
    (BehaviorTracker.segmentWatchTimes
       (BehaviorTracker.run history BehaviorTracker.initial))
  = Z.of_nat (List.length (List.filter BehaviorTracker.is_timeupdate history)).
Proof.
  assert (Hgen : forall d,
             BehaviorTracker.total_visits
               (BehaviorTracker.segmentWatchTimes (BehaviorTracker.run history d))
             = (BehaviorTracker.total_visits (BehaviorTracker.segmentWatchTimes d)
                + Z.of_nat (List.length (List.filter BehaviorTracker.is_timeupdate history)))%Z).
  { induction history as [|i history IH]; intros d; [cbn; lia|].
    unfold BehaviorTracker.run in *. cbn [fold_left List.filter].
    rewrite IH. destruct i; cbn [BehaviorTracker.handle BehaviorTracker.is_timeupdate
                                   List.length fst].
    - cbn. rewrite total_visits_visit. lia.
    - reflexivity.
    - reflexivity.
    - reflexivity.
    - unfold BehaviorTracker.checkForConfusion.
      destruct (_ || _); reflexivity. }
  rewrite Hgen. reflexivity.
Qed.

(** From the tracker to the alert.  Whenever a periodic check, after any
    history of inputs from the initial sample, emits confusion-detected,
    the DETECT_CONFUSION request made from that event is answered by the
    router with an assessment that says confused, with score
    [2 * rewinds + pauses >= 5], and [handleConfusionDetected] posts
    exactly one CONFUSION_DETECTED message to the page, carrying that
    score and the three interventions: no trip of the tracker is ever
    judged "not confused". *)
Theorem tracker_trip_always_raises_the_alert
    (history : list BehaviorTracker.input) (now at' : Q) (rewinds pauses : Z)
    (segments : gmap Z Z) (currentTimestamp watchedSegments : value) :
  (BehaviorTracker.handle (BehaviorTracker.Tick now)
     (BehaviorTracker.run history BehaviorTracker.initial)).2
  = [BehaviorTracker.confusion_detected rewinds pauses at' segments] ->
  (5 <= rewinds * 2 + pauses)%Z
  /\ exists assessment,
       MessageRouter.handleDetectConfusion
         (Content.detectConfusion_payload rewinds pauses currentTimestamp watchedSegments)
       = Some (Returns assessment)
       /\ js_get assessment "isConfused" = VBool true
       /\ Content.handleConfusionDetected (MessageClient.Resolve assessment)
          = [Content.sendToUI "CONFUSION_DETECTED"
               (VObj [ ("score", num_of_Z (rewinds * 2 + pauses));
                       ("suggestions",
                        VArr [VStr "vocabulary_simplification"; VStr "step_breakdown";
                              VStr "pause_assistance"]) ])].
Proof.
  set (d := BehaviorTracker.run history BehaviorTracker.initial).
  destruct (run_counts_nonneg history BehaviorTracker.initial) as [Hr Hp];
    [cbn; lia | cbn; lia |]. fold d in Hr, Hp.
  cbn [BehaviorTracker.handle]. unfold BehaviorTracker.checkForConfusion.
  destruct ((3 <=? BehaviorTracker.rewindCount d)%Z
            || (5 <=? BehaviorTracker.pauseCount d)%Z) eqn:E; [|discriminate].
  cbn [snd]. intros H. injection H as <- <- _ _.
  set (r := BehaviorTracker.rewindCount d) in *.
  set (p := BehaviorTracker.pauseCount d) in *.
  assert (Hscore : (5 <= r * 2 + p)%Z).
  { apply orb_true_iff in E as [E|E]; apply Z.leb_le in E; lia. }
  split; [exact Hscore|].
  unfold MessageRouter.handleDetectConfusion, Content.detectConfusion_payload.
  cbn [or_else truthy js_get obj_get own_lookup String.eqb Ascii.eqb Bool.eqb].
  rewrite (as_N_num_of_Z r Hr), (as_N_num_of_Z p Hp), !Z2N.id by assumption.
  eexists. split; [reflexivity|].
  unfold AIService.detectConfusion, AIService.assessment_value.
  cbn [AIService.rewindCount AIService.pauseCount AIService.isConfused
       AIService.confusionScore AIService.suggestedIntervention AIService.recommendation].
  assert (Hc : (3 <=? r * 2 + p)%Z = true) by (apply Z.leb_le; lia).
  rewrite Hc. split; reflexivity.
Qed.

Lemma tracker_trip_always_raises_the_alert_witness :
  let history :=
    [BehaviorTracker.Timeupdate 40; BehaviorTracker.Timeupdate 30;
     BehaviorTracker.Timeupdate 40; BehaviorTracker.Timeupdate 30;
     BehaviorTracker.PauseEvent 30;
     BehaviorTracker.Timeupdate 40; BehaviorTracker.Timeupdate 30] in
  (BehaviorTracker.handle (BehaviorTracker.Tick 31)
     (BehaviorTracker.run history BehaviorTracker.initial)).2
  = [BehaviorTracker.confusion_detected 3 1 31
       (BehaviorTracker.segmentWatchTimes
          (BehaviorTracker.run history BehaviorTracker.initial))]
  /\ (5 <= 3 * 2 + 1)%Z.
Proof.
  intros history.
  assert (Hev : (BehaviorTracker.handle (BehaviorTracker.Tick 31)
                   (BehaviorTracker.run history BehaviorTracker.initial)).2
                = [BehaviorTracker.confusion_detected 3 1 31
                     (BehaviorTracker.segmentWatchTimes
                        (BehaviorTracker.run history BehaviorTracker.initial))])
    by reflexivity.
  destruct (tracker_trip_always_raises_the_alert history 31 31 3 1 _ VNull VNull Hev)
    as [Hscore _].
  split; [exact Hev | exact Hscore].
Defined.

(** [stop] clears the interval and leaves the video listeners in place.
    After any number of start/stop cycles the tracker is stopped and no
    check runs any more, yet every pause of the video is still counted,
    once for each past [start]; and after one more [start] it is counted
    once more than that.  While tracking, a second [start] changes
    nothing. *)
Theorem stop_leaves_the_video_listeners (ids : list nat) (x : Q) :
  Forall (fun id => id <> 0%nat) ids ->
  let stopped :=
    fold_left (fun t id => BehaviorTracker.stop (BehaviorTracker.start id t)) ids
      BehaviorTracker.new in
  BehaviorTracker.isTracking stopped = false
  /\ BehaviorTracker.intervals stopped = []
  /\ BehaviorTracker.videoListeners stopped = List.length ids
  /\ BehaviorTracker.dispatch (BehaviorTracker.Tick x) stopped = (stopped, [])
  /\ BehaviorTracker.pauseCount
       (BehaviorTracker.data
          (BehaviorTracker.dispatch (BehaviorTracker.PauseEvent x) stopped).1)
     = Z.of_nat (List.length ids)
  /\ (forall id id',
         BehaviorTracker.pauseCount
           (BehaviorTracker.data
              (BehaviorTracker.dispatch (BehaviorTracker.PauseEvent x)
                 (BehaviorTracker.start id stopped)).1)
         = Z.of_nat (S (List.length ids))
         /\ BehaviorTracker.start id' (BehaviorTracker.start id stopped)
            = BehaviorTracker.start id stopped).
Proof.
  intros Hids stopped.
  assert (Hgen : forall t,
             BehaviorTracker.isTracking t = false ->
             BehaviorTracker.intervals t = [] ->
             let t' := fold_left
                         (fun t id => BehaviorTracker.stop (BehaviorTracker.start id t))
                         ids t in
             BehaviorTracker.isTracking t' = false
             /\ BehaviorTracker.intervals t' = []
             /\ BehaviorTracker.videoListeners t'
                = (BehaviorTracker.videoListeners t + List.length ids)%nat
             /\ BehaviorTracker.data t' = BehaviorTracker.data t).
  { clear stopped. induction Hids as [|id ids Hid _ IH]; intros t Ht Hi.
    - cbn. repeat split; [exact Ht | exact Hi | lia].
    - cbn [fold_left List.length].
      set (t1 := BehaviorTracker.stop (BehaviorTracker.start id t)).
      assert (H1 : BehaviorTracker.isTracking t1 = false
                   /\ BehaviorTracker.intervals t1 = []
                   /\ BehaviorTracker.videoListeners t1
                      = S (BehaviorTracker.videoListeners t)
                   /\ BehaviorTracker.data t1 = BehaviorTracker.data t).
      { subst t1. unfold BehaviorTracker.start, BehaviorTracker.stop. rewrite Ht. cbn.
        rewrite Hi. destruct (Nat.eqb_spec id 0) as [E|_]; [contradiction|].
        cbn. rewrite Nat.eqb_refl. repeat split. }
      destruct H1 as (Ht1 & Hi1 & Hv1 & Hd1).
      destruct (IH t1 Ht1 Hi1) as (Ha & Hb & Hc & Hd).
      repeat split; [exact Ha | exact Hb | rewrite Hc, Hv1; lia | rewrite Hd; exact Hd1]. }
  destruct (Hgen BehaviorTracker.new eq_refl eq_refl) as (Ht & Hi & Hv & Hd).
  fold stopped in Ht, Hi, Hv, Hd. cbn in Hv, Hd. clearbody stopped.
  split; [exact Ht|]. split; [exact Hi|]. split; [exact Hv|]. split; [| split].
  - destruct stopped as [d tr c v iv]. cbn in Hi. subst iv. reflexivity.
  - unfold BehaviorTracker.dispatch. rewrite Hv, Hd.
    destruct (handle_times_pause (List.length ids) x BehaviorTracker.initial)
      as (Hp & _ & _).
    destruct (BehaviorTracker.handle_times _ _ _) as [d es]. cbn [fst] in *.
    cbn [BehaviorTracker.data]. rewrite Hp. reflexivity.
  - intros id id'. split.
    + unfold BehaviorTracker.dispatch, BehaviorTracker.start. rewrite Ht.
      cbn [BehaviorTracker.videoListeners BehaviorTracker.data]. rewrite Hv, Hd.
      destruct (handle_times_pause (S (List.length ids)) x BehaviorTracker.initial)
        as (Hp & _ & _).
      destruct (BehaviorTracker.handle_times _ _ _) as [d es]. cbn [fst] in *.
      cbn [BehaviorTracker.data]. rewrite Hp. reflexivity.
    + unfold BehaviorTracker.start. rewrite Ht. reflexivity.
Qed.

Lemma stop_leaves_the_video_listeners_witness :
  let restarted :=
    BehaviorTracker.start 9
      (BehaviorTracker.stop (BehaviorTracker.start 7 BehaviorTracker.new)) in
  Forall (fun id => id <> 0%nat) [7%nat]
  /\ (BehaviorTracker.dispatch (BehaviorTracker.PauseEvent 12) restarted).2
     = [BehaviorTracker.pause 12 1; BehaviorTracker.pause 12 2]
  /\ BehaviorTracker.pauseCount
       (BehaviorTracker.data
          (BehaviorTracker.dispatch (BehaviorTracker.PauseEvent 12) restarted).1) = 2%Z.
Proof.
  intros restarted.
  assert (Hids : Forall (fun id => id <> 0%nat) [7%nat]) by (repeat constructor; lia).
  destruct (stop_leaves_the_video_listeners [7%nat] 12 Hids) as (_ & _ & _ & _ & _ & Hre).
  destruct (Hre 9%nat 9%nat) as [Htwice _].
  split; [exact Hids|]. split; [reflexivity | exact Htwice].
Defined.

(** ** storageManager.js: the enabled flag, defaults, merges, interactions *)

Section SettingsFacts.

Import StorageManager.

Lemma getSetting_insert (st : gmap string value) (k : string) (v : value) :
  getSetting k (<[k := v]> st) = v.
Proof. apply getSetting_stored, lookup_insert_eq. Qed.

Lemma getSetting_insert_ne (st : gmap string value) (k k' : string) (v : value) :
  k <> k' -> getSetting k' (<[k := v]> st) = getSetting k' st.
Proof.
  intros Hne. unfold getSetting, ChromeStorage.get. cbn [fold_left].
  rewrite lookup_insert_ne by exact Hne. reflexivity.
Qed.

Lemma isExtensionEnabled_false (st : gmap string value) :
  isExtensionEnabled st = false <-> st !! "extensionEnabled" = Some (VBool false).
Proof.
  unfold isExtensionEnabled. destruct (st !! "extensionEnabled") as [v|] eqn:E.
  - rewrite (getSetting_stored st _ v E). split.
    + destruct v as [| |[|]| | | | |]; intros H; try discriminate H; reflexivity.
    + intros H. injection H as ->. reflexivity.
  - rewrite (getSetting_absent st _ E). cbn. split; discriminate.
Qed.

Lemma initializeDefaults_inserts (st : gmap string value) :
  initializeDefaults defaults st
  = <["userData" := obj_get defaults "userData"]>
      (<["ai" := obj_get defaults "ai"]>
         (<["preferences" := obj_get defaults "preferences"]>
            (<["extensionEnabled" := VBool true]>
               (<["features" := obj_get defaults "features"]> st)))).
Proof. reflexivity. Qed.

End SettingsFacts.

(** [toggleExtensionEnabled] does not toggle: [!(current === false)] is
    the state the extension is in already, so the call returns the
    current enabled state, writes that same boolean back, and the
    extension is enabled afterwards exactly when it was before.  A
    disabled extension stays disabled, an enabled one stays enabled. *)
Theorem toggleExtensionEnabled_never_flips (st : gmap string value) :
  let before := StorageManager.isExtensionEnabled st in
  (StorageManager.toggleExtensionEnabled st).1 = before
  /\ (StorageManager.toggleExtensionEnabled st).2
     = <["extensionEnabled" := VBool before]> st
  /\ StorageManager.isExtensionEnabled (StorageManager.toggleExtensionEnabled st).2
     = before.
Proof.
  intros before.
  assert (Hnext : negb (strict_eq_false (StorageManager.getSetting "extensionEnabled" st))
                  = before).
  { subst before. unfold StorageManager.isExtensionEnabled.
    destruct (StorageManager.getSetting "extensionEnabled" st) as [| |[|]| | | | |];
      reflexivity. }
  unfold StorageManager.toggleExtensionEnabled, StorageManager.setExtensionEnabled.
  cbn [fst snd truthy]. rewrite Hnext.
  rewrite updateSetting_insert by reflexivity.
  split; [reflexivity|]. split; [reflexivity|].
  unfold StorageManager.isExtensionEnabled. rewrite getSetting_insert. reflexivity.
Qed.

(** The enabled flag is read back as written, coerced to a boolean:
    after [setExtensionEnabled(v)], [isExtensionEnabled] answers
    [Boolean(v)] and no other key has changed; and [isExtensionEnabled]
    answers false only when the store holds the boolean false (an absent
    or non-boolean value reads as enabled). *)
Theorem extension_flag_reads_back_as_boolean (enabled : value) (st : gmap string value) :
  StorageManager.isExtensionEnabled (StorageManager.setExtensionEnabled enabled st)
  = truthy enabled
  /\ (forall k, k <> "extensionEnabled" ->
        StorageManager.setExtensionEnabled enabled st !! k = st !! k)
  /\ (StorageManager.isExtensionEnabled st = false
      <-> st !! "extensionEnabled" = Some (VBool false)).
Proof.
  unfold StorageManager.setExtensionEnabled.
  rewrite updateSetting_insert by reflexivity.
  split; [| split].
  - unfold StorageManager.isExtensionEnabled. rewrite getSetting_insert. reflexivity.
  - intros k Hk. apply lookup_insert_ne. congruence.
  - apply isExtensionEnabled_false.
Qed.

(** After [initializeDefaults] (run on install) each of the five default
    keys holds its default whatever the store held, every other key is
    untouched, the extension reads as enabled, focus mode reads as
    disabled, and GET_SETTINGS for [extensionEnabled] alone answers
    [{ extensionEnabled: true }]. *)
Theorem initializeDefaults_writes_every_default (st : gmap string value) :
  let st' := StorageManager.initializeDefaults StorageManager.defaults st in
  (forall k v, own_lookup StorageManager.defaults k = Some v ->
               st' !! k = Some v /\ StorageManager.getSetting k st' = v)
  /\ (forall k, own_lookup StorageManager.defaults k = None -> st' !! k = st !! k)
  /\ StorageManager.isExtensionEnabled st' = true
  /\ StorageManager.isFeatureEnabled "focusMode" st' = VBool false
  /\ StorageManager.isFeatureEnabled "autoPause" st' = VBool true
  /\ MessageRouter.handleGetSettings
       (VObj [("keys", VArr [VStr "extensionEnabled"])]) st'
     = Some (Returns (VObj [("extensionEnabled", VBool true)])).
Proof.
  intros st'.
  assert (Hkeys : forall k v, own_lookup StorageManager.defaults k = Some v ->
                              st' !! k = Some v).
  { intros k v H. subst st'. rewrite initializeDefaults_inserts.
    unfold StorageManager.defaults in H. cbn [own_lookup] in H.
    repeat match type of H with
           | (if String.eqb ?a k then _ else _) = _ =>
               destruct (String.eqb_spec a k) as [<-|?];
               [injection H as <-; simplify_map_eq; reflexivity|]
           end.
    discriminate H. }
  assert (Hother : forall k, own_lookup StorageManager.defaults k = None ->
                             st' !! k = st !! k).
  { intros k H. subst st'. rewrite initializeDefaults_inserts.
    unfold StorageManager.defaults in H. cbn [own_lookup] in H.
    repeat match type of H with
           | (if String.eqb ?a k then _ else _) = _ =>
               let E := fresh "E" in
               destruct (String.eqb a k) eqn:E; [discriminate H|];
               apply String.eqb_neq in E
           end.
    rewrite !lookup_insert_ne by assumption. reflexivity. }
  clearbody st'.
  split; [| split; [exact Hother | split; [| split; [| split]]]].
  - intros k v H. split; [apply Hkeys; exact H|].
    apply getSetting_stored, Hkeys, H.
  - unfold StorageManager.isExtensionEnabled.
    rewrite (getSetting_stored st' "extensionEnabled" (VBool true)); [reflexivity|].
    apply Hkeys. reflexivity.
  - unfold StorageManager.isFeatureEnabled.
    rewrite (getSetting_stored st' "features" _ (Hkeys "features" _ eq_refl)). reflexivity.
  - unfold StorageManager.isFeatureEnabled.
    rewrite (getSetting_stored st' "features" _ (Hkeys "features" _ eq_refl)). reflexivity.
  - unfold MessageRouter.handleGetSettings.
    cbn -[StorageManager.getSetting].
    rewrite (getSetting_stored st' "extensionEnabled" (VBool true)); [reflexivity|].
    apply Hkeys. reflexivity.
Qed.

(** After [clearAllData] every read falls back: the store is empty, the
    extension reads as enabled, the preferences are the defaults, and
    every feature, whatever its name, reads as enabled, focus mode
    included, although its default is false. *)
Theorem cleared_store_reads_everything_enabled
    (st : gmap string value) (featureName : string) :
  let cleared := StorageManager.clearAllData st in
  StorageManager.getAllSettings cleared = VObj []
  /\ StorageManager.isExtensionEnabled cleared = true
  /\ StorageManager.isFeatureEnabled featureName cleared = VBool true
  /\ obj_get (match obj_get StorageManager.defaults "features" with
              | VObj features => features
              | _ => []
              end) "focusMode" = VBool false
  /\ StorageManager.getPreferences StorageManager.defaults cleared
     = obj_get StorageManager.defaults "preferences".
Proof.
  intros cleared. subst cleared. unfold StorageManager.clearAllData.
  split; [reflexivity|]. split; [reflexivity|]. split; [| repeat split].
  unfold StorageManager.isFeatureEnabled.
  rewrite (getSetting_absent ∅ "features" (lookup_empty _)). reflexivity.
Qed.

Section PropertyFacts.

Lemma own_lookup_app (props : list (string * value)) (k k' : string) (v : value) :
  own_lookup (props ++ [(k, v)]) k'
  = match own_lookup props k' with
    | Some x => Some x
    | None => if String.eqb k k' then Some v else None
    end.
Proof.
  induction props as [|[k0 v0] props IH]; cbn; [reflexivity|].
  destruct (String.eqb k0 k'); [reflexivity | exact IH].
Qed.

Lemma own_lookup_replace (props : list (string * value)) (k k' : string) (v : value) :
  own_lookup (own_replace props k v) k'
  = if String.eqb k k'
    then match own_lookup props k with Some _ => Some v | None => None end
    else own_lookup props k'.
Proof.
  induction props as [|[k0 v0] props IH]; cbn.
  - destruct (String.eqb k k'); reflexivity.
  - destruct (String.eqb_spec k0 k) as [->|Hne]; cbn.
    + destruct (String.eqb k k'); reflexivity.
    + rewrite IH. destruct (String.eqb_spec k k') as [<-|Hne'].
      * apply String.eqb_neq in Hne. rewrite Hne. reflexivity.
      * reflexivity.
Qed.

Lemma own_lookup_define (props : list (string * value)) (k k' : string) (v : value) :
  own_lookup (obj_define props k v) k'
  = if String.eqb k k' then Some v else own_lookup props k'.
Proof.
  unfold obj_define. destruct (own_lookup props k) as [old|] eqn:E.
  - rewrite own_lookup_replace, E. reflexivity.
  - rewrite own_lookup_app. destruct (String.eqb_spec k k') as [<-|Hne].
    + rewrite E. reflexivity.
    + destruct (own_lookup props k'); reflexivity.
Qed.

Lemma own_lookup_set (props : list (string * value)) (k k' : string) (v : value) :
  k <> "__proto__" ->
  own_lookup (obj_set props k v) k'
  = if String.eqb k k' then Some v else own_lookup props k'.
Proof.
  intros Hk. unfold obj_set. destruct (own_lookup props k) as [old|] eqn:E.
  - rewrite own_lookup_replace, E. reflexivity.
  - apply String.eqb_neq in Hk. rewrite Hk, own_lookup_app.
    destruct (String.eqb_spec k k') as [<-|Hne].
    + rewrite E. reflexivity.
    + destruct (own_lookup props k'); reflexivity.
Qed.

Lemma own_lookup_not_in (props : list (string * value)) (k : string) :
  ~ In k (map fst props) -> own_lookup props k = None.
Proof.
  induction props as [|[k0 v0] props IH]; cbn; intros H; [reflexivity|].
  destruct (String.eqb_spec k0 k) as [->|_]; [exfalso; apply H; left; reflexivity|].
  apply IH. intros Hin. apply H. right. exact Hin.
Qed.

Lemma own_lookup_rev (props : list (string * value)) (k : string) :
  List.NoDup (map fst props) -> own_lookup (rev props) k = own_lookup props k.
Proof.
  induction props as [|[k0 v0] props IH]; intros Hnd; [reflexivity|].
  cbn [map fst] in Hnd. apply List.NoDup_cons_iff in Hnd as [Hnot Hnd].
  cbn [rev own_lookup]. rewrite own_lookup_app, (IH Hnd).
  destruct (String.eqb_spec k0 k) as [->|_].
  - rewrite (own_lookup_not_in props k Hnot). reflexivity.
  - destruct (own_lookup props k); reflexivity.
Qed.

Lemma own_lookup_define_all (source target : list (string * value)) (k : string) :
  own_lookup (define_all target source) k
  = match own_lookup (rev source) k with
    | Some v => Some v
    | None => own_lookup target k
    end.
Proof.
  revert target. induction source as [|[k0 v0] source IH]; intros target; [reflexivity|].
  unfold define_all in *. cbn [fold_left fst snd rev].
  rewrite IH, own_lookup_app, own_lookup_define.
  destruct (own_lookup (rev source) k); [reflexivity|].
  destruct (String.eqb k0 k); reflexivity.
Qed.

(** Replacing a property and then putting its old value back restores
    the object. *)
Lemma own_replace_back (props : list (string * value)) (k : string) (v old : value) :
  own_lookup props k = Some old ->
  own_replace (own_replace props k v) k old = props.
Proof.
  induction props as [|[k0 v0] props IH]; cbn; intros H; [discriminate H|].
  destruct (String.eqb_spec k0 k) as [->|Hne].
  - injection H as ->. cbn. rewrite String.eqb_refl. reflexivity.
  - cbn. apply String.eqb_neq in Hne. rewrite Hne, (IH H). reflexivity.
Qed.

End PropertyFacts.

(** [updatePreferences] merges: the stored preferences become the current
    ones (the stored object, or the defaults when none is stored) with
    each property of the update written over them; a preference the
    update does not name keeps its value, and no other key of the store
    changes.  [updateAIConfig] merges the AI configuration the same
    way. *)
Theorem updatePreferences_merges_into_current
    (this_defaults current update : list (string * value)) (st : gmap string value) :
  StorageManager.getPreferences this_defaults st = VObj current ->
  List.NoDup (map fst current) ->
  List.NoDup (map fst update) ->
  is_json (VObj update) = true ->
  exists updated,
    StorageManager.updatePreferences this_defaults (VObj update) st
    = Some (<["preferences" := VObj updated]> st)
    /\ (forall k, own_lookup updated k
                  = match own_lookup update k with
                    | Some v => Some v
                    | None => own_lookup current k
                    end)
    /\ StorageManager.getPreferences this_defaults (<["preferences" := VObj updated]> st)
       = VObj updated
    /\ (StorageManager.getAIConfig this_defaults st = VObj current ->
        StorageManager.updateAIConfig this_defaults (VObj update) st
        = Some (<["ai" := VObj updated]> st)).
Proof.
  intros Hcur Hnc Hnu _.
  exists (define_all (define_all [] current) update).
  split; [| split; [| split]].
  - unfold StorageManager.updatePreferences. rewrite Hcur. cbn [object_spread spread].
    rewrite updateSetting_insert by reflexivity. reflexivity.
  - intros k. rewrite !own_lookup_define_all, (own_lookup_rev update k Hnu),
      (own_lookup_rev current k Hnc).
    destruct (own_lookup update k); [reflexivity|].
    destruct (own_lookup current k); reflexivity.
  - unfold StorageManager.getPreferences. rewrite getSetting_insert. reflexivity.
  - intros Hai. unfold StorageManager.updateAIConfig. rewrite Hai.
    cbn [object_spread spread]. rewrite updateSetting_insert by reflexivity. reflexivity.
Qed.

Lemma updatePreferences_merges_into_current_witness :
  let update := [("uiPosition", VStr "left"); ("fontSize", VStr "large")] in
  let merged :=
    [ ("simplificationLevel", VStr "elementary"); ("highlightColor", VStr "#FFD700");
      ("highlightOpacity", VNum "0.3"); ("pauseDuration", VNum "3");
      ("proactiveAssistance", VBool true); ("uiPosition", VStr "left");
      ("fontSize", VStr "large") ] in
  StorageManager.updatePreferences StorageManager.defaults (VObj update) ∅
  = Some (<["preferences" := VObj merged]> ∅).
Proof.
  intros update merged.
  destruct (updatePreferences_merges_into_current StorageManager.defaults
              [ ("simplificationLevel", VStr "elementary"); ("highlightColor", VStr "#FFD700");
                ("highlightOpacity", VNum "0.3"); ("pauseDuration", VNum "3");
                ("proactiveAssistance", VBool true); ("uiPosition", VStr "right");
                ("fontSize", VStr "medium") ]
              update ∅)
    as (updated & Hupd & _).
  - reflexivity.
  - cbn. repeat constructor; cbn; intuition discriminate.
  - cbn. repeat constructor; cbn; intuition discriminate.
  - reflexivity.
  - reflexivity.
Defined.

Section InteractionFacts.

Import StorageManager.

Lemma add_one_num_of_N (n : N) :
  (n < 9007199254740992)%N -> add_one (num_of_N n) = Some (num_of_N (n + 1)).
Proof.
  intros H. unfold add_one. rewrite as_N_num_of_N.
  apply N.ltb_lt in H. rewrite H. reflexivity.
Qed.

Lemma obj_get_own (props : list (string * value)) (k : string) (v : value) :
  own_lookup props k = Some v -> obj_get props k = v.
Proof. intros H. unfold obj_get. rewrite H. reflexivity. Qed.

(** The record [recordInteraction] builds from [userData]. *)
Lemma recordInteraction_on (this_defaults userData : list (string * value))
    (now1 now2 n : N) (entries : list value) (interactionType stored : value)
    (st : gmap string value) :
  getSetting "userData" st = stored ->
  or_else stored (obj_get this_defaults "userData") = VObj userData ->
  own_lookup userData "totalInterventions" = Some (num_of_N n) ->
  (n < 9007199254740992)%N ->
  own_lookup userData "preferredInterventions" = Some (VArr entries) ->
  is_json interactionType = true ->
  exists userData',
    recordInteraction this_defaults now1 now2 interactionType st
    = Some (if truthy stored then this_defaults
            else obj_set this_defaults "userData" (VObj userData'),
            <["userData" := VObj userData']> st)
    /\ (forall k,
           own_lookup userData' k
           = if String.eqb "preferredInterventions" k
             then Some (VArr (entries ++ [VObj [("type", interactionType);
                                                ("timestamp", num_of_N now2)]]))
             else if String.eqb "lastUsed" k then Some (num_of_N now1)
             else if String.eqb "totalInterventions" k then Some (num_of_N (n + 1))
             else own_lookup userData k).
Proof.
  intros Hstored Hdata Htotal Hn Hentries Hjson.
  set (u1 := obj_set userData "totalInterventions" (num_of_N (n + 1))).
  set (u2 := obj_set u1 "lastUsed" (num_of_N now1)).
  assert (H2 : own_lookup u2 "preferredInterventions" = Some (VArr entries)).
  { subst u2 u1. rewrite !own_lookup_set by discriminate. exact Hentries. }
  exists (obj_set u2 "preferredInterventions"
            (VArr (entries ++ [VObj [("type", interactionType);
                                     ("timestamp", num_of_N now2)]]))).
  split.
  - unfold recordInteraction. rewrite Hstored, Hdata.
    rewrite (obj_get_own userData _ _ Htotal), (add_one_num_of_N n Hn).
    fold u1. fold u2. rewrite (obj_get_own u2 _ _ H2). cbn [truthy].
    rewrite (obj_get_own u2 _ _ H2), Hjson.
    rewrite updateSetting_insert by reflexivity. reflexivity.
  - intros k. subst u2 u1. rewrite !own_lookup_set by discriminate. reflexivity.
Qed.

End InteractionFacts.

(** With a [userData] record in the store, [recordInteraction] stores it
    back with [totalInterventions] one higher, [lastUsed] set to the
    clock, and one entry [{ type, timestamp }] appended to
    [preferredInterventions] after the entries already there; every
    other property of the record and every other key of the store is as
    before, and the manager's defaults are not touched. *)
Theorem recordInteraction_counts_and_appends
    (this_defaults userData : list (string * value)) (now1 now2 n : N)
    (entries : list value) (interactionType : value) (st : gmap string value) :
  st !! "userData" = Some (VObj userData) ->
  own_lookup userData "totalInterventions" = Some (num_of_N n) ->
  (n < 9007199254740992)%N ->
  own_lookup userData "preferredInterventions" = Some (VArr entries) ->
  is_json interactionType = true ->
  exists userData',
    StorageManager.recordInteraction this_defaults now1 now2 interactionType st
    = Some (this_defaults, <["userData" := VObj userData']> st)
    /\ obj_get userData' "totalInterventions" = num_of_N (n + 1)
    /\ obj_get userData' "lastUsed" = num_of_N now1
    /\ obj_get userData' "preferredInterventions"
       = VArr (entries ++ [VObj [("type", interactionType); ("timestamp", num_of_N now2)]])
    /\ (forall k, k <> "totalInterventions" -> k <> "lastUsed" ->
                  k <> "preferredInterventions" ->
                  own_lookup userData' k = own_lookup userData k).
Proof.
  intros Hst Htotal Hn Hentries Hjson.
  destruct (recordInteraction_on this_defaults userData now1 now2 n entries
              interactionType (VObj userData) st
              (getSetting_stored st _ _ Hst) eq_refl Htotal Hn Hentries Hjson)
    as (userData' & Hrun & Hlook).
  exists userData'. split; [exact Hrun|].
  split; [apply obj_get_own; rewrite Hlook; reflexivity|].
  split; [apply obj_get_own; rewrite Hlook; reflexivity|].
  split; [apply obj_get_own; rewrite Hlook; reflexivity|].
  intros k H1 H2 H3. rewrite Hlook.
  apply not_eq_sym, String.eqb_neq in H1, H2, H3. rewrite H1, H2, H3. reflexivity.
Qed.

Lemma recordInteraction_counts_and_appends_witness :
  let userData :=
    [ ("totalVideosWatched", VNum "2"); ("totalInterventions", num_of_N 41);
      ("preferredInterventions", VArr [VObj [("type", VStr "pause"); ("timestamp", VNum "5")]]);
      ("lastUsed", VNum "5") ] in
  let st : gmap string value := {[ "userData" := VObj userData ]} in
  st !! "userData" = Some (VObj userData)
  /\ (41 < 9007199254740992)%N
  /\ exists userData',
       StorageManager.recordInteraction StorageManager.defaults 1700000000000 1700000000001
         (VStr "simplify") st
       = Some (StorageManager.defaults, <["userData" := VObj userData']> st)
       /\ obj_get userData' "totalInterventions" = VNum "42".
Proof.
  intros userData st.
  assert (Hst : st !! "userData" = Some (VObj userData)) by apply lookup_singleton_eq.
  assert (Hn : (41 < 9007199254740992)%N) by lia.
  destruct (recordInteraction_counts_and_appends StorageManager.defaults userData
              1700000000000 1700000000001 41 _ (VStr "simplify") st
              Hst eq_refl Hn eq_refl eq_refl)
    as (userData' & Hrun & Htotal & _).
  split; [exact Hst|]. split; [exact Hn|].
  exists userData'. split; [exact Hrun | exact Htotal].
Defined.

(** Without a [userData] record in the store, [recordInteraction] updates
    the manager's own default record in place: afterwards
    [this.defaults.userData] is the record that was stored, with the
    interaction counted and listed.  So, for the manager created by the
    constructor, a later [initializeDefaults] writes a count of 1 and one
    listed interaction, and a recording made after [clearAllData] stores
    a count of 2 with both interactions listed, not a fresh record. *)
Theorem recordInteraction_changes_the_defaults
    (now1 now2 now3 now4 : N) (first second : value) (st : gmap string value) :
  st !! "userData" = None ->
  is_json first = true ->
  is_json second = true ->
  let entry (t : value) (now : N) := VObj [("type", t); ("timestamp", num_of_N now)] in
  let recorded :=
    [ ("totalVideosWatched", VNum "0"); ("totalInterventions", VNum "1");
      ("preferredInterventions", VArr [entry first now2]);
      ("lastUsed", num_of_N now1) ] in
  let again :=
    [ ("totalVideosWatched", VNum "0"); ("totalInterventions", VNum "2");
      ("preferredInterventions", VArr [entry first now2; entry second now4]);
      ("lastUsed", num_of_N now3) ] in
  exists defaults',
    StorageManager.recordInteraction StorageManager.defaults now1 now2 first st
    = Some (defaults', <["userData" := VObj recorded]> st)
    /\ obj_get defaults' "userData" = VObj recorded
    /\ obj_get StorageManager.defaults "userData" <> VObj recorded
    /\ StorageManager.initializeDefaults defaults' ∅ !! "userData" = Some (VObj recorded)
    /\ exists defaults'',
         StorageManager.recordInteraction defaults' now3 now4 second
           (StorageManager.clearAllData (<["userData" := VObj recorded]> st))
         = Some (defaults'', {[ "userData" := VObj again ]}).
Proof.
  intros Hnone Hfirst Hsecond entry recorded again.
  assert (Hget : StorageManager.getSetting "userData" st = VUndefined)
    by (rewrite (getSetting_absent st _ Hnone); reflexivity).
  exists (obj_set StorageManager.defaults "userData" (VObj recorded)).
  assert (Hrun : StorageManager.recordInteraction StorageManager.defaults now1 now2 first st
                 = Some (obj_set StorageManager.defaults "userData" (VObj recorded),
                         <["userData" := VObj recorded]> st)).
  { unfold StorageManager.recordInteraction. rewrite Hget.
    cbn -[StorageManager.updateSetting num_of_N is_json].
    rewrite Hfirst. rewrite updateSetting_insert by reflexivity. reflexivity. }
  split; [exact Hrun|]. split; [reflexivity|]. split; [discriminate|].
  split; [reflexivity|].
  exists (obj_set (obj_set StorageManager.defaults "userData" (VObj recorded))
            "userData" (VObj again)).
  unfold StorageManager.recordInteraction, StorageManager.clearAllData.
  rewrite (getSetting_absent ∅ "userData" (lookup_empty _)).
  cbn -[StorageManager.updateSetting num_of_N is_json].
  rewrite Hsecond. rewrite updateSetting_insert by reflexivity. reflexivity.
Qed.

Lemma recordInteraction_changes_the_defaults_witness :
  let st : gmap string value := {[ "extensionEnabled" := VBool true ]} in
  st !! "userData" = None
  /\ exists defaults',
       StorageManager.recordInteraction StorageManager.defaults 1700000000000 1700000000001
         (VStr "extension_ready") st
       = Some (defaults',
               <["userData" :=
                   VObj [ ("totalVideosWatched", VNum "0"); ("totalInterventions", VNum "1");
                          ("preferredInterventions",
                           VArr [VObj [("type", VStr "extension_ready");
                                       ("timestamp", num_of_N 1700000000001)]]);
                          ("lastUsed", num_of_N 1700000000000) ]]> st)
       /\ js_get (obj_get defaults' "userData") "totalInterventions" = VNum "1".
Proof.
  intros st.
  assert (Hnone : st !! "userData" = None) by (apply lookup_singleton_ne; discriminate).
  destruct (recordInteraction_changes_the_defaults 1700000000000 1700000000001
              1700000000002 1700000000003 (VStr "extension_ready") (VStr "pause") st
              Hnone eq_refl eq_refl)
    as (defaults' & Hrun & Hdef & _).
  split; [exact Hnone|]. exists defaults'. split; [exact Hrun|].
  rewrite Hdef. reflexivity.
Defined.

(** Toggling a stored boolean feature twice restores the store: the
    first [toggleFeature] returns and stores the negation, leaving the
    other features as they were, [isFeatureEnabled] then reads the
    negation, and the second one returns the original value and leaves
    the store exactly as it was at the start. *)
Theorem toggleFeature_twice_restores_the_store
    (featureName : string) (features : list (string * value)) (enabled : bool)
    (st : gmap string value) :
  st !! "features" = Some (VObj features) ->
  own_lookup features featureName = Some (VBool enabled) ->
  exists st1,
    StorageManager.toggleFeature featureName st = Some (VBool (negb enabled), st1)
    /\ StorageManager.isFeatureEnabled featureName st1 = VBool (negb enabled)
    /\ (forall other, other <> featureName ->
          StorageManager.isFeatureEnabled other st1
          = StorageManager.isFeatureEnabled other st)
    /\ StorageManager.toggleFeature featureName st1 = Some (VBool enabled, st).
Proof.
  intros Hst Hown.
  set (flipped := own_replace features featureName (VBool (negb enabled))).
  assert (Hflip : own_lookup flipped featureName = Some (VBool (negb enabled))).
  { subst flipped. rewrite own_lookup_replace, String.eqb_refl, Hown. reflexivity. }
  exists (<["features" := VObj flipped]> st).
  assert (Hfirst : StorageManager.toggleFeature featureName st
                   = Some (VBool (negb enabled), <["features" := VObj flipped]> st)).
  { unfold StorageManager.toggleFeature.
    rewrite (getSetting_stored st "features" _ Hst). cbn [or_else truthy].
    rewrite (obj_get_own features _ _ Hown). cbn [truthy].
    unfold obj_set. rewrite Hown. fold flipped.
    rewrite (obj_get_own flipped _ _ Hflip).
    rewrite updateSetting_insert by reflexivity. reflexivity. }
  split; [exact Hfirst|]. split; [| split].
  - unfold StorageManager.isFeatureEnabled. rewrite getSetting_insert.
    cbn [opt_get js_get]. rewrite (obj_get_own flipped _ _ Hflip). reflexivity.
  - intros other Hne. unfold StorageManager.isFeatureEnabled.
    rewrite getSetting_insert, (getSetting_stored st "features" _ Hst).
    cbn [opt_get js_get]. unfold obj_get. subst flipped.
    rewrite own_lookup_replace.
    apply not_eq_sym, String.eqb_neq in Hne. rewrite Hne. reflexivity.
  - unfold StorageManager.toggleFeature. rewrite getSetting_insert. cbn [or_else truthy].
    rewrite (obj_get_own flipped _ _ Hflip). cbn [truthy]. rewrite negb_involutive.
    unfold obj_set. rewrite Hflip. subst flipped.
    rewrite (own_replace_back features featureName _ _ Hown).
    rewrite (obj_get_own features _ _ Hown).
    rewrite updateSetting_insert by reflexivity.
    rewrite insert_insert_eq, (insert_id st "features" _ Hst). reflexivity.
Qed.

Lemma toggleFeature_twice_restores_the_store_witness :
  let features := [("objectHighlighting", VBool true); ("focusMode", VBool false)] in
  let st : gmap string value := {[ "features" := VObj features ]} in
  st !! "features" = Some (VObj features)
  /\ own_lookup features "focusMode" = Some (VBool false)
  /\ exists st1,
       StorageManager.toggleFeature "focusMode" st = Some (VBool true, st1)
       /\ StorageManager.toggleFeature "focusMode" st1 = Some (VBool false, st).
Proof.
  intros features st.
  assert (Hst : st !! "features" = Some (VObj features)) by apply lookup_singleton_eq.
  assert (Hown : own_lookup features "focusMode" = Some (VBool false)) by reflexivity.
  destruct (toggleFeature_twice_restores_the_store "focusMode" features false st Hst Hown)
    as (st1 & H1 & _ & _ & H2).
  split; [exact Hst|]. split; [exact Hown|]. exists st1. split; [exact H1 | exact H2].
Defined.
